(** * certwatch-webhook-cli: the Go relay, embedded and verified

    A shallow embedding of the Go implementation (package [internal]:
    types.go, sender.go, stream.go, output.go and the files of
    [CreateSession] and [Run]; main.go) and the properties of the streaming
    pipeline stated in the design document.

    Conventions.
    - A Go [string] is a byte sequence: it is a [string] here, one [ascii]
      per byte.
    - A Go [int] / [int64] is a [Z]; where the code increments a counter the
      64-bit two's-complement wrap-around is written out ([wrap64]).
    - A Go [error] is [option string]: [None] is [nil], [Some msg] is a
      non-nil error whose [Error()] text is [msg].
    - What the code obtains from the outside (the network, the file system,
      the signal context, [encoding/json]) is read from an explicit
      environment record, so every function below is total and executable. *)

From Stdlib Require Import ZArith List String Ascii Bool Lia Arith.
From Stdlib Require Import DecimalString Floats.
Import ListNotations.

Local Open Scope string_scope.
Local Open Scope Z_scope.

(* ================================================================== *)
(** * Bytes and strings *)

(** The bytes of a Go string. *)
Definition byte_of_ascii (c : ascii) : Z := Z.of_N (N_of_ascii c).

Definition ascii_of_byte (b : Z) : ascii := ascii_of_N (Z.to_N (b mod 256)).

Definition bytes_of_string (s : string) : list Z :=
  map byte_of_ascii (list_ascii_of_string s).

Definition string_of_bytes (l : list Z) : string :=
  string_of_list_ascii (map ascii_of_byte l).

(** Go's [len(s)]. *)
Definition len (s : string) : Z := Z.of_nat (String.length s).

(* ================================================================== *)
(** * crypto/sha256 and crypto/hmac (FIPS 180-4, RFC 2104)

    [SignPayload] is three calls into the Go standard library; they are
    written out here so that the signature is a value one can compute. *)

Definition w32 (x : Z) : Z := x mod 4294967296.

Definition add32 (x y : Z) : Z := w32 (x + y).

Definition rotr32 (n x : Z) : Z :=
  Z.lor (Z.shiftr x n) (w32 (Z.shiftl x (32 - n))).

Definition not32 (x : Z) : Z := 4294967295 - x.

Definition Ch (x y z : Z) : Z := Z.lxor (Z.land x y) (Z.land (not32 x) z).
Definition Maj (x y z : Z) : Z :=
  Z.lxor (Z.lxor (Z.land x y) (Z.land x z)) (Z.land y z).
Definition bigSigma0 (x : Z) : Z :=
  Z.lxor (Z.lxor (rotr32 2 x) (rotr32 13 x)) (rotr32 22 x).
Definition bigSigma1 (x : Z) : Z :=
  Z.lxor (Z.lxor (rotr32 6 x) (rotr32 11 x)) (rotr32 25 x).
Definition smallSigma0 (x : Z) : Z :=
  Z.lxor (Z.lxor (rotr32 7 x) (rotr32 18 x)) (Z.shiftr x 3).
Definition smallSigma1 (x : Z) : Z :=
  Z.lxor (Z.lxor (rotr32 17 x) (rotr32 19 x)) (Z.shiftr x 10).

(** The constants of FIPS 180-4, from their definition: the round constants
    are the first 32 bits of the fractional parts of the cube roots of the
    first 64 primes, the initial digest those of the square roots of the
    first 8. (The Go package carries them as literal tables.) *)
Definition is_prime (n : Z) : bool :=
  forallb (fun d => negb (n mod Z.of_nat d =? 0)) (seq 2 (Z.to_nat n - 2)).

Definition first_primes (n : nat) : list Z :=
  firstn n (filter is_prime (map Z.of_nat (seq 2 310))).

(** Integer cube root, one bit at a time from bit [n - 1] down. *)
Fixpoint icbrt_bits (n : nat) (x acc : Z) : Z :=
  match n with
  | O => acc
  | S n' =>
      let c := acc + 2 ^ Z.of_nat n' in
      if c * c * c <=? x then icbrt_bits n' x c else icbrt_bits n' x acc
  end.

Definition frac_cbrt32 (p : Z) : Z := w32 (icbrt_bits 40 (p * 2 ^ 96) 0).
Definition frac_sqrt32 (p : Z) : Z := w32 (Z.sqrt (p * 2 ^ 64)).

Definition sha256_K : list Z :=
  Eval vm_compute in map frac_cbrt32 (first_primes 64).

(** The eight working words of the digest. *)
Record digest := mkDigest {
  h0 : Z; h1 : Z; h2 : Z; h3 : Z; h4 : Z; h5 : Z; h6 : Z; h7 : Z
}.

Definition digest_of_list (l : list Z) : digest :=
  mkDigest (nth 0 l 0) (nth 1 l 0) (nth 2 l 0) (nth 3 l 0)
           (nth 4 l 0) (nth 5 l 0) (nth 6 l 0) (nth 7 l 0).

Definition sha256_init : digest :=
  Eval vm_compute in digest_of_list (map frac_sqrt32 (first_primes 8)).

(** Big-endian decoding of a block into 32-bit words. *)
Fixpoint be_words (l : list Z) : list Z :=
  match l with
  | a :: b :: c :: d :: r =>
      (Z.shiftl a 24 + Z.shiftl b 16 + Z.shiftl c 8 + d) :: be_words r
  | _ => []
  end.

(** The message schedule, kept newest-first: [extend_schedule n w] adds [n]
    words to [w]. *)
Fixpoint extend_schedule (n : nat) (w : list Z) : list Z :=
  match n with
  | O => w
  | S n' =>
      let x := add32 (add32 (smallSigma1 (nth 1 w 0)) (nth 6 w 0))
                     (add32 (smallSigma0 (nth 14 w 0)) (nth 15 w 0)) in
      extend_schedule n' (x :: w)
  end.

Definition schedule (block : list Z) : list Z :=
  rev (extend_schedule 48 (rev (be_words block))).

Definition sha256_round (d : digest) (kw : Z * Z) : digest :=
  let '(k, w) := kw in
  let t1 := add32 (add32 (add32 (h7 d) (bigSigma1 (h4 d)))
                         (add32 (Ch (h4 d) (h5 d) (h6 d)) k)) w in
  let t2 := add32 (bigSigma0 (h0 d)) (Maj (h0 d) (h1 d) (h2 d)) in
  mkDigest (add32 t1 t2) (h0 d) (h1 d) (h2 d)
           (add32 (h3 d) t1) (h4 d) (h5 d) (h6 d).

Definition sha256_block (d : digest) (block : list Z) : digest :=
  let r := fold_left sha256_round (combine sha256_K (schedule block)) d in
  mkDigest (add32 (h0 d) (h0 r)) (add32 (h1 d) (h1 r))
           (add32 (h2 d) (h2 r)) (add32 (h3 d) (h3 r))
           (add32 (h4 d) (h4 r)) (add32 (h5 d) (h5 r))
           (add32 (h6 d) (h6 r)) (add32 (h7 d) (h7 r)).

(** [n] blocks of 64 bytes, in order. *)
Fixpoint sha256_blocks (n : nat) (d : digest) (l : list Z) : digest :=
  match n with
  | O => d
  | S n' => sha256_blocks n' (sha256_block d (firstn 64 l)) (skipn 64 l)
  end.

Definition be32 (x : Z) : list Z :=
  [ Z.shiftr x 24 mod 256; Z.shiftr x 16 mod 256;
    Z.shiftr x 8 mod 256; x mod 256 ].

Definition be64 (x : Z) : list Z :=
  be32 (Z.shiftr x 32 mod 4294967296) ++ be32 (x mod 4294967296).

(** Padding: 0x80, zeros up to 56 mod 64, then the bit length as a 64-bit
    big-endian integer (the Go digest keeps the length in a [uint64]). *)
Definition sha256_pad (msg : list Z) : list Z :=
  let n := Z.of_nat (List.length msg) in
  let zeros := Z.to_nat ((55 - n) mod 64) in
  msg ++ [128] ++ repeat 0 zeros ++ be64 ((8 * n) mod 2 ^ 64).

Definition sha256_Sum (msg : list Z) : list Z :=
  let p := sha256_pad msg in
  let d := sha256_blocks (List.length p / 64) sha256_init p in
  be32 (h0 d) ++ be32 (h1 d) ++ be32 (h2 d) ++ be32 (h3 d) ++
  be32 (h4 d) ++ be32 (h5 d) ++ be32 (h6 d) ++ be32 (h7 d).

Definition sha256_BlockSize : nat := 64.

(** [hmac.New(sha256.New, key)] followed by [Write(msg)] and [Sum(nil)]. *)
Definition hmac_key (key : list Z) : list Z :=
  let k := if (sha256_BlockSize <? List.length key)%nat
           then sha256_Sum key else key in
  k ++ repeat 0 (sha256_BlockSize - List.length k).

Definition hmac_sha256 (key msg : list Z) : list Z :=
  let k := hmac_key key in
  let ipad := map (fun b => Z.lxor b 0x36) k in
  let opad := map (fun b => Z.lxor b 0x5c) k in
  sha256_Sum (opad ++ sha256_Sum (ipad ++ msg)).

(** [encoding/hex]: two lower-case digits per byte. *)
Definition hextable : string := "0123456789abcdef".

Definition hex_digit (n : Z) : ascii :=
  match String.get (Z.to_nat n) hextable with
  | Some c => c
  | None => "0"%char
  end.

Fixpoint hex_EncodeToString (l : list Z) : string :=
  match l with
  | [] => ""
  | b :: r =>
      String (hex_digit (Z.shiftr b 4 mod 16))
        (String (hex_digit (b mod 16)) (hex_EncodeToString r))
  end.

(* ================================================================== *)
(** * sender.go: the signer *)

(** [SignPayload] computes the HMAC-SHA256 signature of [body] using the
    provided [secret] and returns the hex-encoded digest. *)
Definition SignPayload (body secret : string) : string :=
  hex_EncodeToString
    (hmac_sha256 (bytes_of_string secret) (bytes_of_string body)).

(* ================================================================== *)
(** * types.go *)

(** Parsed command-line flags. *)
Record CliOptions := mkCliOptions {
  URL : string;
  Secret : string;
  APIKey : string;
  File : string;
  Raw : bool;
  Preview : bool;
  Verbose : bool;
  NoColor : bool;
  APIEndpoint : string
}.

Record SessionData := mkSessionData {
  sd_TestID : string;
  sd_Secret : string;
  sd_StreamURL : string;
  sd_ExpiresInSeconds : Z;
  sd_StreamDurationSeconds : Z
}.

Record SessionError := mkSessionError {
  se_Code : string;
  se_Message : string
}.

(** The JSON envelope of the session API; the two pointers are options. *)
Record SessionResponse := mkSessionResponse {
  sr_Success : bool;
  sr_Data : option SessionData;
  sr_Error : option SessionError
}.

Record PayloadData := mkPayloadData {
  Fingerprint : string;
  SerialNumber : string;
  CommonName : string;
  Domains : list string;
  IssuerOrg : string;
  IssuerCN : string;
  NotBefore : string;
  NotAfter : string;
  CTLogSources : list string;
  SeenAt : string
}.

Record WebhookPayload := mkWebhookPayload {
  Event : string;
  EventID : string;
  Timestamp : string;
  APIVersion : string;
  Data : PayloadData
}.

Record StreamMeta := mkStreamMeta {
  sm_TestID : string;
  sm_StreamDurationSeconds : Z
}.

(** The outcome of delivering one payload to the user's endpoint. *)
Record DeliveryResult := mkDeliveryResult {
  Index : Z;
  dr_CommonName : string;
  Status : Z;
  StatusText : string;
  LatencyMs : Z;
  Success : bool;
  Error : string
}.

(* ================================================================== *)
(** * The outside world *)

(** Go's [error]. *)
Definition error := option string.

(** [fmt.Errorf] always builds a non-nil error. *)
Definition Errorf (msg : string) : error := Some msg.

(** Formatting of an integer with [%d]. *)
Definition itoa (z : Z) : string :=
  NilZero.string_of_int (Z.to_int z).

Record HttpRequest := mkHttpRequest {
  req_method : string;
  req_url : string;
  req_headers : list (string * string);
  req_body : string
}.

(** The bytes a header name may be made of (the token characters). *)
Definition validHeaderFieldByte (c : ascii) : bool :=
  let n := byte_of_ascii c in
  ((48 <=? n) && (n <=? 57)) || ((65 <=? n) && (n <=? 90))
  || ((97 <=? n) && (n <=? 122))
  || existsb (Ascii.eqb c) (list_ascii_of_string "!#$%&'*+-.^_`|~").

Definition upperByte (c : ascii) : ascii :=
  let n := byte_of_ascii c in
  if (97 <=? n) && (n <=? 122) then ascii_of_byte (n - 32) else c.

Definition lowerByte (c : ascii) : ascii :=
  let n := byte_of_ascii c in
  if (65 <=? n) && (n <=? 90) then ascii_of_byte (n + 32) else c.

Fixpoint canonicalBytes (upper : bool) (s : string) : string :=
  match s with
  | EmptyString => EmptyString
  | String c r =>
      let c' := if upper then upperByte c else lowerByte c in
      String c' (canonicalBytes (Ascii.eqb c' "-") r)
  end.

(** [textproto.CanonicalMIMEHeaderKey], the form under which [net/http]
    stores and looks up header names: in a name made of token characters
    the first letter and every letter after a hyphen is upper case and the
    other letters are lower case; any other name is left as it is. *)
Definition CanonicalMIMEHeaderKey (s : string) : string :=
  if forallb validHeaderFieldByte (list_ascii_of_string s)
  then canonicalBytes true s else s.

(** [Header.Set]: replaces the values of a key, stored under its canonical
    name. *)
Definition Header_Set (k v : string) (h : list (string * string))
  : list (string * string) :=
  (filter (fun kv => negb (String.eqb (CanonicalMIMEHeaderKey (fst kv))
                             (CanonicalMIMEHeaderKey k))) h
   ++ [(CanonicalMIMEHeaderKey k, v)])%list.

(** What [client.Do] can return: an error (timeout, refused connection,
    cancelled context, ...) or a response with its status code and body. *)
Inductive HttpReply :=
| TransportError (msg : string)
| Response (status : Z) (body : string).

(** One call of [client.Do]: the request handed to the client, and the
    requests the client sent after it on its own because the replies were
    redirections (the client of [DeliverPayload] has the default policy,
    which follows them). *)
Record Exchange := mkExchange {
  ex_request : HttpRequest;
  ex_followups : list HttpRequest
}.

(** The calls of [client.Do] so far, oldest first. *)
Definition Net := list Exchange.

(** The requests put on the wire so far, oldest first. *)
Definition wire (net : Net) : list HttpRequest :=
  flat_map (fun e => ex_request e :: ex_followups e) net.

(** Everything the program reads from outside itself. *)
Record Env := mkEnv {
  (** [encoding/json]: marshalling of a payload (left: the bytes, right: the
      error text), the two [Unmarshal] of the stream, whose error is only
      tested against [nil], and the decoder of the session envelope (left:
      the value, right: the error text). *)
  json_Marshal : WebhookPayload -> string + string;
  json_UnmarshalMeta : string -> option StreamMeta;
  json_UnmarshalPayload : string -> option WebhookPayload;
  json_DecodeSession : string -> SessionResponse + string;
  (** [http.NewRequest]: the error for a method and URL, if any. *)
  http_NewRequest : string -> string -> option string;
  (** [http.StatusText]. *)
  http_StatusText : Z -> string;
  (** The peer: what the [n]-th call of [client.Do] returns for its
      request (the last reply, when redirections were followed) and the
      time in milliseconds the call took. *)
  http_Do : nat -> HttpRequest -> HttpReply * Z;
  (** The requests the client sent after the request of the [n]-th call,
      following redirections; none when the first reply is final. *)
  http_Followups : nat -> HttpRequest -> list HttpRequest
}.

(** [client.Do]: the request goes on the wire, followed by the requests of
    the redirections the client follows, and the call returns the last
    reply or an error. *)
Definition client_Do (env : Env) (req : HttpRequest) (net : Net)
  : HttpReply * Z * Net :=
  (http_Do env (List.length net) req,
   (net ++ [mkExchange req (http_Followups env (List.length net) req)])%list).

(* ================================================================== *)
(** * sender.go: the delivery client *)

(** [DeliverPayload] sends the payload as a JSON POST to [targetURL] with the
    webhook headers and the HMAC signature, and describes the outcome. *)
Definition DeliverPayload (env : Env) (payload : WebhookPayload)
    (targetURL secret : string) (index : Z) (net : Net)
  : DeliveryResult * Net :=
  let result :=
    mkDeliveryResult index (CommonName (Data payload)) 0 "" 0 false "" in
  match json_Marshal env payload with
  | inr err =>
      (mkDeliveryResult (Index result) (dr_CommonName result) (Status result)
         (StatusText result) (LatencyMs result) (Success result)
         ("failed to marshal payload: " ++ err), net)
  | inl body =>
      let signature := SignPayload body secret in
      match http_NewRequest env "POST" targetURL with
      | Some err =>
          (mkDeliveryResult (Index result) (dr_CommonName result)
             (Status result) (StatusText result) (LatencyMs result)
             (Success result) ("failed to create request: " ++ err), net)
      | None =>
          let h := Header_Set "Content-Type" "application/json" [] in
          let h := Header_Set "User-Agent" "CertWatch-Webhook/1.0" h in
          let h := Header_Set "X-CertWatch-Event-Id" (EventID payload) h in
          let h := Header_Set "X-CertWatch-Timestamp" (Timestamp payload) h in
          let h := Header_Set "X-CertWatch-Signature"
                     ("sha256=" ++ signature) h in
          let req := mkHttpRequest "POST" targetURL h body in
          let '(reply, elapsed, net') := client_Do env req net in
          match reply with
          | TransportError err =>
              (mkDeliveryResult (Index result) (dr_CommonName result)
                 (Status result) (StatusText result) elapsed
                 (Success result) ("delivery failed: " ++ err), net')
          | Response code _ =>
              let text := http_StatusText env code in
              let success := (200 <=? code) && (code <? 300) in
              (mkDeliveryResult (Index result) (dr_CommonName result)
                 code text elapsed success
                 (if negb success
                  then "received status " ++ itoa code ++ " " ++ text
                  else Error result), net')
          end
      end
  end.

(* ================================================================== *)
(** * strings and bufio, as stream.go uses them *)

(** [strings.HasPrefix(s, prefix)]. *)
Definition HasPrefix (s prefix : string) : bool := String.prefix prefix s.

(** [strings.TrimPrefix(s, prefix)]. *)
Definition TrimPrefix (s prefix : string) : string :=
  if HasPrefix s prefix
  then substring (String.length prefix)
                 (String.length s - String.length prefix) s
  else s.

(** The UTF-8 encodings of the code points [unicode.IsSpace] accepts: the six
    ASCII ones, U+0085, U+00A0, U+1680, U+2000 to U+200A, U+2028, U+2029,
    U+202F, U+205F and U+3000. *)
Definition space_encodings : list (list Z) :=
  [ [0x09]; [0x0A]; [0x0B]; [0x0C]; [0x0D]; [0x20];
    [0xC2; 0x85]; [0xC2; 0xA0]; [0xE1; 0x9A; 0x80];
    [0xE2; 0x80; 0x80]; [0xE2; 0x80; 0x81]; [0xE2; 0x80; 0x82];
    [0xE2; 0x80; 0x83]; [0xE2; 0x80; 0x84]; [0xE2; 0x80; 0x85];
    [0xE2; 0x80; 0x86]; [0xE2; 0x80; 0x87]; [0xE2; 0x80; 0x88];
    [0xE2; 0x80; 0x89]; [0xE2; 0x80; 0x8A];
    [0xE2; 0x80; 0xA8]; [0xE2; 0x80; 0xA9]; [0xE2; 0x80; 0xAF];
    [0xE2; 0x81; 0x9F]; [0xE3; 0x80; 0x80] ].

Fixpoint strip_bytes (p l : list Z) : option (list Z) :=
  match p, l with
  | [], _ => Some l
  | a :: p', b :: l' => if a =? b then strip_bytes p' l' else None
  | _ :: _, [] => None
  end.

(** Removes one leading white-space rune, if there is one. *)
Fixpoint strip_one (encs : list (list Z)) (l : list Z) : option (list Z) :=
  match encs with
  | [] => None
  | e :: encs' =>
      match strip_bytes e l with
      | Some r => Some r
      | None => strip_one encs' l
      end
  end.

Fixpoint trim_left (fuel : nat) (encs : list (list Z)) (l : list Z)
  : list Z :=
  match fuel with
  | O => l
  | S fuel' =>
      match strip_one encs l with
      | Some r => trim_left fuel' encs r
      | None => l
      end
  end.

(** [strings.TrimSpace]: leading and trailing white space removed, white
    space as Unicode defines it. A trailing rune is recognised from its last
    byte backwards, hence the reversed encodings. *)
Definition TrimSpace (s : string) : string :=
  let l := bytes_of_string s in
  let l1 := trim_left (List.length l) space_encodings l in
  let r1 := trim_left (List.length l1) (map (@rev Z) space_encodings)
                      (rev l1) in
  string_of_bytes (rev r1).

(** The input cut at each newline; what follows the last newline is a line
    if it is not empty. *)
Fixpoint split_lines (s : string) (cur : list ascii) : list string :=
  match s with
  | EmptyString =>
      match cur with
      | [] => []
      | _ => [string_of_list_ascii (rev cur)]
      end
  | String c r =>
      if Ascii.eqb c "010"%char
      then string_of_list_ascii (rev cur) :: split_lines r []
      else split_lines r (c :: cur)
  end.

(** [dropCR]: one trailing carriage return removed. *)
Definition dropCR (line : string) : string :=
  match rev (list_ascii_of_string line) with
  | c :: r => if Ascii.eqb c "013"%char
              then string_of_list_ascii (rev r)
              else line
  | [] => line
  end.

(** [bufio.ScanLines] over a whole input: its lines, each without its end
    of line. *)
Definition ScanLines (s : string) : list string :=
  map dropCR (split_lines s []).

(** The scanner buffer of [ConnectStream]: up to 1 MB per line. *)
Definition maxTokenSize : Z := 1024 * 1024.

Definition ErrTooLong : string := "bufio.Scanner: token too long".

(** Whether the input ends inside a line: it is not empty and its last
    byte is not a newline. *)
Fixpoint endsInLine (s : string) : bool :=
  match s with
  | EmptyString => false
  | String c EmptyString => negb (Ascii.eqb c "010"%char)
  | String _ r => endsInLine r
  end.

(** The tokens [scanner.Scan] delivers and the value of [scanner.Err]
    afterwards, for a body whose lines are [lines] and that ended cleanly
    ([readErr = None]) or not. A line must fit the buffer together with its
    newline: one of [maxTokenSize] bytes or more stops the scan. Only a
    last line without newline may fill the buffer, and only when the read
    that returned its last bytes returned the end of the body with them
    ([atEnd]): the scanner then learns of the end before it asks for room. *)
Fixpoint scan_tokens (lines : list string) (atEnd : bool) (readErr : error)
  : list string * error :=
  match lines with
  | [] => ([], readErr)
  | l :: r =>
      let room :=
        match r with
        | [] => if atEnd then maxTokenSize + 1 else maxTokenSize
        | _ => maxTokenSize
        end in
      if room <=? len l
      then ([], Some ErrTooLong)
      else let '(ls, e) := scan_tokens r atEnd readErr in (dropCR l :: ls, e)
  end.

(* ================================================================== *)
(** * stream.go *)

(** The callbacks of a stream; a [nil] function is [None]. The state the Go
    closures capture and mutate is the type [St], passed explicitly. *)
Record StreamCallbacks (St : Type) := mkStreamCallbacks {
  OnMeta : option (StreamMeta -> St -> St);
  OnPayload : option (WebhookPayload -> St -> St);
  OnComplete : option (string -> St -> St);
  OnError : option (string -> St -> St)
}.
Arguments mkStreamCallbacks {St}.
Arguments OnMeta {St}.
Arguments OnPayload {St}.
Arguments OnComplete {St}.
Arguments OnError {St}.

(** [dispatchEvent] routes a parsed data payload to the callback of its
    event type. *)
Definition dispatchEvent {St : Type} (env : Env) (eventType data : string)
    (callbacks : StreamCallbacks St) (st : St) : St :=
  if String.eqb eventType "meta" then
    match OnMeta callbacks with
    | Some f =>
        match json_UnmarshalMeta env data with
        | Some meta => f meta st
        | None => st
        end
    | None => st
    end
  else if String.eqb eventType "complete" then
    match OnComplete callbacks with
    | Some f => f data st
    | None => st
    end
  else if String.eqb eventType "error" then
    match OnError callbacks with
    | Some f => f data st
    | None => st
    end
  else
    match OnPayload callbacks with
    | Some f =>
        match json_UnmarshalPayload env data with
        | Some payload => f payload st
        | None => st
        end
    | None => st
    end.

(** The signal context: [cancelTick = Some c] when the context is cancelled,
    and then every observation from the [c]-th on finds it done. Each
    [select] on [ctx.Done()] and each call of [ctx.Err()] is one
    observation; they are numbered in program order. *)
Record Context := mkContext { cancelTick : option nat }.

Definition ctx_Done (ctx : Context) (tick : nat) : bool :=
  match cancelTick ctx with
  | Some c => (c <=? tick)%nat
  | None => false
  end.

Definition ctx_Err_text : string := "context canceled".

(** The body of the scan loop for one line: the new pending event type and
    the state after the line was handled. [dispatch] is the call
    [dispatchEvent(currentEvent, data, callbacks)] with the callbacks
    fixed. *)
Definition handleLine {St : Type} (dispatch : string -> string -> St -> St)
    (line : string) (currentEvent : string) (st : St) : string * St :=
  if HasPrefix line ":" then (currentEvent, st)
  else if String.eqb line EmptyString then (EmptyString, st)
  else if HasPrefix line "event:" then
    (TrimSpace (TrimPrefix line "event:"), st)
  else if HasPrefix line "data:" then
    let data := TrimPrefix line "data:" in
    let data := TrimSpace data in
    (currentEvent, dispatch currentEvent data st)
  else (currentEvent, st).

(** The scan loop. The result tells whether the loop was left through the
    cancellation check ([true]) or because the scanner had no more tokens,
    and gives the pending event type, the state, and the number of the next
    observation of the context. *)
Fixpoint scanLoop {St : Type} (ctx : Context)
    (dispatch : string -> string -> St -> St) (lines : list string)
    (tick : nat) (currentEvent : string) (st : St)
  : bool * string * St * nat :=
  match lines with
  | [] => (false, currentEvent, st, tick)
  | line :: rest =>
      if ctx_Done ctx tick then (true, currentEvent, st, S tick)
      else
        let '(ev, st') := handleLine dispatch line currentEvent st in
        scanLoop ctx dispatch rest (S tick) ev st'
  end.

(** What the stream endpoint does with the GET request. *)
Record StreamSource := mkStreamSource {
  (** the reply to the request *)
  ss_reply : HttpReply;
  (** for a response: the error that ended the body, if it did not end at
      end of file *)
  ss_readErr : error;
  (** for a response: whether the read that returned the last bytes of the
      body returned its end (end of file, or the error) with them rather
      than at the next read *)
  ss_endWithData : bool
}.

(** The tokens of a body and the error of the scanner after them. *)
Definition scanBody (src : StreamSource) (body : string)
  : list string * error :=
  scan_tokens (split_lines body []) (endsInLine body && ss_endWithData src)
    (ss_readErr src).

(** [ConnectStream] connects to the stream and processes events through the
    callbacks until the stream ends, the context is cancelled, or an error
    occurs. Returns the error, the state, and the next observation number. *)
Definition ConnectStream {St : Type} (env : Env) (ctx : Context)
    (src : StreamSource) (streamURL secret : string)
    (callbacks : StreamCallbacks St) (tick : nat) (st : St)
  : error * St * nat :=
  match http_NewRequest env "GET" streamURL with
  | Some err => (Errorf ("failed to create stream request: " ++ err), st, tick)
  | None =>
      match ss_reply src with
      | TransportError err =>
          (Errorf ("failed to connect to stream: " ++ err), st, tick)
      | Response code body =>
          if negb (code =? 200) then
            (Errorf ("stream returned status " ++ itoa code), st, tick)
          else
            let '(tokens, scanErr) := scanBody src body in
            let '(cancelled, _, st', tick') :=
              scanLoop ctx
                (fun eventType data => dispatchEvent env eventType data callbacks)
                tokens tick EmptyString st in
            if cancelled then (Some ctx_Err_text, st', tick')
            else
              match scanErr with
              | Some err =>
                  if ctx_Done ctx tick'
                  then (Some ctx_Err_text, st', S tick')
                  else (Errorf ("stream read error: " ++ err), st', S tick')
              | None => (None, st', tick')
              end
      end
  end.

(* ================================================================== *)
(** * The session bootstrapper *)

Definition sessionPath : string := "/api/v1/tools/webhook-test/session".

(** [CreateSession] posts to the session endpoint and returns the envelope,
    or an error. [reply] is the answer of the endpoint to the request (the
    key header and, when [userSecret] is not empty, the JSON object that
    carries it). The result is the Go pair: the pointer ([None] is [nil])
    and the error. *)
Definition CreateSession (env : Env) (reply : HttpReply)
    (apiEndpoint apiKey userSecret : string)
  : option SessionResponse * error :=
  let url := apiEndpoint ++ sessionPath in
  match http_NewRequest env "POST" url with
  | Some err => (None, Errorf ("failed to create session request: " ++ err))
  | None =>
      match reply with
      | TransportError err =>
          (None, Errorf ("failed to create session: " ++ err))
      | Response code body =>
          if negb (code =? 200) && negb (code =? 201) then
            match json_DecodeSession env body with
            | inl sessResp =>
                match sr_Error sessResp with
                | Some e =>
                    (None, Errorf ("session creation failed (" ++ itoa code
                                   ++ "): " ++ se_Code e ++ " - "
                                   ++ se_Message e))
                | None =>
                    (None, Errorf ("session creation failed with status "
                                   ++ itoa code))
                end
            | inr _ =>
                (None, Errorf ("session creation failed with status "
                               ++ itoa code))
            end
          else
            match json_DecodeSession env body with
            | inr err =>
                (None, Errorf ("failed to decode session response: " ++ err))
            | inl sessResp =>
                if negb (sr_Success sessResp)
                   || match sr_Data sessResp with
                      | None => true
                      | Some _ => false
                      end
                then
                  match sr_Error sessResp with
                  | Some e =>
                      (None, Errorf ("session creation failed: "
                                     ++ se_Code e ++ " - " ++ se_Message e))
                  | None =>
                      (None, Errorf
                         "session creation returned unsuccessful response")
                  end
                else (Some sessResp, None)
            end
      end
  end.

(* ================================================================== *)
(** * output.go: the summary *)

Definition ESC : string := String (ascii_of_nat 27) EmptyString.
Definition colorReset : string := ESC ++ "[0m".
Definition colorRed : string := ESC ++ "[31m".
Definition colorGreen : string := ESC ++ "[32m".
Definition colorYellow : string := ESC ++ "[33m".
Definition colorCyan : string := ESC ++ "[36m".
Definition colorDim : string := ESC ++ "[2m".
Definition colorBold : string := ESC ++ "[1m".

Definition color (useColor : bool) (code text : string) : string :=
  if useColor then code ++ text ++ colorReset else text.

(** The conversion [float64(n)] of an integer: the nearest double, ties to
    even. *)
Definition float64_of_int (n : Z) : float :=
  SF2Prim (binary_normalize prec emax n 0 false).

(** [n] rounded to the nearest multiple of [d], ties to the even quotient;
    the result is the quotient. *)
Definition div_round_even (n d : Z) : Z :=
  let q := n / d in
  let r := n mod d in
  if 2 * r <? d then q
  else if d <? 2 * r then q + 1
  else if Z.even q then q else q + 1.

(** The verb [%.1f]: the exact value of the double rounded to one decimal,
    ties to even. *)
Definition format_f1 (f : float) : string :=
  let render (neg : bool) (tenths : Z) :=
    (if neg then "-" else EmptyString)
    ++ itoa (tenths / 10) ++ "." ++ itoa (tenths mod 10) in
  match Prim2SF f with
  | S754_nan => "NaN"
  | S754_infinity neg => if neg then "-Inf" else "+Inf"
  | S754_zero neg => render neg 0
  | S754_finite neg m e =>
      if 0 <=? e then render neg (10 * Z.pos m * 2 ^ e)
      else render neg (div_round_even (10 * Z.pos m) (2 ^ (- e)))
  end.

(** The values [PrintSummary] computes before it prints. *)
Record SummaryVars := mkSummaryVars {
  total : Z;
  succeeded : Z;
  totalLatency : Z;
  failed : Z;
  elapsedSec : float;
  avgMs : Z;
  pct : float
}.

Definition wrap64 (x : Z) : Z := (x + 2 ^ 63) mod 2 ^ 64 - 2 ^ 63.

Definition summaryVars (results : list DeliveryResult) (elapsedMs : Z)
  : SummaryVars :=
  let total := Z.of_nat (List.length results) in
  let '(succeeded, totalLatency) :=
    fold_left
      (fun acc r =>
         let '(succeeded, totalLatency) := acc in
         ((if Success r then succeeded + 1 else succeeded),
          wrap64 (totalLatency + LatencyMs r)))
      results (0, 0) in
  let failed := total - succeeded in
  let elapsedSec := (float64_of_int elapsedMs / 1000)%float in
  let avgMs := if 0 <? total then Z.quot totalLatency total else 0 in
  let pct :=
    if 0 <? total
    then (float64_of_int succeeded / float64_of_int total * 100)%float
    else 0%float in
  mkSummaryVars total succeeded totalLatency failed elapsedSec avgMs pct.

(** U+2500, thirty-six times. *)
Definition separator : string :=
  String.concat EmptyString
    (repeat (string_of_bytes [0xE2; 0x94; 0x80]) 36).

(** [PrintSummary]: the lines written to the standard output. *)
Definition PrintSummary (useColor : bool) (results : list DeliveryResult)
    (elapsedMs : Z) : list string :=
  let v := summaryVars results elapsedMs in
  let deliveredColor :=
    if succeeded v <? total v then colorYellow else colorGreen in
  [ EmptyString;
    "  " ++ color useColor colorDim separator;
    "  " ++ color useColor colorBold "Summary";
    "  " ++ color useColor colorDim separator;
    "  " ++ color useColor colorDim "Delivered:" ++ " "
         ++ color useColor deliveredColor
              (itoa (succeeded v) ++ "/" ++ itoa (total v)
               ++ " (" ++ format_f1 (pct v) ++ "%)") ]
  ++ (if 0 <? failed v
      then [ "  " ++ color useColor colorDim "Failed:   " ++ " "
                  ++ color useColor colorRed (itoa (failed v)) ]
      else [])
  ++ [ "  " ++ color useColor colorDim "Elapsed:  " ++ " "
            ++ format_f1 (elapsedSec v) ++ "s" ]
  ++ (if 0 <? total v
      then [ "  " ++ color useColor colorDim "Avg:      " ++ " "
                  ++ itoa (avgMs v) ++ "ms" ]
      else [])
  ++ [ EmptyString ].

(* ================================================================== *)
(** * The orchestrator *)

(** What [Run] returns when it returns an error, one constructor per
    [fmt.Errorf] of [Run] and [checkForFailures]. [ErrNilPointer] is not a
    returned error but the run-time panic of reading through a [nil]
    session pointer. *)
Inductive RunError :=
| ErrCreateSession (cause : string)
| ErrOpenFile (file cause : string)
| ErrStream (cause : string)
| ErrDeliveriesFailed
| ErrNilPointer.

Definition RunError_text (e : RunError) : string :=
  match e with
  | ErrCreateSession cause => "failed to create session: " ++ cause
  | ErrOpenFile file cause =>
      "failed to open output file " ++ file ++ ": " ++ cause
  | ErrStream cause => "stream error: " ++ cause
  | ErrDeliveriesFailed => "some deliveries failed"
  | ErrNilPointer =>
      "runtime error: invalid memory address or nil pointer dereference"
  end.

(** What [Run] writes, in order: a constructor per printing function of
    output.go, one for a line of the raw sink and one for a line appended to
    the file. *)
Inductive Output :=
| OutPreview (secret version : string)
| OutTip
| OutConnecting
| OutNewline
| OutConnected
| OutInfo (msg : string)
| OutError (msg : string)
| OutBanner (version target mode : string) (duration : Z)
| OutRawLine (line : string)
| OutFileLine (line : string)
| OutDelivery (result : DeliveryResult)
| OutVerbosePayload (payload : WebhookPayload)
| OutFileSaved (index : Z) (commonName : string)
| OutSummary (lines : list string).

(** The world of one run. *)
Record World := mkWorld {
  w_env : Env;
  w_ctx : Context;
  (** the environment variable NO_COLOR is set *)
  w_NO_COLOR : bool;
  (** [randomHex(32)] *)
  w_randomHex : string;
  (** the session endpoint *)
  w_session : HttpReply;
  (** [os.OpenFile] in append mode: the error for a path, if any *)
  w_openFile : string -> error;
  (** the stream endpoint *)
  w_stream : StreamSource;
  (** the duration of the stream phase *)
  w_elapsedMs : Z
}.

(** The variables of [Run] that its closures share, the requests and the
    output so far, the error [ConnectStream] returned and the number of
    observations of the context made when it returned. *)
Record RunState := mkRunState {
  results : list DeliveryResult;
  index : Z;
  filePayloads : Z;
  streamDuration : Z;
  connectedOnce : bool;
  net : Net;
  out : list Output;
  streamErr : error;
  clock : nat
}.

Definition emit (o : Output) (st : RunState) : RunState :=
  mkRunState (results st) (index st) (filePayloads st) (streamDuration st)
    (connectedOnce st) (net st) (out st ++ [o])%list (streamErr st) (clock st).

Definition emit_unless (quiet : bool) (o : Output) (st : RunState)
  : RunState :=
  if quiet then st else emit o st.

Definition isEmpty (s : string) : bool := String.eqb s EmptyString.

(** [printStreamBanner]. *)
Definition printStreamBanner (version : string) (opts : CliOptions)
    (mode : string) (duration : Z) : Output :=
  let targets : list string :=
    ((if isEmpty (URL opts) then [] else [URL opts])
     ++ (if isEmpty (File opts) then []
         else [String.append "file: " (File opts)])
     ++ (if Raw opts then ["stdout"] else []))%list in
  OutBanner version (String.concat " + " targets) mode duration.

Definition onMeta (meta : StreamMeta) (st : RunState) : RunState :=
  mkRunState (results st) (index st) (filePayloads st)
    (sm_StreamDurationSeconds meta)
    (connectedOnce st) (net st) (out st) (streamErr st) (clock st).

(** The payload callback of [Run]. [outFile] tells whether the file is
    open. *)
Definition onPayload (env : Env) (opts : CliOptions) (outFile : bool)
    (secret : string) (payload : WebhookPayload) (st : RunState)
  : RunState :=
  let currentIndex := wrap64 (index st + 1) in
  let st :=
    mkRunState (results st) currentIndex (filePayloads st)
      (streamDuration st) (connectedOnce st) (net st) (out st)
      (streamErr st) (clock st) in
  let st :=
    if Raw opts then
      match json_Marshal env payload with
      | inl line => emit (OutRawLine line) st
      | inr _ => st
      end
    else st in
  let st :=
    if outFile then
      match json_Marshal env payload with
      | inl line =>
          let st := emit (OutFileLine line) st in
          mkRunState (results st) (index st) (wrap64 (filePayloads st + 1))
            (streamDuration st) (connectedOnce st) (net st) (out st)
            (streamErr st) (clock st)
      | inr _ => st
      end
    else st in
  if negb (isEmpty (URL opts)) then
    let '(result, net') :=
      DeliverPayload env payload (URL opts) secret currentIndex (net st) in
    let st :=
      mkRunState (results st) (index st) (filePayloads st)
        (streamDuration st) (connectedOnce st) net' (out st)
        (streamErr st) (clock st) in
    let st := emit_unless (Raw opts) (OutDelivery result) st in
    let st :=
      if Verbose opts && negb (Raw opts)
      then emit (OutVerbosePayload payload) st else st in
    mkRunState (results st ++ [result])%list (index st) (filePayloads st)
      (streamDuration st) (connectedOnce st) (net st) (out st)
      (streamErr st) (clock st)
  else if outFile && negb (Raw opts) then
    emit (OutFileSaved currentIndex (CommonName (Data payload))) st
  else st.

Definition onComplete (opts : CliOptions) (message : string)
    (st : RunState) : RunState :=
  emit_unless (Raw opts) (OutInfo ("Stream complete: " ++ message)) st.

Definition onError (opts : CliOptions) (message : string)
    (st : RunState) : RunState :=
  emit_unless (Raw opts) (OutError ("Stream error: " ++ message)) st.

(** [connectedOnce.Do(PrintConnected)]. *)
Definition connectedOnce_Do (st : RunState) : RunState :=
  if connectedOnce st then st
  else
    emit OutConnected
      (mkRunState (results st) (index st) (filePayloads st)
         (streamDuration st) true (net st) (out st) (streamErr st)
         (clock st)).

(** The callbacks [Run] hands to [ConnectStream]; in secret mode the first
    meta event or payload prints the connection message. *)
Definition runCallbacks (env : Env) (opts : CliOptions) (outFile : bool)
    (secret : string) : StreamCallbacks RunState :=
  let callbacks :=
    mkStreamCallbacks (Some onMeta)
      (Some (onPayload env opts outFile secret))
      (Some (onComplete opts)) (Some (onError opts)) in
  if isEmpty (APIKey opts) && negb (Raw opts) then
    let originalOnMeta := OnMeta callbacks in
    let originalOnPayload := OnPayload callbacks in
    mkStreamCallbacks
      (Some (fun meta st =>
               let st := connectedOnce_Do st in
               match originalOnMeta with
               | Some f => f meta st
               | None => st
               end))
      (Some (fun payload st =>
               let st := connectedOnce_Do st in
               match originalOnPayload with
               | Some f => f payload st
               | None => st
               end))
      (OnComplete callbacks) (OnError callbacks)
  else callbacks.

(** [checkForFailures] returns an error if any delivery failed. *)
Fixpoint checkForFailures (results : list DeliveryResult)
  : option RunError :=
  match results with
  | [] => None
  | r :: rest =>
      if negb (Success r) then Some ErrDeliveriesFailed
      else checkForFailures rest
  end.

Definition initialState : RunState :=
  mkRunState [] 0 0 0 false [] [] None O.

(** The two reports that follow the stream: the number of payloads saved
    and the delivery summary. *)
Definition printReports (w : World) (opts : CliOptions) (st : RunState)
  : RunState :=
  let elapsedMs := w_elapsedMs w in
  let finalResults := results st in
  let finalFilePayloads := filePayloads st in
  let st :=
    if negb (isEmpty (File opts)) && negb (Raw opts)
    then emit (OutInfo ("Saved " ++ itoa finalFilePayloads
                        ++ " payloads to " ++ File opts)) st
    else st in
  let useColor := if w_NO_COLOR w then false else negb (NoColor opts) in
  if negb (Raw opts) && negb (isEmpty (URL opts))
  then emit (OutSummary (PrintSummary useColor finalResults elapsedMs)) st
  else st.

(** The part of [Run] that follows the return of [ConnectStream] with the
    error [err], at observation [tick] of the context. *)
Definition finishRun (w : World) (opts : CliOptions) (err : error)
    (st : RunState) (tick : nat) : option RunError * RunState :=
  let st :=
    mkRunState (results st) (index st) (filePayloads st)
      (streamDuration st) (connectedOnce st) (net st) (out st) err tick in
  let finalResults := results st in
  let finalFilePayloads := filePayloads st in
  let st := printReports w opts st in
  let hasOutput :=
    (0 <? Z.of_nat (List.length finalResults)) || (0 <? finalFilePayloads) in
  match err with
  | Some cause =>
      if ctx_Done (w_ctx w) tick && hasOutput then
        (checkForFailures finalResults,
         emit_unless (Raw opts) (OutInfo "Interrupted by signal") st)
      else if negb (ctx_Done (w_ctx w) (S tick)) then
        (Some (ErrStream cause), st)
      else (checkForFailures finalResults, st)
  | None => (checkForFailures finalResults, st)
  end.

(** The part of [Run] from the call of [ConnectStream] on. *)
Definition runStream (w : World) (opts : CliOptions) (outFile : bool)
    (secret streamURL : string) (st : RunState)
  : option RunError * RunState :=
  let callbacks := runCallbacks (w_env w) opts outFile secret in
  let '(err, st, tick) :=
    ConnectStream (w_env w) (w_ctx w) (w_stream w) streamURL secret
      callbacks O st in
  finishRun w opts err st tick.

(** The part of [Run] from the opening of the output file on. *)
Definition runOutputs (w : World) (opts : CliOptions)
    (secret streamURL : string) (st : RunState)
  : option RunError * RunState :=
  if negb (isEmpty (File opts)) then
    match w_openFile w (File opts) with
    | Some cause => (Some (ErrOpenFile (File opts) cause), st)
    | None => runStream w opts true secret streamURL st
    end
  else runStream w opts false secret streamURL st.

(** [Run]: creates a session when an API key is given, connects to the
    stream, delivers each payload and prints a summary at the end. *)
Definition Run (w : World) (opts : CliOptions) (version : string)
  : option RunError * RunState :=
  let st := initialState in
  if Preview opts then
    let secret := Secret opts in
    let userProvidedSecret := negb (isEmpty secret) in
    let secret := if isEmpty secret then w_randomHex w else secret in
    let st := emit (OutPreview secret version) st in
    (None, emit_unless userProvidedSecret OutTip st)
  else if negb (isEmpty (APIKey opts)) then
    let mode := "API key" in
    let st := emit_unless (Raw opts) OutConnecting st in
    match CreateSession (w_env w) (w_session w) (APIEndpoint opts)
            (APIKey opts) (Secret opts) with
    | (_, Some cause) =>
        (Some (ErrCreateSession cause), emit_unless (Raw opts) OutNewline st)
    | (Some sess, None) =>
        match sr_Data sess with
        | Some data =>
            let secret := sd_Secret data in
            let streamURL := sd_StreamURL data in
            let streamDuration := sd_StreamDurationSeconds data in
            let st :=
              mkRunState (results st) (index st) (filePayloads st)
                streamDuration (connectedOnce st) (net st) (out st)
                (streamErr st) (clock st) in
            let st :=
              if Raw opts then st
              else
                emit OutConnected
                  (emit OutConnecting
                     (emit (printStreamBanner version opts mode
                              streamDuration)
                        (emit (OutInfo ("Signing secret: " ++ secret)) st)))
            in
            runOutputs w opts secret streamURL st
        | None => (Some ErrNilPointer, st)
        end
    | (None, None) => (Some ErrNilPointer, st)
    end
  else
    let mode := "Secret" in
    let secret := Secret opts in
    let streamURL :=
      APIEndpoint opts ++ "/api/v1/tools/webhook-test/stream?secret="
      ++ Secret opts in
    let st :=
      if Raw opts then st
      else emit OutConnecting
             (emit (printStreamBanner version opts mode 0) st) in
    runOutputs w opts secret streamURL st.

(** main.go: the exit status of the process for what [Run] returns. A
    panic exits with status 2. *)
Definition exitStatus (e : option RunError) : Z :=
  match e with
  | None => 0
  | Some ErrNilPointer => 2
  | Some _ => 1
  end.

(** What [flag.Parse] makes of the command line. The flag set of [main]
    handles errors with [flag.ExitOnError]: a command line that does not
    parse (an unknown flag, a bad value) ends the process with status 2,
    and [-h] or [-help] prints the usage and ends it with status 0, both
    inside [flag.Parse]. *)
Inductive FlagParse :=
| FlagError
| FlagHelp
| FlagsParsed (showVersion : bool) (flags : CliOptions).

Definition main (w : World) (parse : FlagParse) (version : string) : Z :=
  match parse with
  | FlagError => 2
  | FlagHelp => 0
  | FlagsParsed showVersion flags =>
      if showVersion then 0
      else if Preview flags then
        let opts :=
          mkCliOptions EmptyString (Secret flags) EmptyString EmptyString
            false true false (NoColor flags) EmptyString in
        exitStatus (fst (Run w opts version))
      else if isEmpty (URL flags) && isEmpty (File flags)
              && negb (Raw flags)
      then 1
      else if isEmpty (APIKey flags) && isEmpty (Secret flags) then 1
      else exitStatus (fst (Run w flags version))
  end.

(* ================================================================== *)
(** * Vocabulary of the statements *)

(** A context that is never cancelled. *)
Definition noCancel : Context := mkContext None.

(** A dispatcher that only records the pair it is called with. *)
Definition recordPair (eventType data : string)
    (log : list (string * string)) : list (string * string) :=
  (log ++ [(eventType, data)])%list.

(** The result of the scan loop, by component. *)
Definition loopCancelled {St : Type} (r : bool * string * St * nat) : bool :=
  fst (fst (fst r)).
Definition loopEvent {St : Type} (r : bool * string * St * nat) : string :=
  snd (fst (fst r)).
Definition loopState {St : Type} (r : bool * string * St * nat) : St :=
  snd (fst r).
Definition loopTick {St : Type} (r : bool * string * St * nat) : nat :=
  snd r.

(** The pairs the parser dispatches for the lines of an uninterrupted
    stream, in order, when the pending event type is [ev] at the start. *)
Definition dispatchedFrom (ev : string) (lines : list string)
  : list (string * string) :=
  loopState (scanLoop noCancel recordPair lines O ev []).

Definition dispatched (lines : list string) : list (string * string) :=
  dispatchedFrom EmptyString lines.

(** The pending event type after the lines. *)
Definition pendingAfter (ev : string) (lines : list string) : string :=
  loopEvent (scanLoop noCancel recordPair lines O ev []).

(** The JSON body [data] does not decode into the structure of the event
    type: a [StreamMeta] for [meta], a [WebhookPayload] for the default;
    [complete] and [error] carry no JSON. *)
Definition decodeFails (env : Env) (eventType data : string) : Prop :=
  (eventType = "meta" /\ json_UnmarshalMeta env data = None) \/
  (eventType <> "meta" /\ eventType <> "complete" /\ eventType <> "error" /\
   json_UnmarshalPayload env data = None).

(** The dispatcher [ConnectStream] runs. *)
Definition dispatchWith {St : Type} (env : Env)
    (callbacks : StreamCallbacks St) : string -> string -> St -> St :=
  fun eventType data => dispatchEvent env eventType data callbacks.

(** Callbacks that keep the decoded records, in arrival order. *)
Definition recordPayloads : StreamCallbacks (list WebhookPayload) :=
  mkStreamCallbacks None (Some (fun payload log => (log ++ [payload])%list))
    None None.

(** The records [ConnectStream] decodes and hands to the payload callback,
    in arrival order. *)
Definition decodedRecords (env : Env) (ctx : Context) (src : StreamSource)
    (streamURL secret : string) (tick : nat) : list WebhookPayload :=
  snd (fst (ConnectStream env ctx src streamURL secret recordPayloads
              tick [])).

(** ** A small world for the examples *)

Definition LF : string := String (ascii_of_nat 10) EmptyString.
Definition quoted (s : string) : string :=
  String (ascii_of_nat 34) s ++ String (ascii_of_nat 34) EmptyString.

(** The input of the parser example: a comment, a meta event, a blank
    line. *)
Definition metaJSON : string :=
  "{" ++ quoted "testId" ++ ":" ++ quoted "t1" ++ ","
  ++ quoted "streamDurationSeconds" ++ ":60}".

Definition metaInput : string :=
  ":hi" ++ LF ++ "event: meta" ++ LF ++ "data: " ++ metaJSON ++ LF ++ LF.

Definition examplePayload (eventID commonName : string) : WebhookPayload :=
  mkWebhookPayload "ct.certificate.new" eventID "2026-01-01T00:00:00Z"
    "2024-01-01"
    (mkPayloadData "sha256:00" "01" commonName [commonName] "Let's Encrypt"
       "R11" "2026-01-01T00:00:00Z" "2026-04-01T00:00:00Z"
       ["Google Argon 2026"] "2026-01-01T00:00:00Z").

(** A stand-in for [encoding/json] on the few documents of the examples: a
    record is written [{<event id>}] and read back from that; the meta
    document is [metaJSON]; anything else does not decode. The peer answers
    200 to every call but the second, which it answers 500, and the
    fourth, which finds the connection refused; it redirects none. *)
Definition exampleEnv : Env :=
  mkEnv
    (fun payload => inl ("{" ++ EventID payload ++ "}"))
    (fun data =>
       if String.eqb data metaJSON then Some (mkStreamMeta "t1" 60)
       else None)
    (fun data =>
       let n := String.length data in
       if HasPrefix data "{"
          && String.eqb (substring (n - 1) 1 data) "}"
       then Some (examplePayload (substring 1 (n - 2) data) "example.com")
       else None)
    (fun body =>
       if String.eqb body "ok"
       then inl (mkSessionResponse true
                   (Some (mkSessionData "t1" "s3cr3t"
                            "https://api.certwatch.app/stream" 300 60))
                   None)
       else if String.eqb body "denied"
       then inl (mkSessionResponse false None
                   (Some (mkSessionError "FORBIDDEN" "bad key")))
       else inr "unexpected end of JSON input")
    (fun _ _ => None)
    (fun code =>
       if code =? 200 then "OK"
       else if code =? 500 then "Internal Server Error"
       else EmptyString)
    (fun n _ =>
       if (n =? 1)%nat then (Response 500 EmptyString, 20)
       else if (n =? 3)%nat
       then (TransportError "dial tcp 127.0.0.1:3000: connection refused", 1)
       else (Response 200 EmptyString, 10))
    (fun _ _ => []).

Definition exampleOpts (url file : string) : CliOptions :=
  mkCliOptions url "s3cr3t" EmptyString file false false false false
    "https://api.certwatch.app".

(** A world whose stream answers [reply] and whose context is cancelled at
    observation [cancel], if at all. *)
Definition exampleWorld (reply : HttpReply) (cancel : option nat) : World :=
  mkWorld exampleEnv (mkContext cancel) false "00" (Response 200 "ok")
    (fun _ => None) (mkStreamSource reply None true) 1000.

(** ** Predicates on runs *)

(** The one way [CreateSession] succeeds. *)
Definition sessionAccepted (env : Env) (reply : HttpReply)
    (apiEndpoint : string) (sess : SessionResponse) : Prop :=
  http_NewRequest env "POST" (apiEndpoint ++ sessionPath) = None /\
  exists code body,
    reply = Response code body /\ (code = 200 \/ code = 201) /\
    json_DecodeSession env body = inl sess /\
    sr_Success sess = true /\ sr_Data sess <> None.

(** At least one recorded outcome has [Success] false. *)
Definition hasFailure (rs : list DeliveryResult) : Prop :=
  exists r, In r rs /\ Success r = false.

(** The counter and the indices of the outcomes after [n] records. *)
Definition indexed (opts : CliOptions) (log : list WebhookPayload)
    (st : RunState) : Prop :=
  index st = wrap64 (Z.of_nat (List.length log)) /\
  map Index (results st)
  = if isEmpty (URL opts) then []
    else map (fun k => wrap64 (Z.of_nat k)) (seq 1 (List.length log)).

(* ================================================================== *)
(** * The example receiver *)

(** [Header.Get]: the first value of a key, the empty string when the key
    is absent. The names are compared in canonical form, the one in which
    the server stores the names it reads from the wire. *)
Fixpoint Header_Get (k : string) (h : list (string * string)) : string :=
  match h with
  | [] => EmptyString
  | (k', v) :: r =>
      if String.eqb (CanonicalMIMEHeaderKey k') (CanonicalMIMEHeaderKey k)
      then v else Header_Get k r
  end.

(** [hmac.Equal]: equal lengths and equal bytes. *)
Definition hmac_Equal (a b : string) : bool := String.eqb a b.

(** [verifySignature] of the receiver: the header must read [sha256=]
    followed by the hex HMAC-SHA256 of the body under the secret. *)
Definition verifySignature (body signatureHeader secret : string) : bool :=
  if negb (HasPrefix signatureHeader "sha256=") then false
  else
    let provided :=
      substring 7 (String.length signatureHeader - 7) signatureHeader in
    let expected :=
      hex_EncodeToString
        (hmac_sha256 (bytes_of_string secret) (bytes_of_string body)) in
    hmac_Equal expected provided.

(** The subset of the payload the receiver displays. *)
Record receiverPayload := mkReceiverPayload {
  rp_Event : string;
  rp_EventID : string;
  rp_CommonName : string;
  rp_Domains : list string;
  rp_IssuerCN : string
}.

(** What a handler of the receiver did with a request. *)
Record Handled := mkHandled {
  hd_status : Z;
  hd_headers : list (string * string);
  hd_body : string;
  (** the counter of received payloads afterwards *)
  hd_count : Z;
  (** the lines written to the standard output *)
  hd_printed : list string
}.

Definition fmt_bool (b : bool) : string := if b then "true" else "false".

Definition green (s : string) : string := ESC ++ "[32m" ++ s ++ ESC ++ "[0m".
Definition red (s : string) : string := ESC ++ "[31m" ++ s ++ ESC ++ "[0m".
Definition dim (s : string) : string := ESC ++ "[2m" ++ s ++ ESC ++ "[0m".
Definition bold (s : string) : string := ESC ++ "[1m" ++ s ++ ESC ++ "[0m".
Definition cyan (s : string) : string := ESC ++ "[36m" ++ s ++ ESC ++ "[0m".

(** The handler of [/webhook]. [unmarshal] is [json.Unmarshal] into the
    display structure, whose error the handler ignores; [now] is the
    formatted time; [body] is the result of [io.ReadAll] (left: the bytes,
    right: the error); [count] is the counter before the request. *)
Definition webhookHandler (unmarshal : string -> receiverPayload)
    (now secret method : string) (body : string + string)
    (headers : list (string * string)) (count : Z) : Handled :=
  if negb (String.eqb method "POST") then
    mkHandled 405 []
      ("{" ++ quoted "error" ++ ":" ++ quoted "POST only" ++ "}") count []
  else
    match body with
    | inr _ =>
        mkHandled 400 []
          ("{" ++ quoted "error" ++ ":" ++ quoted "failed to read body"
           ++ "}") count []
    | inl body =>
        let sig := Header_Get "X-CertWatch-Signature" headers in
        let verified := verifySignature body sig secret in
        let payload := unmarshal body in
        let n := wrap64 (count + 1) in
        let status := if negb verified then red "FAILED"
                      else green "VERIFIED" in
        let cn := if String.eqb (rp_CommonName payload) EmptyString
                  then "unknown" else rp_CommonName payload in
        let issuer := if String.eqb (rp_IssuerCN payload) EmptyString
                      then "unknown" else rp_IssuerCN payload in
        mkHandled 200 (Header_Set "Content-Type" "application/json" [])
          ("{" ++ quoted "received" ++ ":true," ++ quoted "verified" ++ ":"
           ++ fmt_bool verified ++ "}")
          n
          [ EmptyString;
            "  " ++ bold ("#" ++ itoa n) ++ "  " ++ cyan cn;
            "      Domains: "
              ++ itoa (Z.of_nat (List.length (rp_Domains payload)))
              ++ "  Issuer: " ++ issuer;
            "      Event:   " ++ rp_EventID payload;
            "      HMAC:    " ++ status;
            "      " ++ dim now ]
    end.

(** The handler of [/health]. *)
Definition healthHandler (count : Z) : Handled :=
  mkHandled 200 (Header_Set "Content-Type" "application/json" [])
    ("{" ++ quoted "status" ++ ":" ++ quoted "ok" ++ "," ++ quoted "received"
     ++ ":" ++ itoa count ++ "}")
    count [].

(** The multiplexer of the receiver. The two patterns it registers match
    their path exactly; for any other path no handler of the receiver runs
    ([None]) and the multiplexer answers on its own, with 404 or with a
    redirection to the cleaned path. *)
Definition receiverMux (unmarshal : string -> receiverPayload)
    (now secret path method : string) (body : string + string)
    (headers : list (string * string)) (count : Z) : option Handled :=
  if String.eqb path "/health" then Some (healthHandler count)
  else if String.eqb path "/webhook" then
    Some (webhookHandler unmarshal now secret method body headers count)
  else None.

(** What is given of a receiver in service: the path under which the
    server sees a URL, the value of its counter when the [n]-th call
    arrives, the time it takes to answer, and, for a path without handler,
    what the call returns and the requests the client sends after the
    first. *)
Record Service := mkService {
  sv_path : string -> string;
  sv_count : nat -> Z;
  sv_elapsed : Z;
  sv_other : HttpRequest -> HttpReply;
  sv_otherFollowups : HttpRequest -> list HttpRequest
}.

(** The receiver as the peer of the delivery client; it reads every body
    whole. *)
Definition receiverPeer (unmarshal : string -> receiverPayload)
    (now secret : string) (sv : Service)
  : nat -> HttpRequest -> HttpReply * Z :=
  fun n req =>
    match receiverMux unmarshal now secret (sv_path sv (req_url req))
            (req_method req) (inl (req_body req)) (req_headers req)
            (sv_count sv n) with
    | Some h => (Response (hd_status h) (hd_body h), sv_elapsed sv)
    | None => (sv_other sv req, sv_elapsed sv)
    end.

(** The two handlers answer themselves: no redirection is followed. *)
Definition receiverFollowups (sv : Service)
  : nat -> HttpRequest -> list HttpRequest :=
  fun _ req =>
    if String.eqb (sv_path sv (req_url req)) "/health"
       || String.eqb (sv_path sv (req_url req)) "/webhook"
    then [] else sv_otherFollowups sv req.

(** The environment with another peer. *)
Definition withPeer (env : Env)
    (peer : nat -> HttpRequest -> HttpReply * Z)
    (followups : nat -> HttpRequest -> list HttpRequest) : Env :=
  mkEnv (json_Marshal env) (json_UnmarshalMeta env)
    (json_UnmarshalPayload env) (json_DecodeSession env)
    (http_NewRequest env) (http_StatusText env) peer followups.

(** The request [DeliverPayload] builds for a marshalled payload. *)
Definition deliveryRequest (payload : WebhookPayload)
    (targetURL secret body : string) : HttpRequest :=
  mkHttpRequest "POST" targetURL
    [ ("Content-Type", "application/json");
      ("User-Agent", "CertWatch-Webhook/1.0");
      ("X-Certwatch-Event-Id", EventID payload);
      ("X-Certwatch-Timestamp", Timestamp payload);
      ("X-Certwatch-Signature", "sha256=" ++ SignPayload body secret) ]
    body.

(** A receiver in service on port 3000 of the local host: it has counted
    as many payloads as calls were made, answers after 5 ms, and its
    multiplexer answers 404 where no handler is registered. *)
Definition exampleService : Service :=
  mkService
    (fun url =>
       if String.eqb url "http://localhost:3000/webhook" then "/webhook"
       else if String.eqb url "http://localhost:3000/health" then "/health"
       else "/hook")
    (fun n => Z.of_nat n) 5
    (fun _ => Response 404 "404 page not found")
    (fun _ => []).

(* ================================================================== *)
(** * Vocabulary of the further properties *)

(** A line the parser dispatches, and the data it dispatches for it. *)
Definition isDataLine (line : string) : bool := HasPrefix line "data:".

Definition trimData (line : string) : string :=
  TrimSpace (TrimPrefix line "data:").

Definition CR : string := String (ascii_of_nat 13) EmptyString.

(** The lines, each followed by the terminator. *)
Fixpoint unlines (term : string) (lines : list string) : string :=
  match lines with
  | [] => EmptyString
  | l :: r => l ++ term ++ unlines term r
  end.

Definition hasLF (s : string) : bool :=
  existsb (Ascii.eqb "010"%char) (list_ascii_of_string s).

Definition endsWithCR (s : string) : bool :=
  match rev (list_ascii_of_string s) with
  | c :: _ => Ascii.eqb c "013"%char
  | [] => false
  end.


(** A line as [bufio.ScanLines] returns it unchanged: no newline inside,
    no carriage return at its end. *)
Definition plainLine (l : string) : Prop :=
  hasLF l = false /\ endsWithCR l = false.

(** All bytes of a Go string are below 256. *)
Definition isByte (b : Z) : Prop := 0 <= b < 256.




(** The lines of the raw sink and of the file sink, in the order
    written. *)
Definition rawLines (o : list Output) : list string :=
  flat_map (fun x => match x with OutRawLine l => [l] | _ => [] end) o.

Definition fileLines (o : list Output) : list string :=
  flat_map (fun x => match x with OutFileLine l => [l] | _ => [] end) o.

(** The JSON lines of the records that marshal, in order. *)
Definition marshalled (env : Env) (log : list WebhookPayload)
  : list string :=
  flat_map (fun p => match json_Marshal env p with
                     | inl line => [line]
                     | inr _ => []
                     end) log.

(** The requests [DeliverPayload] sends for the records, in order. *)
Definition requestsFor (env : Env) (targetURL secret : string)
    (log : list WebhookPayload) : list HttpRequest :=
  flat_map (fun p => match json_Marshal env p with
                     | inl body => [deliveryRequest p targetURL secret body]
                     | inr _ => []
                     end) log.

(** The requests handed to the client, one per call of [client.Do]. *)
Definition handed (net : Net) : list HttpRequest := map ex_request net.

(** The sinks after [log] was processed, from a state with no line
    written and no payload counted. *)
Definition sinksAfter (env : Env) (opts : CliOptions) (outFile : bool)
    (log : list WebhookPayload) (st : RunState) : Prop :=
  rawLines (out st) = (if Raw opts then marshalled env log else []) /\
  fileLines (out st) = (if outFile then marshalled env log else []) /\
  filePayloads st
  = (if outFile
     then wrap64 (Z.of_nat (List.length (marshalled env log))) else 0).

(** The requests handed to the client after [log] was processed, the
    calls [net0] having been made before. *)
Definition netAfter (env : Env) (opts : CliOptions) (secret : string)
    (net0 : Net) (log : list WebhookPayload) (st : RunState) : Prop :=
  handed (net st)
  = (handed net0
     ++ (if isEmpty (URL opts) then []
         else match http_NewRequest env "POST" (URL opts) with
              | Some _ => []
              | None => requestsFor env (URL opts) secret log
              end))%list.


(** The outputs that are lines of a sink, as opposed to decoration. *)
Definition isPayloadLine (o : Output) : bool :=
  match o with
  | OutRawLine _ | OutFileLine _ => true
  | _ => false
  end.

Definition quiet (st : RunState) : Prop :=
  Forall (fun o => isPayloadLine o = true) (out st).


(** The secret [Run] signs with: the session's when an API key is given,
    the one of the command line otherwise. *)
Definition runSecret (w : World) (opts : CliOptions) : string :=
  if isEmpty (APIKey opts) then Secret opts
  else
    match CreateSession (w_env w) (w_session w) (APIEndpoint opts)
            (APIKey opts) (Secret opts) with
    | (Some sess, None) =>
        match sr_Data sess with
        | Some data => sd_Secret data
        | None => EmptyString
        end
    | _ => EmptyString
    end.

(** The URL of the stream [Run] connects to: the session's when an API key
    is given, the one made of the endpoint and the secret otherwise. *)
Definition runStreamURL (w : World) (opts : CliOptions) : string :=
  if isEmpty (APIKey opts)
  then APIEndpoint opts ++ "/api/v1/tools/webhook-test/stream?secret="
       ++ Secret opts
  else
    match CreateSession (w_env w) (w_session w) (APIEndpoint opts)
            (APIKey opts) (Secret opts) with
    | (Some sess, None) =>
        match sr_Data sess with
        | Some data => sd_StreamURL data
        | None => EmptyString
        end
    | _ => EmptyString
    end.

(** The session could not be created: outside preview mode an API key is
    given and [CreateSession] returns an error. *)
Definition sessionFails (w : World) (opts : CliOptions) : Prop :=
  Preview opts = false /\ isEmpty (APIKey opts) = false /\
  snd (CreateSession (w_env w) (w_session w) (APIEndpoint opts)
         (APIKey opts) (Secret opts)) <> None.

(** The output file could not be opened: the session phase is passed, a
    file is asked for and [os.OpenFile] returns an error. *)
Definition fileOpenFails (w : World) (opts : CliOptions) : Prop :=
  Preview opts = false /\ ~ sessionFails w opts /\
  isEmpty (File opts) = false /\ w_openFile w (File opts) <> None.

(** [Run] gets as far as the stream. *)
Definition reachesStream (w : World) (opts : CliOptions) : Prop :=
  Preview opts = false /\ ~ sessionFails w opts /\ ~ fileOpenFails w opts.

(** What [ConnectStream] returns in the run, as far as it depends on the
    world only and not on the callbacks: its error and the number of the
    next observation of the context. *)
Definition streamOutcome (w : World) (opts : CliOptions) : error * nat :=
  let '(err, _, tick) :=
    ConnectStream (w_env w) (w_ctx w) (w_stream w) (runStreamURL w opts)
      (runSecret w opts) (mkStreamCallbacks None None None None) O tt in
  (err, tick).

(** The stream ended with an error while the context was not cancelled
    (at the check of [ctx.Err() == nil] that follows the reports). *)
Definition streamFails (w : World) (opts : CliOptions) : Prop :=
  reachesStream w opts /\ fst (streamOutcome w opts) <> None /\
  ctx_Done (w_ctx w) (S (snd (streamOutcome w opts))) = false.

(** The stream ended through cancellation: with an error, the context
    being cancelled at that check. *)
Definition streamCancelled (w : World) (opts : CliOptions) : Prop :=
  reachesStream w opts /\ fst (streamOutcome w opts) <> None /\
  ctx_Done (w_ctx w) (S (snd (streamOutcome w opts))) = true.

(** A POST to the target of the options whose signature header verifies
    under [secret]. *)
Definition signedBy (opts : CliOptions) (secret : string)
    (req : HttpRequest) : Prop :=
  req_method req = "POST" /\ req_url req = URL opts /\
  verifySignature (req_body req)
    (Header_Get "X-CertWatch-Signature" (req_headers req)) secret = true.

(** How many times the connection message was printed. *)
Definition nConnected (o : list Output) : nat :=
  List.length
    (filter (fun x => match x with OutConnected => true | _ => false end) o).

(** The connection message and the flag of [connectedOnce]: with the
    wrapped callbacks the message was printed exactly when the flag is
    set; with the plain ones it was printed [c] times before the stream
    and the callbacks never print it. *)
Definition connectedInv (wrapped : bool) (c : nat) (st : RunState) : Prop :=
  if wrapped
  then nConnected (out st) = (if connectedOnce st then 1 else 0)%nat
  else nConnected (out st) = c.


(* ================================================================== *)
(** * output.go: truncation *)

(** The slice [s[:k]]; out of range it panics ([None]). *)
Definition slice_to (s : string) (k : Z) : option string :=
  if (k <? 0) || (len s <? k) then None
  else Some (substring 0 (Z.to_nat k) s).

(** [truncate] shortens [s] to [maxLen] bytes, appending "..." if
    truncated. *)
Definition truncate (s : string) (maxLen : Z) : option string :=
  if len s <=? maxLen then Some s
  else if maxLen <=? 3 then slice_to s maxLen
  else
    match slice_to s (maxLen - 3) with
    | Some p => Some (p ++ "...")
    | None => None
    end.

(** The sum of the latencies. *)
Definition sumLatency (rs : list DeliveryResult) : Z :=
  fold_right (fun r acc => LatencyMs r + acc) 0 rs.


(* ================================================================== *)
(** * preview.go: random identifiers and the sample payload *)

(** The source behind [crypto/rand.Read]: the bytes it hands out, by
    position, or [None] when a read of it returns an error. (Only the
    library before Go 1.24 returns one; from Go 1.24 on a failing source
    ends the process inside [Read], so that no call returns an error.) *)
Definition RandSource := option (nat -> Z).

(** [rand.Read(b)] on a buffer of [n] bytes: the filled buffer, or [None]
    for an error. A read of no byte asks the source for nothing and never
    fails. *)
Definition rand_Read (rnd : RandSource) (n : nat) : option (list Z) :=
  match n with
  | O => Some []
  | S _ =>
      match rnd with
      | None => None
      | Some f => Some (map (fun i => f i mod 256) (seq 0 n))
      end
  end.

(** [b[i] = v] and [b[i]] on a buffer. *)
Fixpoint set_at (l : list Z) (i : nat) (v : Z) : list Z :=
  match l, i with
  | [], _ => []
  | _ :: r, O => v :: r
  | x :: r, S i => x :: set_at r i v
  end.

Definition get_at (l : list Z) (i : nat) : Z := nth i l 0.

(** [b[lo:hi]]. *)
Definition slice (l : list Z) (lo hi : nat) : list Z :=
  firstn (hi - lo) (skipn lo l).

Fixpoint zeros (n : nat) : string :=
  match n with
  | O => EmptyString
  | S n => String "0" (zeros n)
  end.

(** The verb [%0Nx] on a byte slice: its hex digits, padded on the left
    to [width]. *)
Definition fmt_0x (width : nat) (b : list Z) : string :=
  let h := hex_EncodeToString b in
  zeros (width - String.length h) ++ h.

Definition zeroUUID : string := "00000000-0000-4000-8000-000000000000".

Definition generateUUIDv4 (rnd : RandSource) : string :=
  match rand_Read rnd 16 with
  | None => zeroUUID
  | Some uuid =>
      let uuid := set_at uuid 6 (Z.lor (Z.land (get_at uuid 6) 0x0f) 0x40) in
      let uuid := set_at uuid 8 (Z.lor (Z.land (get_at uuid 8) 0x3f) 0x80) in
      fmt_0x 8 (slice uuid 0 4) ++ "-" ++
      fmt_0x 4 (slice uuid 4 6) ++ "-" ++
      fmt_0x 4 (slice uuid 6 8) ++ "-" ++
      fmt_0x 4 (slice uuid 8 10) ++ "-" ++
      fmt_0x 12 (slice uuid 10 16)
  end.

(** [strings.Repeat]; a negative count panics ([None]). *)
Fixpoint repeat_string (s : string) (n : nat) : string :=
  match n with
  | O => EmptyString
  | S n => s ++ repeat_string s n
  end.

Definition strings_Repeat (s : string) (count : Z) : option string :=
  if count <? 0 then None else Some (repeat_string s (Z.to_nat count)).

(** [make([]byte, n)] panics for a negative [n]. *)
Definition randomHex (rnd : RandSource) (n : Z) : option string :=
  if n <? 0 then None
  else
    match rand_Read rnd (Z.to_nat n) with
    | None => strings_Repeat "00" n
    | Some b => Some (hex_EncodeToString b)
    end.

Definition upperhextable : string := "0123456789ABCDEF".

Definition upper_hex_digit (n : Z) : ascii :=
  match String.get (Z.to_nat n) upperhextable with
  | Some c => c
  | None => "0"%char
  end.

(** The verb [%02X] on one byte. *)
Definition fmt_02X (v : Z) : string :=
  String (upper_hex_digit (Z.shiftr v 4 mod 16))
    (String (upper_hex_digit (v mod 16)) EmptyString).

Fixpoint strings_Join (parts : list string) (sep : string) : string :=
  match parts with
  | [] => EmptyString
  | [p] => p
  | p :: rest => p ++ sep ++ strings_Join rest sep
  end.

Definition randomSerialNumber (rnd : RandSource) (n : Z) : option string :=
  if n <? 0 then None
  else
    match rand_Read rnd (Z.to_nat n) with
    | None =>
        match strings_Repeat "00:" (n - 1) with
        | Some p => Some (p ++ "00")
        | None => None
        end
    | Some b => Some (strings_Join (map fmt_02X b) ":")
    end.

(** The clock of the sample: the present instant in seconds, and the
    layout [time.RFC3339] of an instant in UTC. *)
Record Clock := mkClock {
  clock_now : Z;
  clock_rfc3339 : Z -> string
}.

(** The sample payload; [rnd k] is the source met by the [k]-th read. The
    fields are evaluated in the order of the literal. *)
Definition GenerateSamplePayload (clk : Clock) (rnd : nat -> RandSource)
  : option WebhookPayload :=
  let now := clock_now clk in
  let notAfter := now + 90 * 24 * 3600 in
  let eventID := "evt_" ++ generateUUIDv4 (rnd 0%nat) in
  let timestamp := clock_rfc3339 clk now in
  match randomHex (rnd 1%nat) 32 with
  | None => None
  | Some fp =>
      match randomSerialNumber (rnd 2%nat) 16 with
      | None => None
      | Some serial =>
          Some (mkWebhookPayload "ct.certificate.new" eventID timestamp
                  "2024-01-01"
                  (mkPayloadData ("sha256:" ++ fp) serial "*.example.com"
                     ["*.example.com"; "example.com"] "Let's Encrypt" "R11"
                     (clock_rfc3339 clk now) (clock_rfc3339 clk notAfter)
                     ["Google Argon 2026"] (clock_rfc3339 clk now)))
      end
  end.

(** Shapes of identifiers: in a pattern, [x] stands for a lower-case hex
    digit, [X] for an upper-case one, [y] for one of 8 9 a b, and every
    other character for itself. *)
Definition isLowerHex (c : ascii) : bool :=
  existsb (Ascii.eqb c) (list_ascii_of_string hextable).

Definition isUpperHex (c : ascii) : bool :=
  existsb (Ascii.eqb c) (list_ascii_of_string upperhextable).

Definition matchesChar (p c : ascii) : bool :=
  if Ascii.eqb p "x" then isLowerHex c
  else if Ascii.eqb p "X" then isUpperHex c
  else if Ascii.eqb p "y" then
    existsb (Ascii.eqb c) (list_ascii_of_string "89ab")
  else Ascii.eqb p c.

Fixpoint matchesPattern (p s : string) : bool :=
  match p, s with
  | EmptyString, EmptyString => true
  | String a p', String c s' => matchesChar a c && matchesPattern p' s'
  | _, _ => false
  end.

Definition isUUIDv4 (s : string) : bool :=
  matchesPattern "xxxxxxxx-xxxx-4xxx-yxxx-xxxxxxxxxxxx" s.

(** [n] pairs of upper-case hex digits with colons between them. *)
Definition serialPattern (n : nat) : string :=
  strings_Join (repeat "XX" n) ":".


(* ================================================================== *)
(** * The Node example receiver *)

Module Node.

(** The value of a hex digit, in either case. *)
Definition unhex (c : ascii) : option Z :=
  let n := byte_of_ascii c in
  if (48 <=? n) && (n <=? 57) then Some (n - 48)
  else if (97 <=? n) && (n <=? 102) then Some (n - 87)
  else if (65 <=? n) && (n <=? 70) then Some (n - 55)
  else None.

(** [Buffer.from(s, 'hex')]: the bytes of the leading pairs of hex digits.
    Decoding stops at the first pair that is not two hex digits, and a
    single trailing digit is dropped. *)
Fixpoint Buffer_from_hex (s : string) : list Z :=
  match s with
  | String a (String b r) =>
      match unhex a, unhex b with
      | Some x, Some y => Z.lor (Z.shiftl x 4) y :: Buffer_from_hex r
      | _, _ => []
      end
  | _ => []
  end.

Fixpoint bytes_eqb (a b : list Z) : bool :=
  match a, b with
  | [], [] => true
  | x :: a', y :: b' => (x =? y) && bytes_eqb a' b'
  | _, _ => false
  end.

(** [crypto.timingSafeEqual] throws ([None]) on buffers of different
    lengths. *)
Definition timingSafeEqual (a b : list Z) : option bool :=
  if Nat.eqb (List.length a) (List.length b) then Some (bytes_eqb a b)
  else None.

(** [verifySignature] of the receiver; an absent header is [None]. The
    body and the secret are given by their UTF-8 bytes, which is what the
    HMAC is fed. *)
Definition verifySignature (body : string) (signatureHeader : option string)
    (secret : string) : bool :=
  match signatureHeader with
  | None => false
  | Some h =>
      if isEmpty h || negb (HasPrefix h "sha256=") then false
      else
        let provided := substring 7 (String.length h - 7) h in
        let expected :=
          hex_EncodeToString
            (hmac_sha256 (bytes_of_string secret) (bytes_of_string body)) in
        match timingSafeEqual (Buffer_from_hex expected)
                (Buffer_from_hex provided) with
        | Some b => b
        | None => false
        end
  end.

End Node.

(** The flags with which [main] runs a preview. *)
Definition previewFlags (secret : string) : CliOptions :=
  mkCliOptions EmptyString secret EmptyString EmptyString
    false true false false EmptyString.

(** A world whose output file cannot be opened. *)
Definition noFileWorld : World :=
  mkWorld exampleEnv noCancel false "00" (Response 200 "ok")
    (fun _ => Some "permission denied")
    (mkStreamSource (Response 200 EmptyString) None true) 1000.


(** A stream of two records with an undecodable one between them. *)
Definition sinksExampleSource : StreamSource :=
  mkStreamSource
    (Response 200 ("data: {e1}" ++ LF ++ LF ++ "data: {not json" ++ LF
                   ++ "data: {e2}" ++ LF))
    None true.

(* ================================================================== *)
(** * Theorems *)

(** ** Proof automation *)

Arguments DeliverPayload : simpl never.
Arguments wrap64 : simpl never.

Ltac crush_cases :=
  repeat match goal with
    | |- _ /\ _ => split
    | |- _ <-> _ => split
    | |- ~ _ => intro
    | |- _ -> _ => intro
    | H : _ /\ _ |- _ => destruct H
    | H : exists _, _ |- _ => destruct H
    | H : _ \/ _ |- _ => destruct H
    | H : Some _ = None |- _ => discriminate H
    | H : None = Some _ |- _ => discriminate H
    | H : true = false |- _ => discriminate H
    | H : false = true |- _ => discriminate H
    | H : Some ?a = Some ?b |- _ => first [discriminate H | injection H as H]
    end;
  try solve [ reflexivity | discriminate | contradiction | congruence
            | eauto 8 ].

Example sha256_abc :
  hex_EncodeToString (sha256_Sum (bytes_of_string "abc")) =
  "ba7816bf8f01cfea414140de5dae2223b00361a396177a9cb410ff61f20015ad".
Proof. vm_compute. reflexivity. Qed.

Example sha256_empty :
  hex_EncodeToString (sha256_Sum []) =
  "e3b0c44298fc1c149afbf4c8996fb92427ae41e4649b934ca495991b7852b855".
Proof. vm_compute. reflexivity. Qed.

Example sha256_two_blocks :
  hex_EncodeToString (sha256_Sum (bytes_of_string
    "abcdbcdecdefdefgefghfghighijhijkijkljklmklmnlmnomnopnopq")) =
  "248d6a61d20638b8e5c026930c3e6039a33ce45964ff2167f6ecedd419db06c1".
Proof. vm_compute. reflexivity. Qed.

Example SignPayload_fox :
  SignPayload "The quick brown fox jumps over the lazy dog" "key" =
  "f7bc83f430538424b13298e6aa6fb143ef4d59a14946175997479dbc2d1a3cd8".
Proof. vm_compute. reflexivity. Qed.

Example SignPayload_empty :
  SignPayload "" "" =
  "b613679a0814d9ec772f95d778c35fc5ff1697c493715653c6c712144292c5ad".
Proof. vm_compute. reflexivity. Qed.

Example hmac_sha256_long_key :
  hex_EncodeToString (hmac_sha256 (repeat 170 131) (bytes_of_string
    "Test Using Larger Than Block-Size Key - Hash Key First")) =
  "60e431591ee0b67f0d8a26aacbf5b77f8e0bc6213728c5140546040f0ee37f54".
Proof. vm_compute. reflexivity. Qed.

Example itoa_examples :
  itoa 404 = "404" /\ itoa 0 = "0" /\ itoa (-7) = "-7".
Proof. vm_compute. repeat split. Qed.

(** ** The signer *)







(** ** The delivery client *)

(** C4. For every result of [DeliverPayload]: success is true exactly when
    200 <= status < 300; when the status is 0 (nothing was received: the
    payload or the request could not be built, or the transport failed or
    timed out) success is false and the error text is not empty; and the
    call hands at most one request to the HTTP client, whatever comes
    back: after a transport error or a bad status nothing is sent again
    (no retry). The request is the POST to the target; what else goes on
    the wire is the redirections the client itself follows. *)
Theorem DeliverPayload_outcome (env : Env) (payload : WebhookPayload)
    (targetURL secret : string) (index : Z) (net : Net) :
  let r := fst (DeliverPayload env payload targetURL secret index net) in
  let net' := snd (DeliverPayload env payload targetURL secret index net) in
  (Success r = true <-> 200 <= Status r < 300) /\
  (Status r = 0 -> Success r = false /\ Error r <> "") /\
  (net' = net \/
   exists req,
     net' = (net ++ [mkExchange req
                       (http_Followups env (List.length net) req)])%list /\
     req_method req = "POST" /\ req_url req = targetURL).
Proof.
  unfold DeliverPayload, client_Do.
  destruct (json_Marshal env payload) as [body|err].
  2:{ cbn [fst snd Success Status Error].
      repeat split; try discriminate; try lia; auto. }
  generalize (SignPayload body secret); intros signature.
  destruct (http_NewRequest env "POST" targetURL) as [err|].
  1:{ cbn [fst snd Success Status Error].
      repeat split; try discriminate; try lia; auto. }
  cbv zeta.
  match goal with |- context [http_Do env ?n ?q] =>
    destruct (http_Do env n q) as [[err|code rbody] elapsed] end;
    cbn [fst snd Success Status Error].
  1:{ split; [|split].
      - split; [discriminate | lia].
      - intros _. split; [reflexivity | discriminate].
      - right. eexists. split; [reflexivity | split; reflexivity]. }
  split; [|split].
  - rewrite andb_true_iff, Z.leb_le, Z.ltb_lt. tauto.
  - intros ->. split; [reflexivity | discriminate].
  - right. eexists. split; [reflexivity | split; reflexivity].
Qed.

Lemma DeliverPayload_outcome_witness :
  let call :=
    mkExchange (mkHttpRequest "POST" "http://localhost:3000/hook" [] "{}")
      [] in
  let r :=
    fst (DeliverPayload exampleEnv (examplePayload "e4" "example.com")
           "http://localhost:3000/hook" "s3cr3t" 4 [call; call; call]) in
  Success r = false /\ Error r <> EmptyString.
Proof.
  cbv zeta.
  refine (proj1 (proj2 (DeliverPayload_outcome exampleEnv
            (examplePayload "e4" "example.com") "http://localhost:3000/hook"
            "s3cr3t" 4 _)) _).
  vm_compute. reflexivity.
Defined.

Example DeliverPayload_statuses :
  let call :=
    mkExchange (mkHttpRequest "POST" "http://localhost:3000/hook" [] "{}")
      [] in
  let deliver n :=
    fst (DeliverPayload exampleEnv (examplePayload "e" "example.com")
           "http://localhost:3000/hook" "s3cr3t" 1 (repeat call n)) in
  map (fun n => (Status (deliver n), Success (deliver n), Error (deliver n)))
      [0; 1; 3]%nat
  = [ (200, true, EmptyString);
      (500, false, "received status 500 Internal Server Error");
      (0, false,
       "delivery failed: dial tcp 127.0.0.1:3000: connection refused") ].
Proof. vm_compute. reflexivity. Qed.


(** ** The session bootstrapper *)

Lemma CreateSession_cases (env : Env) (reply : HttpReply)
    (apiEndpoint apiKey userSecret : string) :
  (exists sess,
      CreateSession env reply apiEndpoint apiKey userSecret
      = (Some sess, None) /\
      sessionAccepted env reply apiEndpoint sess) \/
  (exists msg,
      CreateSession env reply apiEndpoint apiKey userSecret
      = (None, Some msg) /\
      forall sess, ~ sessionAccepted env reply apiEndpoint sess).
Proof.
  unfold CreateSession, sessionAccepted, Errorf.
  destruct (http_NewRequest env "POST" (apiEndpoint ++ sessionPath))
    as [err|] eqn:Hreq.
  { right. eexists. split; [reflexivity|]. intros sess [H _]. discriminate. }
  destruct reply as [err|code body].
  { right. eexists. split; [reflexivity|].
    intros sess (_ & c & b & H & _). discriminate. }
  destruct (code =? 200) eqn:H200; destruct (code =? 201) eqn:H201;
    cbn [negb andb];
    try (apply Z.eqb_neq in H200); try (apply Z.eqb_neq in H201);
    try (apply Z.eqb_eq in H200); try (apply Z.eqb_eq in H201).
  4:{ right.
      destruct (json_DecodeSession env body) as [s|e];
        [destruct (sr_Error s)|];
        (eexists; split; [reflexivity|]);
        intros sess (_ & c & b & H & [Hc|Hc] & _);
        injection H as <- <-; contradiction. }
  all: destruct (json_DecodeSession env body) as [s|e] eqn:Hdec.
  all: try (right; eexists; split; [reflexivity|];
            intros sess (_ & c & b & H & _ & Hd & _);
            injection H as <- <-; rewrite Hdec in Hd; discriminate).
  all: destruct (sr_Success s) eqn:Hs; destruct (sr_Data s) eqn:Hd;
    cbn [negb orb].
  all: try (left; exists s; split; [reflexivity|];
            split; [reflexivity|]; exists code, body;
            repeat split; auto; rewrite Hd; discriminate).
  all: right; destruct (sr_Error s);
    (eexists; split; [reflexivity|]);
    intros sess (_ & c & b & H & _ & Hdec' & Hs' & Hd');
    injection H as <- <-; rewrite Hdec in Hdec'; injection Hdec' as <-;
    congruence.
Qed.

Lemma Run_stream_no_panic (w : World) (opts : CliOptions) (outFile : bool)
    (secret streamURL : string) (st : RunState) :
  fst (runStream w opts outFile secret streamURL st) <> Some ErrNilPointer.
Proof.
  assert (Hc : forall rs, checkForFailures rs <> Some ErrNilPointer).
  { induction rs as [|r rs IH]; cbn; [discriminate|].
    destruct (negb (Success r)); [discriminate | exact IH]. }
  unfold runStream.
  destruct (ConnectStream _ _ _ _ _ _ _ _) as [[err st'] tick].
  cbv zeta. unfold finishRun. cbv zeta.
  destruct err as [cause|]; [|cbn [fst]; apply Hc].
  destruct (ctx_Done (w_ctx w) tick && _); [cbn [fst]; apply Hc|].
  destruct (negb (ctx_Done (w_ctx w) (S tick))); cbn [fst];
    [discriminate | apply Hc].
Qed.

Lemma Run_outputs_no_panic (w : World) (opts : CliOptions)
    (secret streamURL : string) (st : RunState) :
  fst (runOutputs w opts secret streamURL st) <> Some ErrNilPointer.
Proof.
  unfold runOutputs. destruct (negb (isEmpty (File opts))).
  - destruct (w_openFile w (File opts)); [discriminate|].
    apply Run_stream_no_panic.
  - apply Run_stream_no_panic.
Qed.

(** C10. When [CreateSession] returns a nil error the response is not nil,
    its [Success] is true and its [Data] is not nil; in every other case
    (the request cannot be built or sent, a status other than 200 and 201,
    a body that does not decode, an envelope with [Success] false or without
    data) it returns a nil response with a non-nil error. So the reads of
    [Data.Secret], [Data.StreamURL] and [Data.StreamDurationSeconds] in
    [Run] never go through a nil pointer. *)
Theorem CreateSession_nil_error_iff (env : Env) (reply : HttpReply)
    (apiEndpoint apiKey userSecret : string) :
  let r := CreateSession env reply apiEndpoint apiKey userSecret in
  (snd r = None <->
     exists sess, fst r = Some sess /\
                  sessionAccepted env reply apiEndpoint sess) /\
  (snd r <> None <-> fst r = None) /\
  (forall code body, reply = Response code body ->
     code <> 200 /\ code <> 201 \/
     (forall sess, json_DecodeSession env body <> inl sess) \/
     (forall sess, json_DecodeSession env body = inl sess ->
                   sr_Success sess = false \/ sr_Data sess = None) ->
     fst r = None /\ snd r <> None) /\
  (forall (w : World) (opts : CliOptions) (version : string),
     fst (Run w opts version) <> Some ErrNilPointer).
Proof.
  cbv zeta. split; [|split; [|split]].
  - destruct (CreateSession_cases env reply apiEndpoint apiKey userSecret)
      as [(sess & -> & Hacc) | (msg & -> & Hno)]; cbn [fst snd].
    + split; [intros _; exists sess; auto | reflexivity].
    + split; [discriminate | intros (sess & H & _); discriminate].
  - destruct (CreateSession_cases env reply apiEndpoint apiKey userSecret)
      as [(sess & -> & Hacc) | (msg & -> & Hno)]; cbn [fst snd].
    + split; [intros H; contradiction | discriminate].
    + split; [reflexivity | discriminate].
  - intros code body -> Hbad.
    destruct (CreateSession_cases env (Response code body) apiEndpoint apiKey
                userSecret)
      as [(sess & -> & Hacc) | (msg & -> & Hno)]; cbn [fst snd].
    + exfalso. destruct Hacc as (_ & c & b & H & Hc & Hdec & Hs & Hd).
      injection H as <- <-.
      destruct Hbad as [[H2 H1] | [Hnd | Henv]].
      * destruct Hc; contradiction.
      * exact (Hnd sess Hdec).
      * destruct (Henv sess Hdec); congruence.
    + split; [reflexivity | discriminate].
  - intros w opts version. unfold Run.
    destruct (Preview opts); [cbn [fst]; discriminate|].
    destruct (negb (isEmpty (APIKey opts))).
    2:{ cbv zeta. apply Run_outputs_no_panic. }
    cbv zeta.
    destruct (CreateSession_cases (w_env w) (w_session w) (APIEndpoint opts)
                (APIKey opts) (Secret opts))
      as [(sess & -> & Hacc) | (msg & -> & Hno)].
    + destruct Hacc as (_ & c & b & _ & _ & _ & _ & Hd).
      destruct (sr_Data sess) as [data|]; [|contradiction].
      apply Run_outputs_no_panic.
    + cbn [fst]. discriminate.
Qed.

Lemma CreateSession_nil_error_iff_witness :
  let r := CreateSession exampleEnv (Response 200 "denied")
             "https://api.certwatch.app" "key" EmptyString in
  fst r = None /\ snd r <> None.
Proof.
  cbv zeta.
  refine (proj1 (proj2 (proj2 (CreateSession_nil_error_iff exampleEnv
            (Response 200 "denied") "https://api.certwatch.app" "key"
            EmptyString))) 200 "denied" eq_refl _).
  right. right. intros sess Hdec. vm_compute in Hdec.
  injection Hdec as <-. left. reflexivity.
Defined.

(** ** The stream parser *)

Section Parser.

Context {St : Type}.
Variable dispatch : string -> string -> St -> St.

Lemma HasPrefix_split (l p : string) :
  HasPrefix l p = true -> exists r, l = p ++ r.
Proof.
  unfold HasPrefix. revert l.
  induction p as [|a p IH]; intros l H.
  - exists l. reflexivity.
  - destruct l as [|b l]; [discriminate|]. cbn in H.
    destruct (ascii_dec a b) as [->|]; [|discriminate].
    destruct (IH l H) as [r ->]. exists r. reflexivity.
Qed.

Lemma handleLine_comment (line ev : string) (st : St) :
  HasPrefix line ":" = true -> handleLine dispatch line ev st = (ev, st).
Proof. intros H. unfold handleLine. rewrite H. reflexivity. Qed.

Lemma handleLine_blank (ev : string) (st : St) :
  handleLine dispatch EmptyString ev st = (EmptyString, st).
Proof. reflexivity. Qed.

Lemma handleLine_data (line ev : string) (st : St) :
  HasPrefix line "data:" = true ->
  handleLine dispatch line ev st
  = (ev, dispatch ev (TrimSpace (TrimPrefix line "data:")) st).
Proof.
  intros H. destruct (HasPrefix_split _ _ H) as [r ->].
  unfold handleLine. rewrite H.
  replace (HasPrefix ("data:" ++ r) ":") with false by reflexivity.
  replace (String.eqb ("data:" ++ r) EmptyString) with false by reflexivity.
  replace (HasPrefix ("data:" ++ r) "event:") with false by reflexivity.
  reflexivity.
Qed.

(** A line that is not an [event:] line leaves the pending event type as
    it is, or clears it when the line is empty. *)
Lemma handleLine_keeps_event (line ev : string) (st : St) :
  HasPrefix line "event:" = false ->
  fst (handleLine dispatch line ev st)
  = if String.eqb line EmptyString then EmptyString else ev.
Proof.
  intros H. unfold handleLine. rewrite H.
  destruct line as [|c line]; [reflexivity|].
  replace (String.eqb (String c line) EmptyString) with false by reflexivity.
  destruct (HasPrefix (String c line) ":"); [reflexivity|].
  destruct (HasPrefix (String c line) "data:"); reflexivity.
Qed.

Lemma scanLoop_app (ctx : Context) (l1 l2 : list string) (tick : nat)
    (ev : string) (st : St) :
  scanLoop ctx dispatch (l1 ++ l2) tick ev st
  = let r := scanLoop ctx dispatch l1 tick ev st in
    if loopCancelled r then r
    else scanLoop ctx dispatch l2 (loopTick r) (loopEvent r) (loopState r).
Proof.
  revert tick ev st. induction l1 as [|l l1 IH]; intros tick ev st.
  - reflexivity.
  - cbn [app scanLoop]. destruct (ctx_Done ctx tick); [reflexivity|].
    destruct (handleLine dispatch l ev st) as [ev' st']. apply IH.
Qed.

Lemma scanLoop_noCancel (lines : list string) (tick : nat) (ev : string)
    (st : St) :
  loopCancelled (scanLoop noCancel dispatch lines tick ev st) = false.
Proof.
  revert tick ev st. induction lines as [|l lines IH]; intros tick ev st.
  - reflexivity.
  - cbn [scanLoop]. replace (ctx_Done noCancel tick) with false by reflexivity.
    destruct (handleLine dispatch l ev st) as [ev' st']. apply IH.
Qed.

(** The pending event type does not depend on the dispatcher, the state or
    the clock. *)
Lemma scanLoop_event (lines : list string) (tick : nat) (ev : string)
    (st : St) :
  loopEvent (scanLoop noCancel dispatch lines tick ev st)
  = pendingAfter ev lines.
Proof.
  unfold pendingAfter. generalize (@nil (string * string)) as log.
  generalize O as tick'. revert tick ev st.
  induction lines as [|l lines IH]; intros tick ev st tick' log.
  - reflexivity.
  - cbn [scanLoop].
    replace (ctx_Done noCancel tick) with false by reflexivity.
    replace (ctx_Done noCancel tick') with false by reflexivity.
    assert (Hev : fst (handleLine dispatch l ev st)
                  = fst (handleLine recordPair l ev log)).
    { unfold handleLine.
      destruct (HasPrefix l ":"), (String.eqb l EmptyString),
        (HasPrefix l "event:"), (HasPrefix l "data:"); reflexivity. }
    destruct (handleLine dispatch l ev st) as [ev1 st1].
    destruct (handleLine recordPair l ev log) as [ev2 log2].
    cbn [fst] in Hev. subst ev2. apply IH.
Qed.

End Parser.

(** The recorded pairs are appended to the log. *)
Lemma scanLoop_record (lines : list string) (tick : nat) (ev : string)
    (log : list (string * string)) :
  loopState (scanLoop noCancel recordPair lines tick ev log)
  = (log ++ dispatchedFrom ev lines)%list.
Proof.
  unfold dispatchedFrom. generalize O as tick'. revert tick ev log.
  induction lines as [|l lines IH]; intros tick ev log tick'.
  - cbn. rewrite app_nil_r. reflexivity.
  - cbn [scanLoop].
    replace (ctx_Done noCancel tick) with false by reflexivity.
    replace (ctx_Done noCancel tick') with false by reflexivity.
    unfold handleLine.
    destruct (HasPrefix l ":"); [apply IH|].
    destruct (String.eqb l EmptyString); [apply IH|].
    destruct (HasPrefix l "event:"); [apply IH|].
    destruct (HasPrefix l "data:"); [|apply IH].
    cbv zeta.
    rewrite (IH (S tick) ev (recordPair ev _ log) O).
    rewrite (IH (S tick') ev (recordPair ev _ []) O).
    unfold recordPair. cbn [app]. rewrite <- app_assoc. reflexivity.
Qed.

Lemma dispatchedFrom_app (ev : string) (l1 l2 : list string) :
  dispatchedFrom ev (l1 ++ l2)
  = (dispatchedFrom ev l1 ++ dispatchedFrom (pendingAfter ev l1) l2)%list.
Proof.
  unfold dispatchedFrom at 1. rewrite scanLoop_app. cbv zeta.
  rewrite scanLoop_noCancel, scanLoop_record, scanLoop_event.
  reflexivity.
Qed.

Lemma pendingAfter_app (ev : string) (l1 l2 : list string) :
  pendingAfter ev (l1 ++ l2) = pendingAfter (pendingAfter ev l1) l2.
Proof.
  unfold pendingAfter at 1. rewrite scanLoop_app. cbv zeta.
  rewrite scanLoop_noCancel, scanLoop_event. reflexivity.
Qed.

Lemma pendingAfter_cons (ev l : string) (lines : list string) :
  pendingAfter ev (l :: lines)
  = pendingAfter (fst (handleLine recordPair l ev [])) lines.
Proof.
  unfold pendingAfter at 1. cbn [scanLoop].
  replace (ctx_Done noCancel O) with false by reflexivity.
  destruct (handleLine recordPair l ev []) as [ev' log].
  apply scanLoop_event.
Qed.

(** Once a blank line was read and no [event:] line follows, nothing is
    pending. *)
Lemma pendingAfter_blank (mid : list string) (ev : string) :
  (In EmptyString mid \/ ev = EmptyString) ->
  (forall l, In l mid -> HasPrefix l "event:" = false) ->
  pendingAfter ev mid = EmptyString.
Proof.
  revert ev. induction mid as [|l mid IH]; intros ev Hblank Hno.
  - destruct Hblank as [[]| ->]. reflexivity.
  - rewrite pendingAfter_cons.
    rewrite (handleLine_keeps_event recordPair l ev []
               (Hno l (or_introl eq_refl))).
    apply IH; [|intros l' Hl'; apply Hno; right; exact Hl'].
    destruct (String.eqb l EmptyString) eqn:Hl; [right; reflexivity|].
    destruct Hblank as [[Heq|Hin]| ->]; [|left; exact Hin|right; reflexivity].
    subst l. discriminate.
Qed.

(** C5. An empty line resets the pending event type to the unset one.
    Hence, when a blank line stands between two [data:] lines with no
    [event:] line after it, the second [data:] line is dispatched with the
    unset event type, whatever the first was dispatched with, and
    [dispatchEvent] takes such a pair for a payload. *)
Theorem blank_line_resets_event_kind (pre mid : list string) (d2 : string) :
  In EmptyString mid ->
  (forall l, In l mid -> HasPrefix l "event:" = false) ->
  HasPrefix d2 "data:" = true ->
  (forall (St : Type) (dispatch : string -> string -> St -> St)
          (ev : string) (st : St),
     handleLine dispatch EmptyString ev st = (EmptyString, st)) /\
  pendingAfter EmptyString (pre ++ mid) = EmptyString /\
  dispatched (pre ++ mid ++ [d2])
  = (dispatched (pre ++ mid)
     ++ [(EmptyString, TrimSpace (TrimPrefix d2 "data:"))])%list /\
  (forall (env : Env) (St : Type) (callbacks : StreamCallbacks St)
          (data : string) (st : St),
     dispatchEvent env EmptyString data callbacks st
     = match OnPayload callbacks with
       | Some f =>
           match json_UnmarshalPayload env data with
           | Some payload => f payload st
           | None => st
           end
       | None => st
       end).
Proof.
  intros Hblank Hno Hd2.
  assert (Hpend : pendingAfter EmptyString (pre ++ mid) = EmptyString).
  { rewrite pendingAfter_app. apply pendingAfter_blank; auto. }
  split; [intros; apply handleLine_blank|].
  split; [exact Hpend|].
  split; [|reflexivity].
  unfold dispatched. rewrite app_assoc, dispatchedFrom_app, Hpend.
  f_equal. unfold dispatchedFrom. cbn [scanLoop].
  replace (ctx_Done noCancel O) with false by reflexivity.
  rewrite (handleLine_data recordPair d2 EmptyString [] Hd2).
  reflexivity.
Qed.

Lemma blank_line_resets_event_kind_witness :
  dispatched ["event: error"; "data: boom"; EmptyString; "data: {e1}"]
  = (dispatched ["event: error"; "data: boom"; EmptyString]
     ++ [(EmptyString, TrimSpace (TrimPrefix "data: {e1}" "data:"))])%list.
Proof.
  refine (proj1 (proj2 (proj2 (blank_line_resets_event_kind
            ["event: error"] ["data: boom"; EmptyString] "data: {e1}"
            _ _ _)))).
  - right. left. reflexivity.
  - intros l [<-|[<-|[]]]; reflexivity.
  - reflexivity.
Defined.

Example blank_line_example :
  dispatched ["event: error"; "data: boom"; EmptyString; "data: {e1}"]
  = [("error", "boom"); (EmptyString, "{e1}")].
Proof. vm_compute. reflexivity. Qed.

(** C6. A line that begins with a colon is discarded: it dispatches nothing
    and leaves the pending event type as it is. For the input
    [":hi\nevent: meta\ndata: {...}\n\n"] the parser dispatches exactly one
    pair, of type [meta] with the trimmed JSON text, and nothing for the
    comment line. *)
Theorem comment_line_discarded_meta_example (St : Type)
    (dispatch : string -> string -> St -> St) (line ev : string) (st : St)
    (atEnd : bool) :
  HasPrefix line ":" = true ->
  handleLine dispatch line ev st = (ev, st) /\
  ScanLines metaInput
  = [":hi"; "event: meta"; "data: " ++ metaJSON; EmptyString] /\
  scan_tokens (split_lines metaInput []) atEnd None
  = (ScanLines metaInput, None) /\
  dispatched (ScanLines metaInput) = [("meta", metaJSON)] /\
  dispatched [":hi"] = [].
Proof.
  intros H. split; [apply handleLine_comment; exact H|].
  destruct atEnd; vm_compute; repeat split.
Qed.

Lemma comment_line_discarded_meta_example_witness :
  handleLine recordPair ":hi" "meta" [] = ("meta", []) /\
  dispatched (ScanLines metaInput) = [("meta", metaJSON)].
Proof.
  destruct (comment_line_discarded_meta_example _ recordPair ":hi" "meta" []
              true eq_refl) as (H1 & _ & _ & H2 & _).
  split; [exact H1 | exact H2].
Defined.

(** C8. When the body of a [data:] line does not decode into the structure
    of the pending event type (meta or the default payload), the dispatcher
    invokes no callback: whatever the callbacks and the state, the state is
    left as it was; the record is dropped and the loop goes on with the
    lines that follow, in the same state and with the same pending event
    type. *)
Theorem undecodable_record_dropped (env : Env) (St : Type)
    (callbacks : StreamCallbacks St) (line ev : string) (st : St) :
  HasPrefix line "data:" = true ->
  decodeFails env ev (TrimSpace (TrimPrefix line "data:")) ->
  dispatchEvent env ev (TrimSpace (TrimPrefix line "data:")) callbacks st
  = st /\
  handleLine (dispatchWith env callbacks) line ev st = (ev, st) /\
  (forall (ctx : Context) (rest : list string) (tick : nat),
     ctx_Done ctx tick = false ->
     scanLoop ctx (dispatchWith env callbacks) (line :: rest) tick ev st
     = scanLoop ctx (dispatchWith env callbacks) rest (S tick) ev st).
Proof.
  intros Hdata Hfail.
  assert (Hd : dispatchEvent env ev (TrimSpace (TrimPrefix line "data:"))
                 callbacks st = st).
  { unfold dispatchEvent.
    destruct Hfail as [[-> Hm] | (Hn1 & Hn2 & Hn3 & Hp)].
    - replace (String.eqb "meta" "meta") with true by reflexivity.
      rewrite Hm. destruct (OnMeta callbacks); reflexivity.
    - apply String.eqb_neq in Hn1, Hn2, Hn3. rewrite Hn1, Hn2, Hn3, Hp.
      destruct (OnPayload callbacks); reflexivity. }
  assert (Hh : handleLine (dispatchWith env callbacks) line ev st = (ev, st)).
  { rewrite handleLine_data by exact Hdata.
    unfold dispatchWith. rewrite Hd. reflexivity. }
  split; [exact Hd|]. split; [exact Hh|].
  intros ctx rest tick Hctx. cbn [scanLoop]. rewrite Hctx, Hh. reflexivity.
Qed.

Lemma undecodable_record_dropped_witness :
  scanLoop noCancel (dispatchWith exampleEnv recordPayloads)
    ["data: {not json"; "data: {e2}"] O EmptyString []
  = scanLoop noCancel (dispatchWith exampleEnv recordPayloads)
      ["data: {e2}"] 1%nat EmptyString [].
Proof.
  refine (proj2 (proj2 (undecodable_record_dropped exampleEnv _
            recordPayloads "data: {not json" EmptyString [] eq_refl _))
          noCancel ["data: {e2}"] O eq_refl).
  right. split; [discriminate|]. split; [discriminate|].
  split; [discriminate|]. vm_compute. reflexivity.
Defined.

Example undecodable_record_example :
  loopState (scanLoop noCancel (dispatchWith exampleEnv recordPayloads)
               ["data: {not json"; "data: {e2}"] O EmptyString [])
  = [examplePayload "e2" "example.com"].
Proof. vm_compute. reflexivity. Qed.

(** ** The summary *)

(** C9. For three outcomes with latencies 10, 20 and 30 ms of which two
    succeeded, [PrintSummary] computes the average latency 20 and the
    success percentage 2/3 * 100, the double 4691249611844266 * 2^-46
    (66.66666666666666), which it prints, with one decimal, as 66.7. *)
Theorem summary_three_outcomes (r1 r2 r3 : DeliveryResult) (elapsedMs : Z) :
  LatencyMs r1 = 10 -> LatencyMs r2 = 20 -> LatencyMs r3 = 30 ->
  List.length (filter Success [r1; r2; r3]) = 2%nat ->
  let v := summaryVars [r1; r2; r3] elapsedMs in
  total v = 3 /\ succeeded v = 2 /\ avgMs v = 20 /\
  pct v = (2 / 3 * 100)%float /\
  Prim2SF (pct v) = S754_finite false 4691249611844266 (-46) /\
  format_f1 (pct v) = "66.7" /\
  nth 4 (PrintSummary false [r1; r2; r3] elapsedMs) EmptyString
  = "  Delivered: 2/3 (66.7%)" /\
  nth 7 (PrintSummary false [r1; r2; r3] elapsedMs) EmptyString
  = "  Avg:       20ms".
Proof.
  destruct r1 as [i1 c1 s1 t1 l1 ok1 e1], r2 as [i2 c2 s2 t2 l2 ok2 e2],
           r3 as [i3 c3 s3 t3 l3 ok3 e3].
  cbn [LatencyMs]. intros -> -> -> Hcount.
  destruct ok1, ok2, ok3; cbn in Hcount; try discriminate Hcount;
    vm_compute; repeat split.
Qed.

Lemma summary_three_outcomes_witness :
  let rs :=
    [ mkDeliveryResult 1 "a.example" 200 "OK" 10 true EmptyString;
      mkDeliveryResult 2 "b.example" 500 "Internal Server Error" 20 false
        "received status 500 Internal Server Error";
      mkDeliveryResult 3 "c.example" 204 "No Content" 30 true EmptyString ] in
  avgMs (summaryVars rs 1234) = 20 /\
  format_f1 (pct (summaryVars rs 1234)) = "66.7".
Proof.
  cbv zeta.
  destruct (summary_three_outcomes
    (mkDeliveryResult 1 "a.example" 200 "OK" 10 true EmptyString)
    (mkDeliveryResult 2 "b.example" 500 "Internal Server Error" 20 false
       "received status 500 Internal Server Error")
    (mkDeliveryResult 3 "c.example" 204 "No Content" 30 true EmptyString)
    1234 eq_refl eq_refl eq_refl eq_refl)
    as (_ & _ & Havg & _ & _ & Hpct & _).
  split; [exact Havg | exact Hpct].
Defined.

Example format_f1_examples :
  map format_f1 [0.25%float; 0.75%float; 2.5%float; 100%float; 0%float]
  = ["0.2"; "0.8"; "2.5"; "100.0"; "0.0"].
Proof. vm_compute. reflexivity. Qed.

(** ** The orchestrator: the state after the stream *)

Lemma checkForFailures_cases (rs : list DeliveryResult) :
  (checkForFailures rs = Some ErrDeliveriesFailed /\ hasFailure rs) \/
  (checkForFailures rs = None /\ ~ hasFailure rs).
Proof.
  induction rs as [|r rs IH].
  - right. split; [reflexivity|]. intros (r & [] & _).
  - cbn [checkForFailures]. destruct (Success r) eqn:Hr; cbn [negb].
    + destruct IH as [[-> (r' & Hin & Hf)] | [-> Hno]].
      * left. split; [reflexivity|]. exists r'. split; [right|]; assumption.
      * right. split; [reflexivity|].
        intros (r' & [<-|Hin] & Hf); [congruence|].
        apply Hno. exists r'. split; assumption.
    + left. split; [reflexivity|]. exists r. split; [left|]; auto.
Qed.

Lemma ctx_Done_mono (ctx : Context) (t : nat) :
  ctx_Done ctx t = true -> ctx_Done ctx (S t) = true.
Proof.
  unfold ctx_Done. destruct (cancelTick ctx) as [c|]; [|discriminate].
  rewrite !Nat.leb_le. lia.
Qed.

Lemma emit_fields (o : Output) (st : RunState) :
  results (emit o st) = results st /\ index (emit o st) = index st /\
  filePayloads (emit o st) = filePayloads st /\
  streamErr (emit o st) = streamErr st /\ clock (emit o st) = clock st /\
  net (emit o st) = net st.
Proof. repeat split. Qed.

Lemma emit_unless_fields (q : bool) (o : Output) (st : RunState) :
  results (emit_unless q o st) = results st /\
  index (emit_unless q o st) = index st /\
  filePayloads (emit_unless q o st) = filePayloads st /\
  streamErr (emit_unless q o st) = streamErr st /\
  clock (emit_unless q o st) = clock st /\
  net (emit_unless q o st) = net st.
Proof. destruct q; repeat split. Qed.

Lemma printReports_fields (w : World) (opts : CliOptions) (st : RunState) :
  results (printReports w opts st) = results st /\
  filePayloads (printReports w opts st) = filePayloads st /\
  streamErr (printReports w opts st) = streamErr st /\
  clock (printReports w opts st) = clock st.
Proof.
  unfold printReports. cbv zeta.
  destruct (negb (isEmpty (File opts)) && negb (Raw opts));
    destruct (negb (Raw opts) && negb (isEmpty (URL opts)));
    repeat split.
Qed.



(** ** The orchestrator: sequence indices *)

Lemma wrap64_succ (x : Z) : wrap64 (wrap64 x + 1) = wrap64 (x + 1).
Proof.
  unfold wrap64.
  replace ((x + 2 ^ 63) mod 2 ^ 64 - 2 ^ 63 + 1 + 2 ^ 63)
    with ((x + 2 ^ 63) mod 2 ^ 64 + 1) by lia.
  rewrite Zplus_mod_idemp_l. f_equal. f_equal. lia.
Qed.

Lemma wrap64_small (x : Z) : - 2 ^ 63 <= x < 2 ^ 63 -> wrap64 x = x.
Proof. intros H. unfold wrap64. rewrite Z.mod_small; lia. Qed.

Lemma DeliverPayload_Index (env : Env) (payload : WebhookPayload)
    (targetURL secret : string) (idx : Z) (net : Net) :
  Index (fst (DeliverPayload env payload targetURL secret idx net)) = idx.
Proof.
  unfold DeliverPayload, client_Do.
  destruct (json_Marshal env payload) as [body|err]; [|reflexivity].
  generalize (SignPayload body secret); intros signature.
  destruct (http_NewRequest env "POST" targetURL); [reflexivity|].
  cbv zeta.
  match goal with |- context [http_Do env ?n ?q] =>
    destruct (http_Do env n q) as [[err|code rbody] elapsed] end;
    reflexivity.
Qed.

Section Simulation.

Context {A B : Type}.
Variable f : string -> string -> A -> A.
Variable g : string -> string -> B -> B.
Variable R : A -> B -> Prop.
Hypothesis step : forall k d a b, R a b -> R (f k d a) (g k d b).

Lemma handleLine_sim (line ev : string) (a : A) (b : B) :
  R a b ->
  fst (handleLine f line ev a) = fst (handleLine g line ev b) /\
  R (snd (handleLine f line ev a)) (snd (handleLine g line ev b)).
Proof.
  intros H. unfold handleLine.
  destruct (HasPrefix line ":"); [split; [reflexivity|exact H]|].
  destruct (String.eqb line EmptyString); [split; [reflexivity|exact H]|].
  destruct (HasPrefix line "event:"); [split; [reflexivity|exact H]|].
  destruct (HasPrefix line "data:"); [|split; [reflexivity|exact H]].
  split; [reflexivity|]. apply step. exact H.
Qed.

Lemma scanLoop_sim (ctx : Context) (lines : list string) (tick : nat)
    (ev : string) (a : A) (b : B) :
  R a b ->
  loopCancelled (scanLoop ctx f lines tick ev a)
  = loopCancelled (scanLoop ctx g lines tick ev b) /\
  loopTick (scanLoop ctx f lines tick ev a)
  = loopTick (scanLoop ctx g lines tick ev b) /\
  R (loopState (scanLoop ctx f lines tick ev a))
    (loopState (scanLoop ctx g lines tick ev b)).
Proof.
  revert tick ev a b. induction lines as [|l lines IH]; intros tick ev a b H.
  - repeat split. exact H.
  - cbn [scanLoop]. destruct (ctx_Done ctx tick).
    + repeat split. exact H.
    + destruct (handleLine_sim l ev a b H) as [Hev Hst].
      destruct (handleLine f l ev a) as [ev1 a1].
      destruct (handleLine g l ev b) as [ev2 b2].
      cbn [fst snd] in Hev, Hst. subst ev2. apply IH. exact Hst.
Qed.

End Simulation.

(** Two sets of callbacks whose dispatch steps keep a relation between
    their states are run by [ConnectStream] in lock step: same error, same
    clock, related states. *)
Lemma ConnectStream_sim {A B : Type} (env : Env) (ctx : Context)
    (src : StreamSource) (streamURL secret : string)
    (ca : StreamCallbacks A) (cb : StreamCallbacks B) (R : A -> B -> Prop)
    (tick : nat) (a : A) (b : B) :
  (forall k d a b, R a b ->
     R (dispatchEvent env k d ca a) (dispatchEvent env k d cb b)) ->
  R a b ->
  fst (fst (ConnectStream env ctx src streamURL secret ca tick a))
  = fst (fst (ConnectStream env ctx src streamURL secret cb tick b)) /\
  snd (ConnectStream env ctx src streamURL secret ca tick a)
  = snd (ConnectStream env ctx src streamURL secret cb tick b) /\
  R (snd (fst (ConnectStream env ctx src streamURL secret ca tick a)))
    (snd (fst (ConnectStream env ctx src streamURL secret cb tick b))).
Proof.
  intros Hstep H. unfold ConnectStream.
  destruct (http_NewRequest env "GET" streamURL); [repeat split; exact H|].
  destruct (ss_reply src) as [err|code body]; [repeat split; exact H|].
  destruct (negb (code =? 200)); [repeat split; exact H|].
  destruct (scanBody src body) as [tokens scanErr].
  pose proof (scanLoop_sim
    (fun eventType data => dispatchEvent env eventType data ca)
    (fun eventType data => dispatchEvent env eventType data cb)
    R Hstep ctx tokens tick EmptyString a b H) as (Hc & Ht & Hs).
  destruct (scanLoop ctx _ tokens tick EmptyString a) as [[[c1 e1] a1] t1].
  destruct (scanLoop ctx _ tokens tick EmptyString b) as [[[c2 e2] b2] t2].
  unfold loopCancelled, loopTick, loopState in Hc, Ht, Hs.
  cbn [fst snd] in Hc, Ht, Hs. subst c2 t2.
  destruct c1; [repeat split; exact Hs|].
  destruct scanErr as [err|]; [|repeat split; exact Hs].
  destruct (ctx_Done ctx t1); repeat split; exact Hs.
Qed.

(** ** The orchestrator: when a run fails *)

(** The error and the observation count of [ConnectStream] do not depend
    on the callbacks nor on the state. *)
Lemma ConnectStream_outcome {A : Type} (env : Env) (ctx : Context)
    (src : StreamSource) (streamURL secret secret' : string)
    (callbacks : StreamCallbacks A) (tick : nat) (a : A) :
  fst (fst (ConnectStream env ctx src streamURL secret callbacks tick a))
  = fst (fst (ConnectStream env ctx src streamURL secret'
                (mkStreamCallbacks None None None None) tick tt)) /\
  snd (ConnectStream env ctx src streamURL secret callbacks tick a)
  = snd (ConnectStream env ctx src streamURL secret'
           (mkStreamCallbacks None None None None) tick tt).
Proof.
  unfold ConnectStream.
  destruct (http_NewRequest env "GET" streamURL); [split; reflexivity|].
  destruct (ss_reply src) as [err|code body]; [split; reflexivity|].
  destruct (negb (code =? 200)); [split; reflexivity|].
  destruct (scanBody src body) as [tokens scanErr].
  pose proof (scanLoop_sim
    (fun eventType data => dispatchEvent env eventType data callbacks)
    (fun eventType data =>
       dispatchEvent env eventType data
         (mkStreamCallbacks (St:=unit) None None None None))
    (fun _ _ => True) (fun _ _ _ _ _ => I) ctx tokens tick EmptyString a tt I)
    as (Hc & Ht & _).
  destruct (scanLoop ctx _ tokens tick EmptyString a) as [[[c1 e1] a1] t1].
  destruct (scanLoop ctx _ tokens tick EmptyString tt) as [[[c2 e2] b2] t2].
  unfold loopCancelled, loopTick in Hc, Ht. cbn [fst snd] in Hc, Ht.
  subst c2 t2.
  destruct c1; [split; reflexivity|].
  destruct scanErr as [err|]; [|split; reflexivity].
  destruct (ctx_Done ctx t1); split; reflexivity.
Qed.

(** What the part of [Run] that follows the stream returns. *)
Lemma finishRun_error (w : World) (opts : CliOptions) (err : error)
    (st : RunState) (tick : nat) :
  results (snd (finishRun w opts err st tick)) = results st /\
  fst (finishRun w opts err st tick)
  = match err with
    | Some cause =>
        if ctx_Done (w_ctx w) tick
           && ((0 <? Z.of_nat (List.length (results st)))
               || (0 <? filePayloads st))
        then checkForFailures (results st)
        else if negb (ctx_Done (w_ctx w) (S tick))
        then Some (ErrStream cause)
        else checkForFailures (results st)
    | None => checkForFailures (results st)
    end.
Proof.
  unfold finishRun. cbv zeta.
  set (st1 := mkRunState _ _ _ _ _ _ _ err tick).
  destruct (printReports_fields w opts st1) as (Hr & _).
  change (results st1) with (results st) in Hr.
  destruct err as [cause|]; [|cbn [fst snd]; split; [exact Hr | reflexivity]].
  destruct (ctx_Done (w_ctx w) tick && _).
  - cbn [fst snd]. split; [|reflexivity].
    destruct (emit_unless_fields (Raw opts) (OutInfo "Interrupted by signal")
                (printReports w opts st1)) as (-> & _).
    exact Hr.
  - destruct (negb (ctx_Done (w_ctx w) (S tick))); cbn [fst snd];
      (split; [exact Hr | reflexivity]).
Qed.

(** The stream phase fails exactly when an outcome failed or the stream
    ended with an error while the context was not cancelled. *)
Lemma runStream_failure (w : World) (opts : CliOptions) (outFile : bool)
    (secret streamURL : string) (st0 : RunState) :
  let r := runStream w opts outFile secret streamURL st0 in
  let o :=
    ConnectStream (w_env w) (w_ctx w) (w_stream w) streamURL secret
      (mkStreamCallbacks None None None None) O tt in
  (fst r <> None <->
     hasFailure (results (snd r)) \/
     (fst (fst o) <> None /\ ctx_Done (w_ctx w) (S (snd o)) = false)) /\
  (fst (fst o) <> None -> ctx_Done (w_ctx w) (S (snd o)) = false ->
   exists cause, fst r = Some (ErrStream cause)) /\
  (fst (fst o) <> None -> ctx_Done (w_ctx w) (S (snd o)) = true ->
   ~ hasFailure (results (snd r)) -> fst r = None).
Proof.
  cbv zeta. unfold runStream.
  destruct (ConnectStream_outcome (w_env w) (w_ctx w) (w_stream w) streamURL
              secret secret (runCallbacks (w_env w) opts outFile secret) O st0)
    as [He Ht].
  destruct (ConnectStream (w_env w) (w_ctx w) (w_stream w) streamURL secret
              (runCallbacks (w_env w) opts outFile secret) O st0)
    as [[err st] tick].
  destruct (ConnectStream (w_env w) (w_ctx w) (w_stream w) streamURL secret
              (mkStreamCallbacks None None None None) O tt)
    as [[err' u] tick'].
  cbn [fst snd] in He, Ht. subst err' tick'. cbv zeta. cbn [fst snd].
  destruct (finishRun_error w opts err st tick) as [-> ->].
  pose proof (ctx_Done_mono (w_ctx w) tick) as Hm.
  destruct (checkForFailures_cases (results st)) as [[-> HF] | [-> HF]];
    destruct err as [cause|];
    destruct (ctx_Done (w_ctx w) tick);
    destruct (ctx_Done (w_ctx w) (S tick));
    try (specialize (Hm eq_refl); discriminate Hm);
    destruct ((0 <? Z.of_nat (List.length (results st)))
              || (0 <? filePayloads st));
    cbn [andb negb fst snd]; crush_cases;
    try (right; split; [discriminate | reflexivity]).
Qed.

Lemma runOutputs_failure (w : World) (opts : CliOptions)
    (secret streamURL : string) (st0 : RunState) :
  let r := runOutputs w opts secret streamURL st0 in
  let o :=
    ConnectStream (w_env w) (w_ctx w) (w_stream w) streamURL secret
      (mkStreamCallbacks None None None None) O tt in
  let nofile :=
    isEmpty (File opts) = false /\ w_openFile w (File opts) <> None in
  results st0 = [] ->
  (fst r <> None <->
     hasFailure (results (snd r)) \/ nofile \/
     (~ nofile /\ fst (fst o) <> None /\
      ctx_Done (w_ctx w) (S (snd o)) = false)) /\
  (nofile -> exists cause, fst r = Some (ErrOpenFile (File opts) cause)) /\
  (~ nofile -> fst (fst o) <> None ->
   ctx_Done (w_ctx w) (S (snd o)) = false ->
   exists cause, fst r = Some (ErrStream cause)) /\
  (~ nofile -> fst (fst o) <> None ->
   ctx_Done (w_ctx w) (S (snd o)) = true ->
   ~ hasFailure (results (snd r)) -> fst r = None).
Proof.
  cbv zeta. intros Hr0. unfold runOutputs.
  assert (Hnf : ~ hasFailure []) by (intros (r & [] & _)).
  destruct (isEmpty (File opts)) eqn:Hfile; cbn [negb].
  - pose proof (runStream_failure w opts false secret streamURL st0) as H.
    cbv zeta in H. destruct H as (H1 & H2 & H3).
    assert (Hno' : ~ (true = false /\ w_openFile w (File opts) <> None))
      by (intros [H _]; discriminate H).
    repeat split.
    + intros He. apply H1 in He. destruct He as [He | He]; [left; exact He|].
      right. right. split; [exact Hno' | exact He].
    + intros [He | [[He _] | (_ & He)]];
        [apply H1; left; exact He | discriminate He | apply H1; right; exact He].
    + intros [He _]. discriminate He.
    + intros _. exact H2.
    + intros _. exact H3.
  - destruct (w_openFile w (File opts)) as [cause|] eqn:Hopen.
    + cbn [fst snd]. rewrite Hr0. repeat split.
      * intros _. right. left. split; [reflexivity | discriminate].
      * intros _. discriminate.
      * intros _. exists cause. reflexivity.
      * intros Hno. exfalso. apply Hno. split; [reflexivity | discriminate].
      * intros Hno. exfalso. apply Hno. split; [reflexivity | discriminate].
    + pose proof (runStream_failure w opts true secret streamURL st0) as H.
      cbv zeta in H. destruct H as (H1 & H2 & H3).
      assert (Hno' : ~ (false = false /\ None (A:=string) <> None))
        by (intros [_ H]; apply H; reflexivity).
      repeat split.
      * intros He. apply H1 in He. destruct He as [He | He]; [left; exact He|].
        right. right. split; [exact Hno' | exact He].
      * intros [He | [[_ He] | (_ & He)]];
          [apply H1; left; exact He | exfalso; apply He; reflexivity
          | apply H1; right; exact He].
      * intros [_ He]. exfalso. apply He. reflexivity.
      * intros _. exact H2.
      * intros _. exact H3.
Qed.

Lemma failure_logic (E HF SF NF SE D D' XC XO XS EN P : Prop) :
  P -> ~ SF ->
  (E <-> HF \/ NF \/ (~ NF /\ SE /\ D)) ->
  (NF -> XO) ->
  (~ NF -> SE -> D -> XS) ->
  (~ NF -> SE -> D' -> ~ HF -> EN) ->
  (E <-> HF \/ SF \/ (P /\ ~ SF /\ NF) \/
         ((P /\ ~ SF /\ ~ (P /\ ~ SF /\ NF)) /\ SE /\ D)) /\
  (SF -> XC) /\
  (P /\ ~ SF /\ NF -> XO) /\
  ((P /\ ~ SF /\ ~ (P /\ ~ SF /\ NF)) /\ SE /\ D -> XS) /\
  ((P /\ ~ SF /\ ~ (P /\ ~ SF /\ NF)) /\ SE /\ D' -> ~ HF -> EN).
Proof.
  intros HP HS H1 H2 H3 H4. split; [|split; [|split; [|split]]].
  - split.
    + intros He. apply H1 in He. destruct He as [He | [He | (Hn & He)]].
      * left. exact He.
      * right. right. left. auto.
      * right. right. right. split; [|exact He].
        split; [exact HP|]. split; [exact HS|].
        intros (_ & _ & Hf). exact (Hn Hf).
    + intros [He | [He | [(_ & _ & He) | ((_ & _ & Hn) & He)]]].
      * apply H1. left. exact He.
      * contradiction.
      * apply H1. right. left. exact He.
      * apply H1. right. right. split; [|exact He].
        intros Hf. apply Hn. auto.
  - intros Hs. contradiction.
  - intros (_ & _ & Hf). exact (H2 Hf).
  - intros ((_ & _ & Hn) & Hse & Hd). apply H3; auto.
  - intros ((_ & _ & Hn) & Hse & Hd) Hf. apply H4; auto.
Qed.

(** C1, as amended. [Run] returns a non-nil error, and the process then
    exits with a status other than 0, if and only if at least one recorded
    outcome has [Success] false, or the session could not be created, or
    the output file could not be opened, or the stream ended with an error
    while the context was not cancelled; each of the last three gives its
    own error. A cancellation is not itself reported as a failure: when
    the stream ended through cancellation and no outcome failed, [Run]
    returns nil. *)
Theorem Run_failure_iff (w : World) (opts : CliOptions) (version : string) :
  let e := fst (Run w opts version) in
  let st := snd (Run w opts version) in
  (e <> None <->
     hasFailure (results st) \/ sessionFails w opts \/
     fileOpenFails w opts \/ streamFails w opts) /\
  (e <> None <-> exitStatus e <> 0) /\
  (sessionFails w opts -> exists cause, e = Some (ErrCreateSession cause)) /\
  (fileOpenFails w opts ->
   exists cause, e = Some (ErrOpenFile (File opts) cause)) /\
  (streamFails w opts -> exists cause, e = Some (ErrStream cause)) /\
  (streamCancelled w opts -> ~ hasFailure (results st) -> e = None).
Proof.
  cbv zeta.
  assert (Hexit : forall e : option RunError,
             e <> None <-> exitStatus e <> 0).
  { intros [[c|f c|c| |]|]; cbn; split; try discriminate;
      intros H; exfalso; apply H; reflexivity. }
  cut ((fst (Run w opts version) <> None <->
          hasFailure (results (snd (Run w opts version))) \/
          sessionFails w opts \/ fileOpenFails w opts \/ streamFails w opts)
       /\
       (sessionFails w opts ->
        exists cause, fst (Run w opts version)
                      = Some (ErrCreateSession cause)) /\
       (fileOpenFails w opts ->
        exists cause, fst (Run w opts version)
                      = Some (ErrOpenFile (File opts) cause)) /\
       (streamFails w opts ->
        exists cause, fst (Run w opts version) = Some (ErrStream cause)) /\
       (streamCancelled w opts ->
        ~ hasFailure (results (snd (Run w opts version))) ->
        fst (Run w opts version) = None)).
  { intros (H1 & H2). split; [exact H1|]. split; [apply Hexit | exact H2]. }
  clear Hexit.
  assert (Hnf : ~ hasFailure []) by (intros (r & [] & _)).
  unfold streamFails, streamCancelled, reachesStream, fileOpenFails,
    sessionFails, streamOutcome, runStreamURL, runSecret, Run.
  destruct (Preview opts).
  { cbn [fst snd].
    assert (Hr : results (emit_unless (negb (isEmpty (Secret opts))) OutTip
                   (emit (OutPreview (if isEmpty (Secret opts)
                                      then w_randomHex w else Secret opts)
                            version) initialState)) = []).
    { destruct (negb (isEmpty (Secret opts))); reflexivity. }
    rewrite Hr. split; [|split; [|split; [|split]]].
    - split; [intros H; exfalso; apply H; reflexivity|].
      intros [H | [(H & _) | [(H & _) | ((H & _) & _)]]];
        [contradiction | discriminate H ..].
    - intros (H & _). discriminate H.
    - intros (H & _). discriminate H.
    - intros ((H & _) & _). discriminate H.
    - intros ((H & _) & _). discriminate H. }
  destruct (isEmpty (APIKey opts)) eqn:Hkey; cbn [negb]; cbv zeta.
  - match goal with |- context [runOutputs w opts ?sec ?url ?st0] =>
      pose proof (runOutputs_failure w opts sec url st0) as H;
      cbv zeta in H;
      destruct H as (H1 & H2 & H3 & H4);
        [destruct (Raw opts); reflexivity|];
      generalize dependent (runOutputs w opts sec url st0)
    end.
    match goal with |- context [ConnectStream ?e ?c ?s ?u ?k ?cb O tt] =>
      destruct (ConnectStream e c s u k cb O tt) as [[err u0] tick] end.
    cbn [fst snd]. intros r H1 H2 H3 H4.
    apply failure_logic; try assumption; [reflexivity|].
    intros (_ & H & _). discriminate H.
  - destruct (CreateSession_cases (w_env w) (w_session w) (APIEndpoint opts)
                (APIKey opts) (Secret opts))
      as [(sess & -> & Hacc) | (msg & -> & Hno)].
    + destruct Hacc as (_ & c & b & _ & _ & _ & _ & Hd).
      destruct (sr_Data sess) as [data|]; [|contradiction]. cbn [snd].
      match goal with |- context [runOutputs w opts ?sec ?url ?st0] =>
        pose proof (runOutputs_failure w opts sec url st0) as H;
        cbv zeta in H;
        destruct H as (H1 & H2 & H3 & H4);
          [destruct (Raw opts); reflexivity|];
        generalize dependent (runOutputs w opts sec url st0)
      end.
      match goal with |- context [ConnectStream ?e ?c ?s ?u ?k ?cb O tt] =>
        destruct (ConnectStream e c s u k cb O tt) as [[err u0] tick] end.
      cbn [fst snd]. intros r H1 H2 H3 H4.
      apply failure_logic; try assumption; [reflexivity|].
      intros (_ & _ & H). apply H. reflexivity.
    + cbn [fst snd].
      assert (Hr : results (emit_unless (Raw opts) OutNewline
                     (emit_unless (Raw opts) OutConnecting initialState))
                   = []).
      { destruct (Raw opts); reflexivity. }
      rewrite Hr.
      assert (Hs : false = false /\ false = false
                   /\ Some msg <> None (A:=string))
        by (repeat split; discriminate).
      split; [|split; [|split; [|split]]].
      * split; [intros _; right; left; exact Hs | intros _; discriminate].
      * intros _. exists msg. reflexivity.
      * intros (_ & Hn & _). contradiction.
      * intros ((_ & Hn & _) & _). contradiction.
      * intros ((_ & Hn & _) & _). contradiction.
Qed.

Lemma Run_failure_iff_witness :
  let w :=
    exampleWorld (Response 200 ("data: {e1}" ++ LF ++ "data: {e2}" ++ LF))
      (Some 1%nat) in
  let opts := exampleOpts "http://localhost:3000/hook" EmptyString in
  fst (Run w opts "dev") = None.
Proof.
  cbv zeta.
  refine (proj2 (proj2 (proj2 (proj2 (proj2 (Run_failure_iff
            (exampleWorld
               (Response 200 ("data: {e1}" ++ LF ++ "data: {e2}" ++ LF))
               (Some 1%nat))
            (exampleOpts "http://localhost:3000/hook" EmptyString) "dev")))))
          _ _).
  - unfold streamCancelled, reachesStream, fileOpenFails, sessionFails.
    repeat split; try reflexivity; try (vm_compute; discriminate);
      intros H; decompose [and] H; discriminate.
  - assert (H : results (snd (Run
        (exampleWorld
           (Response 200 ("data: {e1}" ++ LF ++ "data: {e2}" ++ LF))
           (Some 1%nat))
        (exampleOpts "http://localhost:3000/hook" EmptyString) "dev"))
      = [mkDeliveryResult 1 "example.com" 200 "OK" 10 true EmptyString]).
    { vm_compute. reflexivity. }
    rewrite H. intros (r & [<-|[]] & Hr). discriminate Hr.
Defined.

Example Run_examples :
  let body :=
    "data: {e1}" ++ LF ++ LF ++ "data: {not json" ++ LF
    ++ "event: complete" ++ LF ++ "data: bye" ++ LF ++ LF
    ++ "data: {e2}" ++ LF ++ "data: {e3}" in
  let r :=
    Run (exampleWorld (Response 200 body) None)
      (exampleOpts "http://localhost:3000/hook" "out.jsonl") "dev" in
  fst r = Some ErrDeliveriesFailed /\
  map Index (results (snd r)) = [1; 2; 3] /\
  map Status (results (snd r)) = [200; 500; 200] /\
  filePayloads (snd r) = 3.
Proof. vm_compute. repeat split. Qed.

Lemma Run_fails_without_failed_outcome :
  let r :=
    Run (exampleWorld (Response 503 EmptyString) None)
      (exampleOpts "http://localhost:3000/hook" EmptyString) "dev" in
  ~ (fst r <> None <-> hasFailure (results (snd r))).
Proof.
  cbv zeta.
  assert (H : Run (exampleWorld (Response 503 EmptyString) None)
                (exampleOpts "http://localhost:3000/hook" EmptyString) "dev"
              = (Some (ErrStream "stream returned status 503"),
                 snd (Run (exampleWorld (Response 503 EmptyString) None)
                        (exampleOpts "http://localhost:3000/hook" EmptyString)
                        "dev")) /\
              results (snd (Run (exampleWorld (Response 503 EmptyString) None)
                (exampleOpts "http://localhost:3000/hook" EmptyString) "dev"))
              = []).
  { vm_compute. split; reflexivity. }
  destruct H as [H1 H2]. rewrite H2, H1. cbn [fst].
  intros [Hfail _].
  destruct (Hfail ltac:(discriminate)) as (r & [] & _).
Qed.



Lemma connectedOnce_Do_fields (st : RunState) :
  index (connectedOnce_Do st) = index st /\
  results (connectedOnce_Do st) = results st.
Proof. unfold connectedOnce_Do. destruct (connectedOnce st); split; reflexivity. Qed.

(** The payload callback increments the counter once and, when the HTTP
    sink is active, records one outcome that carries the new value. *)
Lemma onPayload_fields (env : Env) (opts : CliOptions) (outFile : bool)
    (secret : string) (payload : WebhookPayload) (st : RunState) :
  index (onPayload env opts outFile secret payload st)
  = wrap64 (index st + 1) /\
  map Index (results (onPayload env opts outFile secret payload st))
  = if isEmpty (URL opts) then map Index (results st)
    else (map Index (results st) ++ [wrap64 (index st + 1)])%list.
Proof.
  unfold onPayload. cbv zeta.
  destruct (isEmpty (URL opts)); cbn [negb].
  - destruct (Raw opts), outFile, (json_Marshal env payload);
      split; reflexivity.
  - match goal with |- context [DeliverPayload ?e ?p ?u ?s ?i ?n] =>
      pose proof (DeliverPayload_Index e p u s i n) as HI;
      destruct (DeliverPayload e p u s i n) as [result net'] end.
    cbn [fst] in HI.
    destruct (Raw opts), outFile, (json_Marshal env payload), (Verbose opts);
      cbn; rewrite map_app; cbn [map]; rewrite HI; split; reflexivity.
Qed.

Lemma runCallbacks_step (env : Env) (opts : CliOptions) (outFile : bool)
    (secret : string) (k d : string) (log : list WebhookPayload)
    (st : RunState) :
  indexed opts log st ->
  indexed opts (dispatchEvent env k d recordPayloads log)
    (dispatchEvent env k d (runCallbacks env opts outFile secret) st).
Proof.
  intros [Hi Hr]. unfold dispatchEvent, runCallbacks. cbv zeta.
  destruct (String.eqb k "meta").
  { destruct (isEmpty (APIKey opts) && negb (Raw opts)); cbn;
      destruct (json_UnmarshalMeta env d); try (split; assumption).
    destruct (connectedOnce_Do_fields st) as [Hi' Hr'].
    split; cbn; [rewrite Hi' | rewrite Hr']; assumption. }
  destruct (String.eqb k "complete").
  { destruct (isEmpty (APIKey opts) && negb (Raw opts)); cbn;
      unfold onComplete; destruct (Raw opts); split; assumption. }
  destruct (String.eqb k "error").
  { destruct (isEmpty (APIKey opts) && negb (Raw opts)); cbn;
      unfold onError; destruct (Raw opts); split; assumption. }
  assert (Hp : forall payload st',
    index st' = index st -> results st' = results st ->
    indexed opts (log ++ [payload])
      (onPayload env opts outFile secret payload st')).
  { intros payload st' Hi' Hr'.
    destruct (onPayload_fields env opts outFile secret payload st')
      as [Hpi Hpr].
    unfold indexed. rewrite Hpi, Hpr, Hi', Hr', Hi, Hr.
    rewrite length_app, Nat.add_comm. cbn [List.length Nat.add].
    rewrite wrap64_succ.
    replace (Z.of_nat (List.length log) + 1)
      with (Z.of_nat (S (List.length log))) by lia.
    split; [reflexivity|].
    destruct (isEmpty (URL opts)); [reflexivity|].
    rewrite seq_S, map_app. reflexivity. }
  destruct (isEmpty (APIKey opts) && negb (Raw opts)); cbn;
    destruct (json_UnmarshalPayload env d) as [payload|];
    try (split; assumption).
  - destruct (connectedOnce_Do_fields st) as [Hi' Hr']. apply Hp; assumption.
  - apply Hp; reflexivity.
Qed.

(** C3. Every call of the payload callback increments the counter once,
    before any sink is driven. So, for [ConnectStream] run with the
    callbacks of [Run] from counters at zero: when it has decoded [N]
    records, the counter is [N] and, the HTTP sink being active, the
    outcomes recorded carry the indices 1, 2, ..., [N] in that order, one
    per record, in arrival order. ([N] is below 2^63, as the length of a Go
    slice is.) *)
Theorem delivery_indices_contiguous (env : Env) (ctx : Context)
    (src : StreamSource) (opts : CliOptions) (outFile : bool)
    (streamURL secret : string) (tick : nat) (st0 : RunState) :
  let N :=
    List.length (decodedRecords env ctx src streamURL secret tick) in
  let st :=
    snd (fst (ConnectStream env ctx src streamURL secret
                (runCallbacks env opts outFile secret) tick st0)) in
  index st0 = 0 -> results st0 = [] ->
  Z.of_nat N < 2 ^ 63 ->
  (forall payload s,
     index (onPayload env opts outFile secret payload s)
     = wrap64 (index s + 1)) /\
  index st = Z.of_nat N /\
  (isEmpty (URL opts) = false ->
   map Index (results st) = map Z.of_nat (seq 1 N) /\
   List.length (results st) = N).
Proof.
  cbv zeta. intros Hi0 Hr0 HN.
  split; [intros payload s; apply onPayload_fields|].
  destruct (ConnectStream_sim env ctx src streamURL secret recordPayloads
              (runCallbacks env opts outFile secret) (indexed opts) tick
              [] st0) as (_ & _ & [Hi Hr]).
  { intros k d a b. apply runCallbacks_step. }
  { split; [rewrite Hi0; reflexivity|].
    rewrite Hr0. destruct (isEmpty (URL opts)); reflexivity. }
  fold (decodedRecords env ctx src streamURL secret tick) in Hi, Hr.
  split.
  - rewrite Hi. apply wrap64_small. lia.
  - intros Hurl. rewrite Hurl in Hr.
    assert (Hm : map Index (results (snd (fst (ConnectStream env ctx src
                   streamURL secret (runCallbacks env opts outFile secret)
                   tick st0))))
                 = map Z.of_nat
                     (seq 1 (List.length (decodedRecords env ctx src
                                            streamURL secret tick)))).
    { rewrite Hr. apply map_ext_in. intros k Hk. apply in_seq in Hk.
      apply wrap64_small. lia. }
    split; [exact Hm|].
    apply (f_equal (@List.length Z)) in Hm.
    rewrite !length_map, length_seq in Hm. exact Hm.
Qed.

Lemma delivery_indices_contiguous_witness :
  let src :=
    mkStreamSource
      (Response 200 ("data: {e1}" ++ LF ++ LF ++ "data: {not json" ++ LF
                     ++ "data: {e2}" ++ LF ++ "data: {e3}" ++ LF))
      None true in
  let opts := exampleOpts "http://localhost:3000/hook" EmptyString in
  let N :=
    List.length (decodedRecords exampleEnv noCancel src "stream" "s3cr3t" O)
  in
  let st :=
    snd (fst (ConnectStream exampleEnv noCancel src "stream" "s3cr3t"
                (runCallbacks exampleEnv opts false "s3cr3t") O
                initialState)) in
  N = 3%nat /\ index st = Z.of_nat N /\
  map Index (results st) = map Z.of_nat (seq 1 N).
Proof.
  cbv zeta. split; [vm_compute; reflexivity|].
  destruct (delivery_indices_contiguous exampleEnv noCancel
    (mkStreamSource
       (Response 200 ("data: {e1}" ++ LF ++ LF ++ "data: {not json" ++ LF
                      ++ "data: {e2}" ++ LF ++ "data: {e3}" ++ LF))
       None true)
    (exampleOpts "http://localhost:3000/hook" EmptyString) false
    "stream" "s3cr3t" O initialState eq_refl eq_refl)
    as (_ & Hi & Hr).
  - vm_compute. reflexivity.
  - split; [exact Hi|]. exact (proj1 (Hr eq_refl)).
Defined.

Example delivery_indices_example :
  let src :=
    mkStreamSource
      (Response 200 ("data: {e1}" ++ LF ++ LF ++ "data: {not json" ++ LF
                     ++ "data: {e2}" ++ LF ++ "data: {e3}" ++ LF))
      None true in
  let opts := exampleOpts "http://localhost:3000/hook" EmptyString in
  map Index
    (results
       (snd (fst (ConnectStream exampleEnv noCancel src "stream" "s3cr3t"
                    (runCallbacks exampleEnv opts false "s3cr3t") O
                    initialState))))
  = [1; 2; 3].
Proof. vm_compute. reflexivity. Qed.

(** * Further properties *)

(** ** The signature, from the sender to the receiver *)

Lemma substring_all (s : string) : substring 0 (String.length s) s = s.
Proof. induction s as [|c s IH]; [reflexivity|]. cbn. rewrite IH. reflexivity. Qed.

Lemma HasPrefix_app (p r : string) : HasPrefix (p ++ r) p = true.
Proof.
  unfold HasPrefix. induction p as [|a p IH]; [destruct r; reflexivity|].
  cbn. destruct (ascii_dec a a) as [_|Hne]; [exact IH | contradiction].
Qed.

Lemma substring_after_sha256 (r : string) :
  substring 7 (String.length ("sha256=" ++ r) - 7) ("sha256=" ++ r) = r.
Proof. cbn. rewrite Nat.sub_0_r. apply substring_all. Qed.

Lemma verifySignature_accepts (body secret : string) :
  verifySignature body ("sha256=" ++ SignPayload body secret) secret = true.
Proof.
  unfold verifySignature, hmac_Equal.
  change (hex_EncodeToString
            (hmac_sha256 (bytes_of_string secret) (bytes_of_string body)))
    with (SignPayload body secret).
  generalize (SignPayload body secret); intros sig.
  rewrite HasPrefix_app. cbn [negb]. cbv zeta.
  rewrite substring_after_sha256. apply String.eqb_refl.
Qed.

(** X1. The receiver accepts a signature header for a body and a secret
    exactly when the header is [sha256=] followed by what [SignPayload]
    computes for that body and secret; in particular it accepts the header
    the sender builds, and rejects a header without the [sha256=] prefix. *)
Theorem verifySignature_iff_SignPayload (body header secret : string) :
  verifySignature body header secret = true <->
  header = "sha256=" ++ SignPayload body secret.
Proof.
  unfold verifySignature, hmac_Equal.
  change (hex_EncodeToString
            (hmac_sha256 (bytes_of_string secret) (bytes_of_string body)))
    with (SignPayload body secret).
  generalize (SignPayload body secret); intros sig. split.
  - destruct (HasPrefix header "sha256=") eqn:Hp; cbn [negb]; [|discriminate].
    destruct (HasPrefix_split _ _ Hp) as [r ->]. cbv zeta.
    rewrite substring_after_sha256. intros H. apply String.eqb_eq in H. subst r.
    reflexivity.
  - intros ->.
    rewrite HasPrefix_app. cbn [negb]. cbv zeta.
    rewrite substring_after_sha256. apply String.eqb_refl.
Qed.

Example verifySignature_examples :
  verifySignature "{}" ("sha256=" ++ SignPayload "{}" "abc123") "abc123"
  = true /\
  verifySignature "{}" ("sha256=" ++ SignPayload "{}" "abc123") "other"
  = false /\
  verifySignature "{}" (SignPayload "{}" "abc123") "abc123" = false /\
  verifySignature "{}" EmptyString "abc123" = false.
Proof. vm_compute. repeat split. Qed.

Lemma delivery_headers (eventID timestamp signature : string) :
  Header_Set "X-CertWatch-Signature" signature
    (Header_Set "X-CertWatch-Timestamp" timestamp
       (Header_Set "X-CertWatch-Event-Id" eventID
          (Header_Set "User-Agent" "CertWatch-Webhook/1.0"
             (Header_Set "Content-Type" "application/json" []))))
  = [ ("Content-Type", "application/json");
      ("User-Agent", "CertWatch-Webhook/1.0");
      ("X-Certwatch-Event-Id", eventID);
      ("X-Certwatch-Timestamp", timestamp);
      ("X-Certwatch-Signature", signature) ].
Proof. vm_compute. reflexivity. Qed.

Lemma wire_app (n1 n2 : Net) :
  wire (n1 ++ n2)%list = (wire n1 ++ wire n2)%list.
Proof. unfold wire. apply flat_map_app. Qed.

(** What [DeliverPayload] does to the log of the client. *)
Lemma DeliverPayload_net (env : Env) (payload : WebhookPayload)
    (targetURL secret : string) (idx : Z) (net : Net) :
  snd (DeliverPayload env payload targetURL secret idx net)
  = match json_Marshal env payload, http_NewRequest env "POST" targetURL with
    | inl body, None =>
        (net ++ [mkExchange (deliveryRequest payload targetURL secret body)
                   (http_Followups env (List.length net)
                      (deliveryRequest payload targetURL secret body))])%list
    | _, _ => net
    end.
Proof.
  unfold DeliverPayload, client_Do, deliveryRequest.
  destruct (json_Marshal env payload) as [body|err]; [|reflexivity].
  generalize (SignPayload body secret); intros sig.
  destruct (http_NewRequest env "POST" targetURL); [reflexivity|].
  cbv zeta. rewrite delivery_headers.
  match goal with |- context [http_Do env ?n ?q] =>
    destruct (http_Do env n q) as [[err|code rbody] elapsed] end;
    reflexivity.
Qed.

(** X2. [DeliverPayload] calls the HTTP client exactly when the payload
    was marshalled and the request could be built, and then once. The
    request it hands over is a POST to the target whose body is the
    marshalled payload, with the event identifier and timestamp of the
    payload in its headers and a signature header that the receiver
    verifies under the same secret. On the wire that request comes first
    and is followed only by the requests of the redirections the client
    follows on its own. *)
Theorem DeliverPayload_request (env : Env) (payload : WebhookPayload)
    (targetURL secret : string) (index : Z) (net : Net) :
  let net' := snd (DeliverPayload env payload targetURL secret index net) in
  match json_Marshal env payload, http_NewRequest env "POST" targetURL with
  | inl body, None =>
      let req := deliveryRequest payload targetURL secret body in
      handed net' = (handed net ++ [req])%list /\
      wire net'
      = (wire net ++ req :: http_Followups env (List.length net) req)%list /\
      Header_Get "X-CertWatch-Event-Id" (req_headers req) = EventID payload /\
      Header_Get "X-CertWatch-Timestamp" (req_headers req)
      = Timestamp payload /\
      verifySignature (req_body req)
        (Header_Get "X-CertWatch-Signature" (req_headers req)) secret = true
  | _, _ => net' = net
  end.
Proof.
  cbv zeta. rewrite DeliverPayload_net.
  destruct (json_Marshal env payload) as [body|err]; [|reflexivity].
  destruct (http_NewRequest env "POST" targetURL); [reflexivity|].
  split; [|split; [|split; [|split]]].
  - unfold handed. rewrite map_app. reflexivity.
  - rewrite wire_app. cbn [wire flat_map ex_request ex_followups].
    rewrite app_nil_r. reflexivity.
  - reflexivity.
  - reflexivity.
  - pose proof (verifySignature_accepts body secret) as Hv.
    unfold deliveryRequest. cbn [req_body req_headers].
    revert Hv. generalize (SignPayload body secret); intros sig Hv.
    exact Hv.
Qed.

Lemma DeliverPayload_request_witness :
  handed (snd (DeliverPayload exampleEnv (examplePayload "e1" "example.com")
                 "http://localhost:3000/hook" "s3cr3t" 1 []))
  = [deliveryRequest (examplePayload "e1" "example.com")
       "http://localhost:3000/hook" "s3cr3t" "{e1}"].
Proof.
  exact (proj1 (DeliverPayload_request exampleEnv
                  (examplePayload "e1" "example.com")
                  "http://localhost:3000/hook" "s3cr3t" 1 [])).
Defined.

(** ** The receiver *)

(** X3. The webhook handler of the receiver answers 405 to any method but
    POST and 400 when the body cannot be read, and counts neither; it
    counts every POST it could read and answers it 200 whether the
    signature verifies or not, the verdict being in the body of the answer
    only. *)
Theorem webhookHandler_outcome (unmarshal : string -> receiverPayload)
    (now secret method : string) (body : string + string)
    (headers : list (string * string)) (count : Z) :
  let h := webhookHandler unmarshal now secret method body headers count in
  (method <> "POST" -> hd_status h = 405 /\ hd_count h = count /\
                        hd_printed h = []) /\
  (method = "POST" ->
   match body with
   | inr _ => hd_status h = 400 /\ hd_count h = count /\ hd_printed h = []
   | inl b =>
       let verified :=
         verifySignature b (Header_Get "X-CertWatch-Signature" headers)
           secret in
       hd_status h = 200 /\ hd_count h = wrap64 (count + 1) /\
       hd_body h = "{" ++ quoted "received" ++ ":true," ++ quoted "verified"
                   ++ ":" ++ fmt_bool verified ++ "}" /\
       List.length (hd_printed h) = 6%nat
   end).
Proof.
  cbv zeta. unfold webhookHandler. split.
  - intros Hm. apply String.eqb_neq in Hm. rewrite Hm. cbn [negb].
    repeat split.
  - intros ->. replace (String.eqb "POST" "POST") with true by reflexivity.
    cbn [negb]. destruct body as [b|e]; repeat split.
Qed.

Lemma webhookHandler_outcome_witness :
  let h :=
    webhookHandler (fun _ => mkReceiverPayload "" "" "" [] "") "now"
      "abc123" "GET" (inl "{}") [] 7 in
  hd_status h = 405 /\ hd_count h = 7 /\ hd_printed h = [].
Proof.
  cbv zeta.
  apply (proj1 (webhookHandler_outcome
                  (fun _ => mkReceiverPayload "" "" "" [] "") "now" "abc123"
                  "GET" (inl "{}") [] 7)).
  discriminate.
Defined.

(** What [DeliverPayload] records for the reply of the peer. *)
Lemma DeliverPayload_reply (env : Env) (payload : WebhookPayload)
    (targetURL secret body : string) (index : Z) (net : Net) :
  json_Marshal env payload = inl body ->
  http_NewRequest env "POST" targetURL = None ->
  let r := fst (DeliverPayload env payload targetURL secret index net) in
  match http_Do env (List.length net)
          (deliveryRequest payload targetURL secret body) with
  | (TransportError _, elapsed) =>
      Status r = 0 /\ Success r = false /\ LatencyMs r = elapsed
  | (Response code _, elapsed) =>
      Status r = code /\ Success r = ((200 <=? code) && (code <? 300)) /\
      LatencyMs r = elapsed /\
      (Success r = true -> Error r = EmptyString)
  end.
Proof.
  intros Hm Hr. cbv zeta. unfold DeliverPayload, client_Do, deliveryRequest.
  rewrite Hm, Hr. generalize (SignPayload body secret); intros sig.
  cbv zeta. rewrite delivery_headers.
  match goal with |- context [http_Do env ?n ?q] =>
    destruct (http_Do env n q) as [[err|code rbody] elapsed] end;
    cbn [fst Status Success LatencyMs Error].
  - repeat split.
  - repeat split. intros ->. reflexivity.
Qed.

(** X4. A delivery to the example receiver reaches the handler of the path
    under which the server sees the target. At [/webhook] it is recorded
    as a success with status 200 as soon as the payload is marshalled and
    the request built, whatever secret the receiver checks against, and
    the one request is all that goes on the wire; when the receiver holds
    the secret of the sender, the answer says the signature verified. At a
    path without handler the receiver counts nothing and the delivery is
    recorded with the status the multiplexer answers, a failure unless
    that status is a 2xx. *)
Theorem delivery_to_receiver (env : Env)
    (unmarshal : string -> receiverPayload) (now rsecret : string)
    (sv : Service) (payload : WebhookPayload)
    (targetURL secret body : string) (index : Z) (net : Net) :
  json_Marshal env payload = inl body ->
  http_NewRequest env "POST" targetURL = None ->
  let peer := receiverPeer unmarshal now rsecret sv in
  let env' := withPeer env peer (receiverFollowups sv) in
  let req := deliveryRequest payload targetURL secret body in
  let r := fst (DeliverPayload env' payload targetURL secret index net) in
  let net' := snd (DeliverPayload env' payload targetURL secret index net) in
  let answer := fst (peer (List.length net) req) in
  (sv_path sv targetURL = "/webhook" ->
   Status r = 200 /\ Success r = true /\ Error r = EmptyString /\
   LatencyMs r = sv_elapsed sv /\
   wire net' = (wire net ++ [req])%list /\
   (rsecret = secret ->
    answer = Response 200 ("{" ++ quoted "received" ++ ":true,"
                           ++ quoted "verified" ++ ":true}"))) /\
  (sv_path sv targetURL <> "/webhook" -> sv_path sv targetURL <> "/health" ->
   forall code text, sv_other sv req = Response code text ->
   answer = Response code text /\ Status r = code /\
   (Success r = true <-> 200 <= code < 300)).
Proof.
  intros Hm Hr. cbv zeta.
  pose proof (DeliverPayload_reply
                (withPeer env (receiverPeer unmarshal now rsecret sv)
                   (receiverFollowups sv))
                payload targetURL secret body index net Hm Hr) as Hreply.
  pose proof (DeliverPayload_net
                (withPeer env (receiverPeer unmarshal now rsecret sv)
                   (receiverFollowups sv))
                payload targetURL secret index net) as Hnet.
  cbv zeta in Hreply.
  change (json_Marshal (withPeer env _ _)) with (json_Marshal env) in Hnet.
  change (http_NewRequest (withPeer env _ _)) with (http_NewRequest env)
    in Hnet.
  rewrite Hm, Hr in Hnet.
  change (http_Do (withPeer env ?p _)) with
    (receiverPeer unmarshal now rsecret sv) in Hreply.
  change (http_Followups (withPeer env _ ?f)) with (receiverFollowups sv)
    in Hnet.
  pose proof (verifySignature_accepts body secret) as Hv.
  unfold receiverPeer, receiverMux, receiverFollowups in *.
  unfold deliveryRequest in Hreply, Hnet, Hv |- *.
  cbn [req_url req_method req_body req_headers] in *.
  revert Hreply Hnet Hv. generalize (SignPayload body secret).
  intros sig Hreply Hnet Hv. split.
  - intros Hp. rewrite Hp in *.
    replace (String.eqb "/webhook" "/health") with false in *
      by reflexivity.
    replace (String.eqb "/webhook" "/webhook") with true in *
      by reflexivity.
    cbn [orb] in Hnet.
    unfold webhookHandler in *.
    replace (String.eqb "POST" "POST") with true in * by reflexivity.
    cbn [negb hd_status hd_body fst snd] in *.
    destruct Hreply as (Hs & Hok & Hl & He).
    rewrite Hs, Hok, Hl, Hnet.
    split; [reflexivity|]. split; [reflexivity|].
    split; [apply He; rewrite Hok; reflexivity|].
    split; [reflexivity|]. split.
    + rewrite wire_app. cbn [wire flat_map ex_request ex_followups app].
      reflexivity.
    + intros ->.
      replace (Header_Get "X-CertWatch-Signature" _) with ("sha256=" ++ sig)
        by reflexivity.
      rewrite Hv. reflexivity.
  - intros Hw Hh code text Hother.
    apply String.eqb_neq in Hw, Hh. rewrite Hw, Hh in *.
    rewrite Hother in *. cbn [fst] in *.
    destruct Hreply as (Hs & Hok & _).
    split; [reflexivity|]. split; [exact Hs|].
    rewrite Hok, andb_true_iff, Z.leb_le, Z.ltb_lt. tauto.
Qed.

Lemma delivery_to_receiver_witness :
  let peer :=
    receiverPeer (fun _ => mkReceiverPayload "" "" "" [] "") "now"
      "s3cr3t" exampleService in
  let env := withPeer exampleEnv peer (receiverFollowups exampleService) in
  let deliver url :=
    fst (DeliverPayload env (examplePayload "e1" "example.com") url
           "s3cr3t" 1 []) in
  (Status (deliver "http://localhost:3000/webhook") = 200 /\
   Success (deliver "http://localhost:3000/webhook") = true) /\
  (Status (deliver "http://localhost:3000/hook") = 404 /\
   Success (deliver "http://localhost:3000/hook") = false).
Proof.
  cbv zeta. split.
  - destruct (proj1 (delivery_to_receiver exampleEnv
                (fun _ => mkReceiverPayload "" "" "" [] "") "now" "s3cr3t"
                exampleService (examplePayload "e1" "example.com")
                "http://localhost:3000/webhook" "s3cr3t" "{e1}" 1 []
                eq_refl eq_refl) eq_refl) as (H1 & H2 & _).
    split; [exact H1 | exact H2].
  - destruct (proj2 (delivery_to_receiver exampleEnv
                (fun _ => mkReceiverPayload "" "" "" [] "") "now" "s3cr3t"
                exampleService (examplePayload "e1" "example.com")
                "http://localhost:3000/hook" "s3cr3t" "{e1}" 1 []
                eq_refl eq_refl)
              ltac:(discriminate) ltac:(discriminate) 404
              "404 page not found" eq_refl) as (_ & H1 & H2).
    split; [exact H1|].
    destruct (Success _); [|reflexivity].
    exfalso. destruct (proj1 H2 eq_refl). lia.
Defined.

(** ** The stream: opening, cancellation, framing *)

Lemma scanLoop_cancelled_iff {St : Type} (ctx : Context)
    (f : string -> string -> St -> St) (lines : list string) (tick : nat)
    (ev : string) (st : St) :
  loopCancelled (scanLoop ctx f lines tick ev st) = true <->
  lines <> [] /\ ctx_Done ctx (tick + List.length lines - 1) = true.
Proof.
  revert tick ev st. induction lines as [|l lines IH]; intros tick ev st.
  - cbn. split; [discriminate | intros [H _]; contradiction].
  - cbn [scanLoop]. destruct (ctx_Done ctx tick) eqn:Hd.
    + cbn. split; [|reflexivity]. intros _. split; [discriminate|].
      clear IH. induction (List.length lines) as [|n IHn].
      * replace (tick + 1 - 1)%nat with tick by lia. exact Hd.
      * replace (tick + S (S n) - 1)%nat with (S (tick + S n - 1)) by lia.
        apply ctx_Done_mono. exact IHn.
    + destruct (handleLine f l ev st) as [ev' st']. rewrite IH.
      cbn [List.length].
      replace (tick + S (List.length lines) - 1)%nat
        with (tick + List.length lines)%nat by lia.
      destruct lines as [|l2 lines].
      * replace (tick + List.length (@nil string))%nat with tick
          by (cbn; lia).
        rewrite Hd.
        split; [intros [H _]; contradiction | intros [_ H]; discriminate].
      * replace (S tick + List.length (l2 :: lines) - 1)%nat
          with (tick + List.length (l2 :: lines))%nat by (cbn; lia).
        split; intros [_ H]; (split; [discriminate | exact H]).
Qed.

(** X5. [ConnectStream] returns nil exactly when the request could be
    built, the stream answered 200, the body was scanned to its end with
    neither a read error nor a line too long for the buffer of the scanner, and no line was met
    with the context cancelled. When the stream is not opened (the request
    cannot be built, the connection fails, or the status is not 200) it
    returns an error without invoking any callback and without looking at
    the context. *)
Theorem ConnectStream_nil_iff (St : Type) (env : Env) (ctx : Context)
    (src : StreamSource) (streamURL secret : string)
    (callbacks : StreamCallbacks St) (tick : nat) (st : St) :
  let r := ConnectStream env ctx src streamURL secret callbacks tick st in
  (fst (fst r) = None <->
   http_NewRequest env "GET" streamURL = None /\
   exists body,
     ss_reply src = Response 200 body /\
     snd (scanBody src body) = None /\
     let tokens := fst (scanBody src body) in
     (tokens = [] \/
      ctx_Done ctx (tick + List.length tokens - 1) = false)) /\
  ((http_NewRequest env "GET" streamURL <> None \/
    forall body, ss_reply src <> Response 200 body) ->
   fst (fst r) <> None /\ snd (fst r) = st /\ snd r = tick).
Proof.
  cbv zeta. unfold ConnectStream.
  destruct (http_NewRequest env "GET" streamURL) as [e|].
  { cbn [fst snd]. split.
    - split; [discriminate | intros [H _]; discriminate].
    - intros _. repeat split. discriminate. }
  destruct (ss_reply src) as [e|code body].
  { cbn [fst snd]. split.
    - split; [discriminate | intros [_ (b & H & _)]; discriminate].
    - intros _. repeat split. discriminate. }
  destruct (code =? 200) eqn:Hc; cbn [negb].
  2:{ apply Z.eqb_neq in Hc. cbn [fst snd]. split.
      - split; [discriminate|].
        intros [_ (b & H & _)]. injection H as -> _. contradiction.
      - intros _. repeat split. discriminate. }
  apply Z.eqb_eq in Hc. subst code.
  destruct (scanBody src body)
    as [tokens scanErr] eqn:Hscan.
  pose proof (scanLoop_cancelled_iff ctx
    (fun eventType data => dispatchEvent env eventType data callbacks)
    tokens tick EmptyString st) as Hcan.
  destruct (scanLoop ctx _ tokens tick EmptyString st)
    as [[[c ev'] st'] t'].
  unfold loopCancelled in Hcan. cbn [fst snd] in Hcan.
  split.
  2:{ intros [H | H]; [contradiction | exfalso; exact (H body eq_refl)]. }
  destruct c.
  - cbn [fst snd]. split; [discriminate|].
    intros [_ (b & H & _ & Hok)]. injection H as <-.
    rewrite Hscan in Hok. cbn [fst] in Hok.
    destruct (proj1 Hcan eq_refl) as [Hne Hd].
    destruct Hok as [Hnil | Hnd]; [contradiction | congruence].
  - assert (Hnc : tokens = [] \/
                  ctx_Done ctx (tick + List.length tokens - 1) = false).
    { destruct tokens as [|t ts]; [left; reflexivity|]. right.
      destruct (ctx_Done ctx (tick + List.length (t :: ts) - 1)) eqn:Hd;
        [|reflexivity].
      assert (false = true)
        by (apply Hcan; split; [discriminate|reflexivity]).
      discriminate. }
    destruct scanErr as [e|].
    + destruct (ctx_Done ctx t'); cbn [fst snd];
        (split; [discriminate|]);
        intros [_ (b & H & He & _)]; injection H as <-;
        rewrite Hscan in He; discriminate.
    + cbn [fst snd]. split; [|reflexivity]. intros _.
      split; [reflexivity|]. exists body. rewrite Hscan. cbn [fst snd].
      repeat split. exact Hnc.
Qed.

Lemma ConnectStream_nil_iff_witness :
  let src := mkStreamSource (Response 503 EmptyString) None true in
  let r :=
    ConnectStream exampleEnv noCancel src "stream" "s3cr3t" recordPayloads
      O [] in
  fst (fst r) <> None /\ snd (fst r) = [] /\ snd r = O.
Proof.
  cbv zeta.
  apply (proj2 (ConnectStream_nil_iff _ exampleEnv noCancel
                  (mkStreamSource (Response 503 EmptyString) None true)
                  "stream" "s3cr3t" recordPayloads O [])).
  right. intros body H. discriminate H.
Defined.

(** X6. The lines are handled in order up to the first observation that
    finds the context cancelled, and no line after it is handled: with a
    context cancelled at observation [c], the loop started at observation
    [tick] leaves the state that the first [c - tick] lines give, and is
    left through cancellation exactly when a line remains at that
    moment. *)
Theorem scanLoop_until_cancelled (St : Type) (ctx : Context)
    (f : string -> string -> St -> St) (lines : list string) (tick c : nat)
    (ev : string) (st : St) :
  cancelTick ctx = Some c ->
  let r := scanLoop ctx f lines tick ev st in
  let r' := scanLoop noCancel f (firstn (c - tick) lines) tick ev st in
  loopState r = loopState r' /\ loopEvent r = loopEvent r' /\
  loopCancelled r = (c - tick <? List.length lines)%nat.
Proof.
  intros Hc. cbv zeta. revert tick ev st.
  induction lines as [|l lines IH]; intros tick ev st.
  - rewrite firstn_nil. repeat split.
  - cbn [scanLoop].
    assert (Hdone : ctx_Done ctx tick = (c <=? tick)%nat)
      by (unfold ctx_Done; rewrite Hc; reflexivity).
    rewrite Hdone.
    destruct (c <=? tick)%nat eqn:Hle.
    + apply Nat.leb_le in Hle.
      replace (c - tick)%nat with O by lia. repeat split.
    + apply Nat.leb_gt in Hle.
      replace (c - tick)%nat with (S (c - S tick)) by lia.
      cbn [firstn scanLoop List.length].
      replace (ctx_Done noCancel tick) with false by reflexivity.
      destruct (handleLine f l ev st) as [ev' st'].
      destruct (IH (S tick) ev' st') as (H1 & H2 & H3).
      repeat split; assumption.
Qed.

Lemma scanLoop_until_cancelled_witness :
  loopState (scanLoop (mkContext (Some 2%nat)) recordPair
               ["data: a"; "data: b"; "data: c"; "data: d"] O "k" [])
  = loopState (scanLoop noCancel recordPair ["data: a"; "data: b"] O "k" []).
Proof.
  exact (proj1 (scanLoop_until_cancelled _ (mkContext (Some 2%nat))
                  recordPair ["data: a"; "data: b"; "data: c"; "data: d"]
                  O 2 "k" [] eq_refl)).
Defined.

(** ** The stream: what is dispatched *)

Lemma handleLine_not_data {St : Type} (f : string -> string -> St -> St)
    (line ev : string) (st : St) :
  isDataLine line = false -> snd (handleLine f line ev st) = st.
Proof.
  unfold isDataLine, handleLine. intros ->.
  destruct (HasPrefix line ":"), (String.eqb line EmptyString),
    (HasPrefix line "event:"); reflexivity.
Qed.

Lemma dispatchedFrom_cons (ev l : string) (lines : list string) :
  dispatchedFrom ev (l :: lines)
  = ((if isDataLine l then [(ev, trimData l)] else [])
     ++ dispatchedFrom (fst (handleLine recordPair l ev [])) lines)%list.
Proof.
  unfold dispatchedFrom at 1. cbn [scanLoop].
  replace (ctx_Done noCancel O) with false by reflexivity.
  destruct (isDataLine l) eqn:Hd.
  - rewrite (handleLine_data recordPair l ev [] Hd). cbn [fst].
    rewrite scanLoop_record. reflexivity.
  - pose proof (handleLine_not_data recordPair l ev [] Hd) as Hs.
    destruct (handleLine recordPair l ev []) as [ev' log].
    cbn [fst snd] in *. subst log. rewrite scanLoop_record. reflexivity.
Qed.

(** X7. The parser dispatches exactly one pair per [data:] line, in the
    order of the lines, whose data is the trimmed remainder of the line;
    no other line dispatches anything. *)
Theorem one_dispatch_per_data_line (ev : string) (lines : list string) :
  map snd (dispatchedFrom ev lines)
  = map trimData (filter isDataLine lines) /\
  List.length (dispatchedFrom ev lines)
  = List.length (filter isDataLine lines).
Proof.
  assert (H : map snd (dispatchedFrom ev lines)
              = map trimData (filter isDataLine lines)).
  { revert ev. induction lines as [|l lines IH]; intros ev; [reflexivity|].
    rewrite dispatchedFrom_cons, map_app, IH. cbn [filter].
    destruct (isDataLine l); reflexivity. }
  split; [exact H|].
  apply (f_equal (@List.length string)) in H.
  rewrite !length_map in H. exact H.
Qed.

Lemma TrimPrefix_app (p r : string) : TrimPrefix (p ++ r) p = r.
Proof.
  unfold TrimPrefix. rewrite HasPrefix_app.
  induction p as [|a p IH].
  - cbn. rewrite Nat.sub_0_r. apply substring_all.
  - cbn [String.append String.length substring Nat.sub]. exact IH.
Qed.

(** X8. An [event:] line sets the event type for every [data:] line that
    follows it until a blank line or another [event:] line: the data lines
    under one event declaration are each dispatched, independently, under
    the trimmed name of that event. A data line does not clear the pending
    event type. *)
Theorem data_lines_share_event_kind (ev0 kind : string)
    (datas : list string) :
  Forall (fun l => isDataLine l = true) datas ->
  dispatchedFrom ev0 (("event:" ++ kind) :: datas)
  = map (fun l => (TrimSpace kind, trimData l)) datas /\
  pendingAfter ev0 (("event:" ++ kind) :: datas) = TrimSpace kind.
Proof.
  intros Hd.
  assert (Hev : handleLine recordPair ("event:" ++ kind) ev0 []
                = (TrimSpace kind, [])).
  { unfold handleLine.
    replace (HasPrefix ("event:" ++ kind) ":") with false by reflexivity.
    replace (String.eqb ("event:" ++ kind) EmptyString) with false
      by reflexivity.
    rewrite HasPrefix_app, TrimPrefix_app. reflexivity. }
  rewrite dispatchedFrom_cons, pendingAfter_cons, Hev. cbn [fst].
  replace (isDataLine ("event:" ++ kind)) with false by reflexivity.
  cbn [app]. generalize (TrimSpace kind) as k. intros k.
  induction Hd as [|l datas Hl Hd IH]; [split; reflexivity|].
  rewrite dispatchedFrom_cons, pendingAfter_cons, Hl.
  rewrite (handleLine_data recordPair l k [] Hl). cbn [fst map app].
  destruct IH as [-> ->]. split; reflexivity.
Qed.

Lemma data_lines_share_event_kind_witness :
  dispatchedFrom EmptyString ["event: meta "; "data: a"; "data:  b"]
  = map (fun l => (TrimSpace " meta ", trimData l)) ["data: a"; "data:  b"].
Proof.
  refine (proj1 (data_lines_share_event_kind EmptyString " meta "
                   ["data: a"; "data:  b"] _)).
  repeat constructor.
Defined.

Example data_lines_share_event_kind_example :
  dispatched ["event: meta "; "data: a"; "data:  b"; "data:c"]
  = [("meta", "a"); ("meta", "b"); ("meta", "c")].
Proof. vm_compute. reflexivity. Qed.

Lemma scanLoop_noCancel_tick {St : Type} (f : string -> string -> St -> St)
    (lines : list string) (tick : nat) (ev : string) (st : St) :
  loopTick (scanLoop noCancel f lines tick ev st)
  = (tick + List.length lines)%nat.
Proof.
  revert tick ev st. induction lines as [|l lines IH]; intros tick ev st.
  - cbn. lia.
  - cbn [scanLoop]. replace (ctx_Done noCancel tick) with false by reflexivity.
    destruct (handleLine f l ev st) as [ev' st']. rewrite IH. cbn. lia.
Qed.

Lemma scan_tokens_app (l1 rest : list string) (atEnd : bool) (e : error) :
  Forall (fun l => len l < maxTokenSize) l1 ->
  scan_tokens (l1 ++ rest) atEnd e
  = ((map dropCR l1 ++ fst (scan_tokens rest atEnd e))%list,
     snd (scan_tokens rest atEnd e)).
Proof.
  induction 1 as [|l l1 Hl Hl1 IH].
  - cbn [app map]. destruct (scan_tokens rest atEnd e); reflexivity.
  - cbn [app map scan_tokens]. rewrite IH.
    assert (Hroom : forall room, maxTokenSize <= room ->
               (room <=? len l) = false)
      by (intros room Hroom; apply Z.leb_gt; lia).
    destruct (l1 ++ rest)%list; [destruct atEnd|];
      rewrite Hroom by lia; reflexivity.
Qed.

Lemma scan_tokens_long (x : string) (l2 : list string) (atEnd : bool)
    (e : error) :
  maxTokenSize <= len x ->
  l2 <> [] \/ atEnd = false \/ maxTokenSize < len x ->
  scan_tokens (x :: l2) atEnd e = ([], Some ErrTooLong).
Proof.
  intros Hx Hwhy. cbn [scan_tokens].
  destruct l2 as [|y l2].
  - destruct Hwhy as [H | [-> | H]]; [contradiction | |].
    + replace (maxTokenSize <=? len x) with true
        by (symmetry; apply Z.leb_le; exact Hx).
      reflexivity.
    + destruct atEnd.
      * replace (maxTokenSize + 1 <=? len x) with true
          by (symmetry; apply Z.leb_le; lia).
        reflexivity.
      * replace (maxTokenSize <=? len x) with true
          by (symmetry; apply Z.leb_le; exact Hx).
        reflexivity.
  - replace (maxTokenSize <=? len x) with true
      by (symmetry; apply Z.leb_le; exact Hx).
    reflexivity.
Qed.

(** X9. Lines shorter than 1 MiB are all delivered to the loop, each
    without its end of line. A line of 1 MiB or more stops the scan: the
    lines before it are handled, the line itself and everything after it
    are not, and (the context not being cancelled) [ConnectStream] returns
    the read error "token too long". The one exception is a last line
    without newline of exactly 1 MiB, which fills the buffer: it is
    delivered when the end of the body arrives with its last bytes, and
    refused when the end arrives at the next read. *)
Theorem line_length_limit (l1 : list string) (atEnd : bool) (e : error) :
  Forall (fun l => len l < maxTokenSize) l1 ->
  scan_tokens l1 atEnd e = (map dropCR l1, e) /\
  (forall x l2,
     maxTokenSize <= len x ->
     l2 <> [] \/ atEnd = false \/ maxTokenSize < len x ->
     scan_tokens (l1 ++ x :: l2) atEnd e = (map dropCR l1, Some ErrTooLong)) /\
  (forall x,
     len x = maxTokenSize ->
     scan_tokens (l1 ++ [x]) true e = (map dropCR (l1 ++ [x]), e)) /\
  (forall (St : Type) (env : Env) (src : StreamSource)
          (streamURL secret body x : string) (l2 : list string)
          (callbacks : StreamCallbacks St) (tick : nat) (st : St),
     http_NewRequest env "GET" streamURL = None ->
     ss_reply src = Response 200 body ->
     ss_readErr src = e ->
     endsInLine body && ss_endWithData src = atEnd ->
     split_lines body [] = (l1 ++ x :: l2)%list ->
     maxTokenSize <= len x ->
     l2 <> [] \/ atEnd = false \/ maxTokenSize < len x ->
     ConnectStream env noCancel src streamURL secret callbacks tick st
     = (Some ("stream read error: " ++ ErrTooLong),
        loopState (scanLoop noCancel (dispatchWith env callbacks)
                     (map dropCR l1) tick EmptyString st),
        S (tick + List.length l1))).
Proof.
  intros Hshort.
  assert (Hlong : forall x l2, maxTokenSize <= len x ->
            l2 <> [] \/ atEnd = false \/ maxTokenSize < len x ->
            scan_tokens (l1 ++ x :: l2) atEnd e
            = (map dropCR l1, Some ErrTooLong)).
  { intros x l2 Hx Hwhy. rewrite scan_tokens_app by exact Hshort.
    rewrite (scan_tokens_long x l2 atEnd e Hx Hwhy).
    cbn [fst snd]. rewrite app_nil_r. reflexivity. }
  split; [|split; [exact Hlong|split]].
  - rewrite <- (app_nil_r l1) at 1. rewrite scan_tokens_app by exact Hshort.
    cbn. rewrite app_nil_r. reflexivity.
  - intros x Hx. rewrite scan_tokens_app by exact Hshort.
    cbn [scan_tokens].
    replace (maxTokenSize + 1 <=? len x) with false
      by (symmetry; apply Z.leb_gt; lia).
    cbn [fst snd]. rewrite map_app. reflexivity.
  - intros St env src streamURL secret body x l2 callbacks tick st
      Hreq Hrep He Hend Hsplit Hx Hwhy.
    unfold ConnectStream, scanBody. rewrite Hreq, Hrep. cbn [Z.eqb negb].
    replace (200 =? 200) with true by reflexivity. cbn [negb].
    rewrite He, Hend, Hsplit, (Hlong x l2 Hx Hwhy).
    fold (dispatchWith env callbacks).
    pose proof (scanLoop_noCancel (dispatchWith env callbacks)
                  (map dropCR l1) tick EmptyString st) as Hc.
    pose proof (scanLoop_noCancel_tick (dispatchWith env callbacks)
                  (map dropCR l1) tick EmptyString st) as Ht.
    destruct (scanLoop noCancel (dispatchWith env callbacks) (map dropCR l1)
                tick EmptyString st) as [[[c ev'] st'] t'].
    unfold loopCancelled, loopTick, loopState in *. cbn [fst snd] in *.
    subst c t'. rewrite length_map. reflexivity.
Qed.

Lemma line_length_limit_witness :
  scan_tokens ["data: {e1}" ++ CR; EmptyString; "data: {e2}"] true None
  = (["data: {e1}"; EmptyString; "data: {e2}"], None).
Proof.
  refine (proj1 (line_length_limit
                   ["data: {e1}" ++ CR; EmptyString; "data: {e2}"] true None
                   _)).
  repeat constructor.
Defined.

(** ** The stream: framing *)

Lemma list_ascii_app (a b : string) :
  list_ascii_of_string (a ++ b)
  = (list_ascii_of_string a ++ list_ascii_of_string b)%list.
Proof. induction a as [|c a IH]; [reflexivity|]. cbn. rewrite IH. reflexivity. Qed.

Lemma append_assoc_string (a b c : string) : (a ++ b) ++ c = a ++ b ++ c.
Proof. induction a as [|x a IH]; [reflexivity|]. cbn. rewrite IH. reflexivity. Qed.

Lemma split_lines_line (l rest : string) (cur : list ascii) :
  hasLF l = false ->
  split_lines (l ++ LF ++ rest) cur
  = string_of_list_ascii (rev cur ++ list_ascii_of_string l)
      :: split_lines rest [].
Proof.
  unfold hasLF. revert cur. induction l as [|c l IH]; intros cur H.
  - cbn. rewrite app_nil_r. reflexivity.
  - cbn [list_ascii_of_string existsb] in H.
    apply orb_false_iff in H. destruct H as [Hc Hl].
    cbn [String.append split_lines].
    replace (Ascii.eqb c "010"%char) with false
      by (rewrite Ascii.eqb_sym; symmetry; exact Hc).
    rewrite (IH (c :: cur) Hl). cbn [rev list_ascii_of_string].
    rewrite <- app_assoc. reflexivity.
Qed.

Lemma split_lines_last (l : string) (cur : list ascii) :
  hasLF l = false -> l <> EmptyString ->
  split_lines l cur
  = [string_of_list_ascii (rev cur ++ list_ascii_of_string l)].
Proof.
  unfold hasLF. revert cur. induction l as [|c l IH]; intros cur H Hne;
    [contradiction|].
  cbn [list_ascii_of_string existsb] in H.
  apply orb_false_iff in H. destruct H as [Hc Hl].
  cbn [split_lines].
  replace (Ascii.eqb c "010"%char) with false
    by (rewrite Ascii.eqb_sym; symmetry; exact Hc).
  destruct l as [|c2 l].
  - reflexivity.
  - rewrite (IH (c :: cur) Hl) by discriminate.
    cbn [rev list_ascii_of_string]. rewrite <- app_assoc. reflexivity.
Qed.

Lemma dropCR_plain (l : string) : endsWithCR l = false -> dropCR l = l.
Proof.
  unfold endsWithCR, dropCR.
  destruct (rev (list_ascii_of_string l)) as [|c r]; [reflexivity|].
  intros ->. reflexivity.
Qed.

Lemma dropCR_CR (l : string) : dropCR (l ++ CR) = l.
Proof.
  unfold dropCR. rewrite list_ascii_app, rev_app_distr. cbn.
  rewrite rev_involutive. apply string_of_list_ascii_of_string.
Qed.

Lemma hasLF_CR (l : string) : hasLF l = false -> hasLF (l ++ CR) = false.
Proof.
  unfold hasLF. rewrite list_ascii_app, existsb_app. intros ->. reflexivity.
Qed.

(** X10. Framing. A stream made of lines that hold no newline and do not
    end in a carriage return is cut back into exactly those lines, whether
    each is terminated by a newline or by a carriage return and a newline;
    a last line without terminator is delivered too when it is not
    empty. *)
Theorem ScanLines_unlines (lines : list string) :
  Forall plainLine lines ->
  ScanLines (unlines LF lines) = lines /\
  ScanLines (unlines (CR ++ LF) lines) = lines /\
  (forall last, plainLine last -> last <> EmptyString ->
     ScanLines (unlines LF lines ++ last) = (lines ++ [last])%list).
Proof.
  unfold ScanLines. intros H. split; [|split].
  - induction H as [|l lines [Hl Hc] _ IH]; [reflexivity|].
    cbn [unlines]. rewrite (split_lines_line l _ [] Hl). cbn [rev app map].
    rewrite string_of_list_ascii_of_string, IH, (dropCR_plain l Hc).
    reflexivity.
  - induction H as [|l lines [Hl Hc] _ IH]; [reflexivity|].
    cbn [unlines]. rewrite <- !append_assoc_string.
    rewrite append_assoc_string.
    rewrite (split_lines_line (l ++ CR) _ [] (hasLF_CR l Hl)).
    cbn [rev app map].
    rewrite string_of_list_ascii_of_string, IH, dropCR_CR. reflexivity.
  - intros last [Hl Hc] Hne.
    induction H as [|l lines [Hl' Hc'] _ IH].
    + cbn [unlines String.append app].
      rewrite (split_lines_last last [] Hl Hne). cbn [rev app map].
      rewrite string_of_list_ascii_of_string, (dropCR_plain last Hc).
      reflexivity.
    + cbn [unlines]. rewrite !append_assoc_string.
      rewrite (split_lines_line l _ [] Hl'). cbn [rev app map].
      rewrite string_of_list_ascii_of_string, IH, (dropCR_plain l Hc').
      reflexivity.
Qed.

Lemma ScanLines_unlines_witness :
  ScanLines (unlines (CR ++ LF) ["event: meta"; "data: {}"; EmptyString])
  = ["event: meta"; "data: {}"; EmptyString].
Proof.
  refine (proj1 (proj2 (ScanLines_unlines
                          ["event: meta"; "data: {}"; EmptyString] _))).
  repeat constructor.
Defined.

(** ** The stream: trimming *)

Lemma strip_bytes_some (e l r : list Z) :
  strip_bytes e l = Some r -> l = (e ++ r)%list.
Proof.
  revert l. induction e as [|a e IH]; intros l H.
  - cbn in H. injection H as <-. reflexivity.
  - destruct l as [|b l]; [discriminate|]. cbn [strip_bytes] in H.
    destruct (a =? b) eqn:Hab; [|discriminate].
    apply Z.eqb_eq in Hab. subst b. rewrite (IH l H). reflexivity.
Qed.

Lemma strip_bytes_app (e a b r : list Z) :
  strip_bytes e a = Some r -> strip_bytes e (a ++ b) = Some (r ++ b)%list.
Proof.
  revert a. induction e as [|x e IH]; intros a H.
  - cbn in H. injection H as <-. reflexivity.
  - destruct a as [|y a]; [discriminate|]. cbn [strip_bytes app] in *.
    destruct (x =? y); [apply IH; exact H | discriminate].
Qed.

Lemma strip_one_some (encs : list (list Z)) (l r : list Z) :
  strip_one encs l = Some r -> exists e, In e encs /\ l = (e ++ r)%list.
Proof.
  induction encs as [|e encs IH]; [discriminate|]. cbn [strip_one].
  destruct (strip_bytes e l) as [r'|] eqn:He.
  - intros H. injection H as <-. exists e. split; [left; reflexivity|].
    apply strip_bytes_some. exact He.
  - intros H. destruct (IH H) as (e' & Hin & Hl). exists e'.
    split; [right; exact Hin | exact Hl].
Qed.

Lemma strip_one_none_prefix (encs : list (list Z)) (a b : list Z) :
  strip_one encs (a ++ b) = None -> strip_one encs a = None.
Proof.
  induction encs as [|e encs IH]; [reflexivity|]. cbn [strip_one].
  destruct (strip_bytes e a) as [r|] eqn:He.
  - rewrite (strip_bytes_app e a b r He). discriminate.
  - destruct (strip_bytes e (a ++ b)); [discriminate | exact IH].
Qed.

Lemma trim_left_suffix (fuel : nat) (encs : list (list Z)) (l : list Z) :
  exists x, l = (x ++ trim_left fuel encs l)%list.
Proof.
  revert l. induction fuel as [|fuel IH]; intros l; [exists []; reflexivity|].
  cbn [trim_left]. destruct (strip_one encs l) as [r|] eqn:Hs.
  - destruct (strip_one_some _ _ _ Hs) as (e & _ & ->).
    destruct (IH r) as [x Hx]. exists (e ++ x)%list.
    rewrite <- app_assoc, <- Hx. reflexivity.
  - exists []. reflexivity.
Qed.

Lemma trim_left_done (fuel : nat) (encs : list (list Z)) (l : list Z) :
  Forall (fun e => e <> []) encs -> (List.length l <= fuel)%nat ->
  strip_one encs (trim_left fuel encs l) = None.
Proof.
  intros Hne. revert l. induction fuel as [|fuel IH]; intros l Hlen.
  - destruct l; [|cbn in Hlen; lia]. cbn [trim_left].
    clear -Hne. induction Hne as [|e encs He _ IHe]; [reflexivity|].
    cbn [strip_one]. destruct e; [contradiction|]. exact IHe.
  - cbn [trim_left]. destruct (strip_one encs l) as [r|] eqn:Hs;
      [|exact Hs].
    apply IH. destruct (strip_one_some _ _ _ Hs) as (e & Hin & ->).
    rewrite Forall_forall in Hne. specialize (Hne e Hin).
    destruct e; [contradiction|]. rewrite length_app in Hlen.
    cbn [List.length] in Hlen. lia.
Qed.

Lemma trim_left_fixed (fuel : nat) (encs : list (list Z)) (l : list Z) :
  strip_one encs l = None -> trim_left fuel encs l = l.
Proof. intros H. destruct fuel; [reflexivity|]. cbn. rewrite H. reflexivity. Qed.

Lemma bytes_of_string_isByte (s : string) : Forall isByte (bytes_of_string s).
Proof.
  unfold bytes_of_string. induction s as [|c s IH]; [constructor|].
  cbn [list_ascii_of_string map]. constructor; [|exact IH].
  unfold isByte, byte_of_ascii. pose proof (N_ascii_bounded c). lia.
Qed.

Lemma bytes_of_string_of_bytes (l : list Z) :
  Forall isByte l -> bytes_of_string (string_of_bytes l) = l.
Proof.
  unfold bytes_of_string, string_of_bytes.
  rewrite list_ascii_of_string_of_list_ascii, map_map.
  induction 1 as [|b l Hb _ IH]; [reflexivity|]. cbn [map]. rewrite IH.
  f_equal. unfold byte_of_ascii, ascii_of_byte, isByte in *.
  rewrite Z.mod_small by exact Hb. rewrite N_ascii_embedding by lia. lia.
Qed.

Lemma string_of_bytes_of_string (s : string) :
  string_of_bytes (bytes_of_string s) = s.
Proof.
  unfold bytes_of_string, string_of_bytes. rewrite map_map.
  induction s as [|c s IH]; [reflexivity|].
  cbn [list_ascii_of_string map string_of_list_ascii]. rewrite IH. f_equal.
  unfold byte_of_ascii, ascii_of_byte.
  pose proof (N_ascii_bounded c).
  rewrite Z.mod_small by lia. rewrite N2Z.id. apply ascii_N_embedding.
Qed.

Lemma space_encodings_nonempty :
  Forall (fun e : list Z => e <> []) space_encodings /\
  Forall (fun e : list Z => e <> []) (map (@rev Z) space_encodings).
Proof. split; repeat (constructor; [discriminate|]); constructor. Qed.

(** X11. What the parser dispatches is trimmed on both sides. For every
    string, [TrimSpace] returns a part of it that neither begins nor ends
    with a white-space rune (the fuel of the model always suffices), and
    trimming a second time changes nothing. *)
Theorem TrimSpace_trimmed (s : string) :
  let t := bytes_of_string (TrimSpace s) in
  strip_one space_encodings t = None /\
  strip_one (map (@rev Z) space_encodings) (rev t) = None /\
  (exists a b, bytes_of_string s = (a ++ t ++ b)%list) /\
  TrimSpace (TrimSpace s) = TrimSpace s.
Proof.
  cbv zeta. destruct space_encodings_nonempty as [Hne Hner].
  unfold TrimSpace at 1 2 3. cbv zeta.
  set (l := bytes_of_string s).
  set (l1 := trim_left (List.length l) space_encodings l).
  set (r1 := trim_left (List.length l1) (map (@rev Z) space_encodings)
               (rev l1)).
  destruct (trim_left_suffix (List.length l) space_encodings l) as [x1 Hx1].
  fold l1 in Hx1.
  destruct (trim_left_suffix (List.length l1) (map (@rev Z) space_encodings)
              (rev l1)) as [x2 Hx2].
  fold r1 in Hx2.
  assert (Hl1 : l1 = (rev r1 ++ rev x2)%list).
  { rewrite <- (rev_involutive l1), Hx2, rev_app_distr. reflexivity. }
  assert (Hbytes : Forall isByte (rev r1)).
  { pose proof (bytes_of_string_isByte s) as Hb. fold l in Hb.
    rewrite Hx1, Hl1 in Hb. apply Forall_app in Hb. destruct Hb as [_ Hb].
    apply Forall_app in Hb. tauto. }
  rewrite (bytes_of_string_of_bytes _ Hbytes).
  assert (H1 : strip_one space_encodings (rev r1) = None).
  { apply (strip_one_none_prefix _ _ (rev x2)). rewrite <- Hl1.
    apply trim_left_done; [exact Hne | reflexivity]. }
  assert (H2 : strip_one (map (@rev Z) space_encodings) r1 = None).
  { apply trim_left_done; [exact Hner | rewrite length_rev; reflexivity]. }
  split; [exact H1|]. rewrite rev_involutive. split; [exact H2|].
  split.
  - exists x1, (rev x2). rewrite Hx1 at 1. rewrite Hl1 at 1. reflexivity.
  - unfold TrimSpace. cbv zeta. fold l. fold l1. fold r1.
    rewrite (bytes_of_string_of_bytes _ Hbytes).
    rewrite (trim_left_fixed _ _ _ H1), rev_involutive.
    rewrite (trim_left_fixed _ _ _ H2). reflexivity.
Qed.

Example TrimSpace_examples :
  map TrimSpace
    [ "  meta "; String (ascii_of_nat 9) "a b" ++ CR; "   "; EmptyString;
      string_of_bytes [0xC2; 0xA0; 0x78; 0xE2; 0x80; 0x83];
      string_of_bytes [0xC2; 0x78; 0xA0] ]
  = [ "meta"; "a b"; EmptyString; EmptyString; "x";
      string_of_bytes [0xC2; 0x78; 0xA0] ].
Proof. vm_compute. reflexivity. Qed.

(** ** The orchestrator: the sinks *)

Lemma rawLines_app (a b : list Output) :
  rawLines (a ++ b) = (rawLines a ++ rawLines b)%list.
Proof. apply flat_map_app. Qed.

Lemma fileLines_app (a b : list Output) :
  fileLines (a ++ b) = (fileLines a ++ fileLines b)%list.
Proof. apply flat_map_app. Qed.


Lemma wrap64_succ_nat (n : nat) :
  wrap64 (wrap64 (Z.of_nat n) + 1) = wrap64 (Z.of_nat (n + 1)).
Proof. rewrite wrap64_succ. f_equal. lia. Qed.

(** What one call of the payload callback adds to the sinks. *)
Lemma onPayload_sinks (env : Env) (opts : CliOptions) (outFile : bool)
    (secret : string) (payload : WebhookPayload) (st : RunState) :
  let st' := onPayload env opts outFile secret payload st in
  rawLines (out st')
  = (rawLines (out st)
     ++ (if Raw opts then marshalled env [payload] else []))%list /\
  fileLines (out st')
  = (fileLines (out st)
     ++ (if outFile then marshalled env [payload] else []))%list /\
  filePayloads st'
  = (if outFile
     then match json_Marshal env payload with
          | inl _ => wrap64 (filePayloads st + 1)
          | inr _ => filePayloads st
          end
     else filePayloads st) /\
  net st'
  = (if isEmpty (URL opts) then net st
     else snd (DeliverPayload env payload (URL opts) secret
                 (wrap64 (index st + 1)) (net st))).
Proof.
  cbv zeta. unfold onPayload, marshalled. cbv zeta. cbn [flat_map].
  destruct (isEmpty (URL opts)); cbn [negb].
  - destruct (Raw opts), outFile, (json_Marshal env payload);
      cbn [andb negb emit emit_unless out filePayloads net];
      rewrite ?rawLines_app, ?fileLines_app; cbn [rawLines fileLines flat_map];
      rewrite ?app_nil_r; repeat split.
  - destruct (Raw opts), outFile, (json_Marshal env payload), (Verbose opts);
      cbn [andb negb emit emit_unless out filePayloads net index];
      match goal with |- context [DeliverPayload ?e ?p ?u ?s ?i ?n] =>
        destruct (DeliverPayload e p u s i n) as [result net'] end;
      cbn [andb negb emit emit_unless out filePayloads net index fst snd];
      rewrite ?rawLines_app, ?fileLines_app; cbn [rawLines fileLines flat_map];
      rewrite ?app_nil_r; repeat split.
Qed.

Lemma connectedOnce_Do_sinks (st : RunState) :
  rawLines (out (connectedOnce_Do st)) = rawLines (out st) /\
  fileLines (out (connectedOnce_Do st)) = fileLines (out st) /\
  filePayloads (connectedOnce_Do st) = filePayloads st /\
  net (connectedOnce_Do st) = net st /\
  index (connectedOnce_Do st) = index st.
Proof.
  unfold connectedOnce_Do. destruct (connectedOnce st); [repeat split|].
  cbn [emit out filePayloads net index].
  rewrite rawLines_app, fileLines_app. cbn. rewrite !app_nil_r.
  repeat split.
Qed.

Lemma marshalled_app (env : Env) (a b : list WebhookPayload) :
  marshalled env (a ++ b) = (marshalled env a ++ marshalled env b)%list.
Proof. apply flat_map_app. Qed.

Lemma requestsFor_app (env : Env) (u s : string)
    (a b : list WebhookPayload) :
  requestsFor env u s (a ++ b)
  = (requestsFor env u s a ++ requestsFor env u s b)%list.
Proof. apply flat_map_app. Qed.

Lemma marshalled_single (env : Env) (p : WebhookPayload) :
  marshalled env [p]
  = match json_Marshal env p with inl line => [line] | inr _ => [] end.
Proof. unfold marshalled. cbn. apply app_nil_r. Qed.

Lemma requestsFor_single (env : Env) (u s : string) (p : WebhookPayload) :
  requestsFor env u s [p]
  = match json_Marshal env p with
    | inl body => [deliveryRequest p u s body]
    | inr _ => []
    end.
Proof. unfold requestsFor. cbn. apply app_nil_r. Qed.

Lemma runCallbacks_sinks_step (env : Env) (opts : CliOptions)
    (outFile : bool) (secret : string) (k d : string)
    (log : list WebhookPayload) (st : RunState) :
  sinksAfter env opts outFile log st ->
  sinksAfter env opts outFile
    (dispatchEvent env k d recordPayloads log)
    (dispatchEvent env k d (runCallbacks env opts outFile secret) st).
Proof.
  intros (Hraw & Hfile & Hcount).
  assert (Hkeep : forall st',
    rawLines (out st') = rawLines (out st) ->
    fileLines (out st') = fileLines (out st) ->
    filePayloads st' = filePayloads st ->
    sinksAfter env opts outFile log st').
  { intros st' H1 H2 H3. unfold sinksAfter.
    rewrite H1, H2, H3. repeat split; assumption. }
  assert (Hemit : forall q o, rawLines [o] = [] -> fileLines [o] = [] ->
    sinksAfter env opts outFile log (emit_unless q o st)).
  { intros q o Hr Hf.
    apply Hkeep; destruct q; cbn [emit_unless emit out filePayloads];
      rewrite ?rawLines_app, ?fileLines_app, ?Hr, ?Hf, ?app_nil_r;
      reflexivity. }
  assert (Hp : forall payload st',
    rawLines (out st') = rawLines (out st) ->
    fileLines (out st') = fileLines (out st) ->
    filePayloads st' = filePayloads st ->
    sinksAfter env opts outFile (log ++ [payload])
      (onPayload env opts outFile secret payload st')).
  { intros payload st' H1 H2 H3.
    destruct (onPayload_sinks env opts outFile secret payload st')
      as (Pr & Pf & Pc & _).
    unfold sinksAfter.
    rewrite Pr, Pf, Pc, H1, H2, H3, Hraw, Hfile, Hcount.
    rewrite marshalled_app.
    rewrite !marshalled_single.
    repeat split.
    - destruct (Raw opts); reflexivity.
    - destruct outFile; reflexivity.
    - destruct outFile; [|reflexivity].
      destruct (json_Marshal env payload).
      + rewrite length_app. cbn [List.length]. apply wrap64_succ_nat.
      + rewrite app_nil_r. reflexivity. }
  unfold dispatchEvent, runCallbacks. cbv zeta.
  destruct (String.eqb k "meta").
  { destruct (isEmpty (APIKey opts) && negb (Raw opts)); cbn;
      destruct (json_UnmarshalMeta env d);
      try (repeat split; assumption).
    destruct (connectedOnce_Do_sinks st) as (H1 & H2 & H3 & _).
    apply Hkeep; assumption. }
  destruct (String.eqb k "complete").
  { destruct (isEmpty (APIKey opts) && negb (Raw opts)); cbn;
      apply Hemit; reflexivity. }
  destruct (String.eqb k "error").
  { destruct (isEmpty (APIKey opts) && negb (Raw opts)); cbn;
      apply Hemit; reflexivity. }
  destruct (isEmpty (APIKey opts) && negb (Raw opts)); cbn;
    destruct (json_UnmarshalPayload env d) as [payload|];
    try (repeat split; assumption).
  - destruct (connectedOnce_Do_sinks st) as (H1 & H2 & H3 & _).
    apply Hp; assumption.
  - apply Hp; reflexivity.
Qed.

Lemma ConnectStream_sinks (env : Env) (ctx : Context)
    (src : StreamSource) (opts : CliOptions) (outFile : bool)
    (streamURL secret : string) (tick : nat) (st0 : RunState) :
  rawLines (out st0) = [] -> fileLines (out st0) = [] ->
  filePayloads st0 = 0 ->
  sinksAfter env opts outFile
    (decodedRecords env ctx src streamURL secret tick)
    (snd (fst (ConnectStream env ctx src streamURL secret
                 (runCallbacks env opts outFile secret) tick st0))).
Proof.
  intros Hr0 Hf0 Hc0.
  destruct (ConnectStream_sim env ctx src streamURL secret recordPayloads
    (runCallbacks env opts outFile secret)
    (sinksAfter env opts outFile) tick [] st0)
    as (_ & _ & H).
  - intros k d a b. apply runCallbacks_sinks_step.
  - unfold sinksAfter. rewrite Hr0, Hf0, Hc0. cbn.
    repeat split.
    + destruct (Raw opts); reflexivity.
    + destruct outFile; reflexivity.
    + destruct outFile; reflexivity.
  - exact H.
Qed.

Lemma marshalled_length (env : Env) (log : list WebhookPayload) :
  (List.length (marshalled env log) <= List.length log)%nat.
Proof.
  induction log as [|p log IH]; [reflexivity|].
  unfold marshalled in *. cbn [flat_map]. rewrite length_app.
  destruct (json_Marshal env p); cbn [List.length]; lia.
Qed.

(** X12. Fan-out in arrival order. When [ConnectStream] runs with the
    callbacks of [Run] from a state with no line written and no payload
    counted, the raw sink (when active) and the file sink (when the file
    is open) each receive the JSON line of every decoded record that
    marshals, once, in arrival order, so both sinks receive the same
    lines; the counter of saved payloads is the number of lines written to
    the file. *)
Theorem sinks_receive_records_in_order (env : Env) (ctx : Context)
    (src : StreamSource) (opts : CliOptions) (outFile : bool)
    (streamURL secret : string) (tick : nat) (st0 : RunState) :
  let log := decodedRecords env ctx src streamURL secret tick in
  let st :=
    snd (fst (ConnectStream env ctx src streamURL secret
                (runCallbacks env opts outFile secret) tick st0)) in
  rawLines (out st0) = [] -> fileLines (out st0) = [] ->
  filePayloads st0 = 0 ->
  rawLines (out st) = (if Raw opts then marshalled env log else []) /\
  fileLines (out st) = (if outFile then marshalled env log else []) /\
  (Z.of_nat (List.length log) < 2 ^ 63 ->
   filePayloads st = Z.of_nat (List.length (fileLines (out st)))).
Proof.
  cbv zeta. intros Hr0 Hf0 Hc0.
  destruct (ConnectStream_sinks env ctx src opts outFile streamURL secret
              tick st0 Hr0 Hf0 Hc0) as (Hr & Hf & Hc).
  split; [exact Hr|]. split; [exact Hf|].
  intros Hlen. rewrite Hc, Hf. destruct outFile; [|reflexivity].
  apply wrap64_small.
  pose proof (marshalled_length env
                (decodedRecords env ctx src streamURL secret tick)).
  lia.
Qed.

Lemma sinks_receive_records_in_order_witness :
  let opts :=
    mkCliOptions EmptyString "s3cr3t" EmptyString "out.jsonl" true false
      false false "https://api.certwatch.app" in
  let st :=
    snd (fst (ConnectStream exampleEnv noCancel sinksExampleSource "stream"
                "s3cr3t" (runCallbacks exampleEnv opts true "s3cr3t") O
                initialState)) in
  rawLines (out st) = fileLines (out st) /\
  fileLines (out st)
  = marshalled exampleEnv
      (decodedRecords exampleEnv noCancel sinksExampleSource "stream"
         "s3cr3t" O).
Proof.
  cbv zeta.
  destruct (sinks_receive_records_in_order exampleEnv noCancel
              sinksExampleSource
              (mkCliOptions EmptyString "s3cr3t" EmptyString "out.jsonl"
                 true false false false "https://api.certwatch.app")
              true "stream" "s3cr3t" O initialState
              eq_refl eq_refl eq_refl) as (Hr & Hf & _).
  split; [rewrite Hr, Hf; reflexivity | exact Hf].
Defined.

Example sinks_example :
  let opts :=
    mkCliOptions EmptyString "s3cr3t" EmptyString "out.jsonl" true false
      false false "https://api.certwatch.app" in
  out (snd (fst (ConnectStream exampleEnv noCancel sinksExampleSource
                   "stream" "s3cr3t"
                   (runCallbacks exampleEnv opts true "s3cr3t") O
                   initialState)))
  = [OutRawLine "{e1}"; OutFileLine "{e1}";
     OutRawLine "{e2}"; OutFileLine "{e2}"].
Proof. vm_compute. reflexivity. Qed.

Lemma DeliverPayload_handed (env : Env) (payload : WebhookPayload)
    (targetURL secret : string) (idx : Z) (net : Net) :
  handed (snd (DeliverPayload env payload targetURL secret idx net))
  = (handed net
     ++ match json_Marshal env payload,
              http_NewRequest env "POST" targetURL with
        | inl body, None => [deliveryRequest payload targetURL secret body]
        | _, _ => []
        end)%list.
Proof.
  rewrite DeliverPayload_net. unfold handed.
  destruct (json_Marshal env payload);
    destruct (http_NewRequest env "POST" targetURL);
    rewrite ?map_app, ?app_nil_r; reflexivity.
Qed.

Lemma runCallbacks_net_step (env : Env) (opts : CliOptions)
    (outFile : bool) (secret : string) (net0 : Net) (k d : string)
    (log : list WebhookPayload) (st : RunState) :
  netAfter env opts secret net0 log st ->
  netAfter env opts secret net0
    (dispatchEvent env k d recordPayloads log)
    (dispatchEvent env k d (runCallbacks env opts outFile secret) st).
Proof.
  unfold netAfter. intros Hnet.
  assert (Hp : forall payload st', net st' = net st ->
    handed (net (onPayload env opts outFile secret payload st'))
    = (handed net0
       ++ (if isEmpty (URL opts) then []
           else match http_NewRequest env "POST" (URL opts) with
                | Some _ => []
                | None => requestsFor env (URL opts) secret
                            (log ++ [payload])
                end))%list).
  { intros payload st' H.
    destruct (onPayload_sinks env opts outFile secret payload st')
      as (_ & _ & _ & Pn).
    rewrite Pn, H.
    destruct (isEmpty (URL opts)); [exact Hnet|].
    rewrite DeliverPayload_handed, Hnet, requestsFor_app, requestsFor_single.
    destruct (json_Marshal env payload);
      destruct (http_NewRequest env "POST" (URL opts));
      rewrite ?app_nil_r, <- ?app_assoc; reflexivity. }
  unfold dispatchEvent, runCallbacks. cbv zeta.
  destruct (String.eqb k "meta").
  { destruct (isEmpty (APIKey opts) && negb (Raw opts)); cbn;
      destruct (json_UnmarshalMeta env d); try assumption.
    unfold onMeta. cbn [net].
    destruct (connectedOnce_Do_sinks st) as (_ & _ & _ & -> & _).
    exact Hnet. }
  destruct (String.eqb k "complete").
  { destruct (isEmpty (APIKey opts) && negb (Raw opts)); cbn;
      unfold onComplete;
      rewrite (proj2 (proj2 (proj2 (proj2 (proj2
                 (emit_unless_fields _ _ st)))))); exact Hnet. }
  destruct (String.eqb k "error").
  { destruct (isEmpty (APIKey opts) && negb (Raw opts)); cbn;
      unfold onError;
      rewrite (proj2 (proj2 (proj2 (proj2 (proj2
                 (emit_unless_fields _ _ st)))))); exact Hnet. }
  destruct (isEmpty (APIKey opts) && negb (Raw opts)); cbn;
    destruct (json_UnmarshalPayload env d) as [payload|]; try assumption.
  - apply Hp. apply connectedOnce_Do_sinks.
  - apply Hp. reflexivity.
Qed.

Lemma ConnectStream_net (env : Env) (ctx : Context)
    (src : StreamSource) (opts : CliOptions) (outFile : bool)
    (streamURL secret : string) (tick : nat) (st0 : RunState) :
  let log := decodedRecords env ctx src streamURL secret tick in
  let st :=
    snd (fst (ConnectStream env ctx src streamURL secret
                (runCallbacks env opts outFile secret) tick st0)) in
  handed (net st)
  = (handed (net st0)
     ++ (if isEmpty (URL opts) then []
         else match http_NewRequest env "POST" (URL opts) with
              | Some _ => []
              | None => requestsFor env (URL opts) secret log
              end))%list.
Proof.
  cbv zeta.
  destruct (ConnectStream_sim env ctx src streamURL secret recordPayloads
    (runCallbacks env opts outFile secret)
    (netAfter env opts secret (net st0)) tick [] st0)
    as (_ & _ & H).
  - intros k d a b. apply runCallbacks_net_step.
  - unfold netAfter. destruct (isEmpty (URL opts));
      [rewrite app_nil_r; reflexivity|].
    destruct (http_NewRequest env "POST" (URL opts));
      rewrite app_nil_r; reflexivity.
  - exact H.
Qed.

(** X13. Each record is delivered once. With the HTTP sink active and a
    target for which a request can be built, the requests handed to the
    HTTP client during [ConnectStream] are, after those handed over
    before, exactly one request per decoded record that marshals, in
    arrival order, each the signed POST of that record: nothing is handed
    over twice (no retry), nothing is skipped, nothing else is sent. With
    no target, or a target for which no request can be built, the client
    is not called. (On the wire each of these requests may be followed by
    the requests of the redirections the client follows for it.) *)
Theorem each_record_delivered_once (env : Env) (ctx : Context)
    (src : StreamSource) (opts : CliOptions) (outFile : bool)
    (streamURL secret : string) (tick : nat) (st0 : RunState) :
  let log := decodedRecords env ctx src streamURL secret tick in
  let st :=
    snd (fst (ConnectStream env ctx src streamURL secret
                (runCallbacks env opts outFile secret) tick st0)) in
  let sent :=
    if isEmpty (URL opts) then []
    else match http_NewRequest env "POST" (URL opts) with
         | Some _ => []
         | None => requestsFor env (URL opts) secret log
         end in
  handed (net st) = (handed (net st0) ++ sent)%list /\
  List.length (net st) = (List.length (net st0) + List.length sent)%nat.
Proof.
  cbv zeta.
  pose proof (ConnectStream_net env ctx src opts outFile streamURL secret
                tick st0) as H.
  cbv zeta in H. split; [exact H|].
  apply (f_equal (@List.length HttpRequest)) in H.
  unfold handed in H. rewrite length_app, !length_map in H. exact H.
Qed.

Example each_record_delivered_once_example :
  let opts := exampleOpts "http://localhost:3000/hook" EmptyString in
  map req_body
    (wire (net (snd (fst (ConnectStream exampleEnv noCancel
                            sinksExampleSource "stream" "s3cr3t"
                            (runCallbacks exampleEnv opts false "s3cr3t") O
                            initialState)))))
  = ["{e1}"; "{e2}"].
Proof. vm_compute. reflexivity. Qed.

(** ** The orchestrator: raw mode *)

Lemma quiet_emit (o : Output) (st : RunState) :
  isPayloadLine o = true -> quiet st -> quiet (emit o st).
Proof.
  unfold quiet. intros Ho Hq. cbn [emit out]. apply Forall_app.
  split; [exact Hq | constructor; [exact Ho | constructor]].
Qed.

Lemma runCallbacks_quiet (env : Env) (opts : CliOptions) (outFile : bool)
    (secret k d : string) (st : RunState) :
  Raw opts = true -> quiet st ->
  quiet (dispatchEvent env k d (runCallbacks env opts outFile secret) st).
Proof.
  intros Hraw Hq. unfold dispatchEvent, runCallbacks. cbv zeta.
  rewrite Hraw, andb_false_r.
  cbn [OnMeta OnPayload OnComplete OnError].
  destruct (String.eqb k "meta").
  { destruct (json_UnmarshalMeta env d); exact Hq. }
  destruct (String.eqb k "complete").
  { unfold onComplete. rewrite Hraw. exact Hq. }
  destruct (String.eqb k "error").
  { unfold onError. rewrite Hraw. exact Hq. }
  destruct (json_UnmarshalPayload env d) as [payload|]; [|exact Hq].
  unfold onPayload. cbv zeta. rewrite Hraw.
  destruct outFile, (json_Marshal env payload), (isEmpty (URL opts)),
    (Verbose opts); cbn [negb andb emit_unless];
    try match goal with |- context [DeliverPayload ?e ?p ?u ?s ?i ?n] =>
      destruct (DeliverPayload e p u s i n) as [result net'] end;
    unfold quiet in *; cbn [emit out];
    repeat (apply Forall_app; split); try exact Hq;
    repeat constructor.
Qed.

Lemma finishRun_quiet (w : World) (opts : CliOptions) (err : error)
    (st : RunState) (tick : nat) :
  Raw opts = true -> quiet st ->
  quiet (snd (finishRun w opts err st tick)).
Proof.
  intros Hraw Hq. unfold finishRun, printReports. cbv zeta.
  rewrite Hraw. cbn [negb andb emit_unless]. rewrite andb_false_r.
  destruct err as [cause|]; [|exact Hq].
  destruct (ctx_Done (w_ctx w) tick && _); [exact Hq|].
  destruct (negb (ctx_Done (w_ctx w) (S tick))); exact Hq.
Qed.

Lemma runStream_quiet (w : World) (opts : CliOptions) (outFile : bool)
    (secret streamURL : string) (st : RunState) :
  Raw opts = true -> quiet st ->
  quiet (snd (runStream w opts outFile secret streamURL st)).
Proof.
  intros Hraw Hq. unfold runStream. cbv zeta.
  destruct (ConnectStream_sim (w_env w) (w_ctx w) (w_stream w) streamURL
    secret recordPayloads (runCallbacks (w_env w) opts outFile secret)
    (fun _ s => quiet s) O [] st) as (_ & _ & H).
  - intros k d a b. apply runCallbacks_quiet. exact Hraw.
  - exact Hq.
  - destruct (ConnectStream _ _ _ _ _ _ _ _) as [[err st'] tick].
    cbn [fst snd] in H. apply finishRun_quiet; assumption.
Qed.

(** X14. In raw mode everything [Run] writes is a payload line: apart from
    the preview, every message, banner, progress line and summary is
    suppressed, whatever the session, the stream and the deliveries do, so
    the standard output holds NDJSON only. *)
Theorem raw_mode_prints_payload_lines_only (w : World) (opts : CliOptions)
    (version : string) :
  Preview opts = false -> Raw opts = true ->
  Forall (fun o => isPayloadLine o = true)
    (out (snd (Run w opts version))).
Proof.
  intros Hprev Hraw. change (quiet (snd (Run w opts version))).
  assert (Hout : forall secret streamURL st, quiet st ->
            quiet (snd (runOutputs w opts secret streamURL st))).
  { intros secret streamURL st Hq. unfold runOutputs.
    destruct (negb (isEmpty (File opts)));
      [destruct (w_openFile w (File opts)); [exact Hq|]|];
      apply runStream_quiet; assumption. }
  assert (Hq0 : quiet initialState) by constructor.
  unfold Run. rewrite Hprev, Hraw. cbv zeta. cbn [emit_unless].
  destruct (negb (isEmpty (APIKey opts))).
  - destruct (CreateSession _ _ _ _ _) as [[sess|] [cause|]];
      try exact Hq0.
    destruct (sr_Data sess) as [data|]; [|exact Hq0].
    apply Hout. exact Hq0.
  - apply Hout. exact Hq0.
Qed.

Lemma raw_mode_prints_payload_lines_only_witness :
  let opts :=
    mkCliOptions "http://localhost:3000/hook" "s3cr3t" EmptyString
      "out.jsonl" true false true false "https://api.certwatch.app" in
  Forall (fun o => isPayloadLine o = true)
    (out (snd (Run (exampleWorld (ss_reply sinksExampleSource) None) opts
                 "dev"))).
Proof.
  cbv zeta.
  apply (raw_mode_prints_payload_lines_only
           (exampleWorld (ss_reply sinksExampleSource) None)
           (mkCliOptions "http://localhost:3000/hook" "s3cr3t" EmptyString
              "out.jsonl" true false true false "https://api.certwatch.app")
           "dev"); reflexivity.
Defined.

Example raw_mode_example :
  let opts :=
    mkCliOptions "http://localhost:3000/hook" "s3cr3t" EmptyString
      "out.jsonl" true false true false "https://api.certwatch.app" in
  out (snd (Run (exampleWorld (ss_reply sinksExampleSource) None) opts
              "dev"))
  = [OutRawLine "{e1}"; OutFileLine "{e1}";
     OutRawLine "{e2}"; OutFileLine "{e2}"].
Proof. vm_compute. reflexivity. Qed.

(** ** The orchestrator: what is sent, and under which secret *)

Lemma deliveryRequest_signed (opts : CliOptions) (payload : WebhookPayload)
    (secret body : string) :
  signedBy opts secret (deliveryRequest payload (URL opts) secret body).
Proof.
  unfold signedBy, deliveryRequest.
  pose proof (verifySignature_accepts body secret) as Hv. revert Hv.
  generalize (SignPayload body secret); intros sig Hv.
  split; [reflexivity|]. split; [reflexivity|]. exact Hv.
Qed.

Lemma requestsFor_signed (env : Env) (opts : CliOptions) (secret : string)
    (log : list WebhookPayload) :
  Forall (signedBy opts secret) (requestsFor env (URL opts) secret log).
Proof.
  unfold requestsFor. induction log as [|p log IH]; [constructor|].
  cbn [flat_map]. apply Forall_app. split; [|exact IH].
  destruct (json_Marshal env p) as [body|]; [|constructor].
  constructor; [apply deliveryRequest_signed | constructor].
Qed.

Lemma finishRun_net (w : World) (opts : CliOptions) (err : error)
    (st : RunState) (tick : nat) :
  net (snd (finishRun w opts err st tick)) = net st.
Proof.
  unfold finishRun, printReports. cbv zeta.
  destruct (negb (isEmpty (File opts)) && negb (Raw opts));
    destruct (negb (Raw opts) && negb (isEmpty (URL opts)));
    destruct err as [cause|];
    try destruct (ctx_Done (w_ctx w) tick && _);
    try destruct (negb (ctx_Done (w_ctx w) (S tick)));
    try destruct (Raw opts); reflexivity.
Qed.

Lemma runStream_signed (w : World) (opts : CliOptions) (outFile : bool)
    (secret streamURL : string) (st : RunState) :
  Forall (signedBy opts secret) (handed (net st)) ->
  Forall (signedBy opts secret)
    (handed (net (snd (runStream w opts outFile secret streamURL st)))).
Proof.
  intros H. unfold runStream. cbv zeta.
  pose proof (ConnectStream_net (w_env w) (w_ctx w) (w_stream w) opts
                outFile streamURL secret O st) as Hn.
  cbv zeta in Hn.
  destruct (ConnectStream _ _ _ _ _ _ _ _) as [[err st'] tick].
  cbn [fst snd] in Hn.
  rewrite (finishRun_net w opts err st' tick), Hn.
  apply Forall_app. split; [exact H|].
  destruct (isEmpty (URL opts)); [constructor|].
  destruct (http_NewRequest (w_env w) "POST" (URL opts)); [constructor|].
  apply requestsFor_signed.
Qed.

(** X15. Every request [Run] hands to the HTTP client is a POST to the
    target of the command line whose signature the receiver verifies under
    the secret of the run: the secret the session returned when an API key
    is given (also when a secret was passed on the command line), the
    secret of the command line otherwise. (The requests of the
    redirections the client follows on its own are not among them.) *)
Theorem Run_requests_signed (w : World) (opts : CliOptions)
    (version : string) :
  Forall (signedBy opts (runSecret w opts))
    (handed (net (snd (Run w opts version)))).
Proof.
  assert (Hout : forall secret streamURL st, net st = [] ->
            Forall (signedBy opts secret)
              (handed (net (snd (runOutputs w opts secret streamURL st))))).
  { intros secret streamURL st Hn. unfold runOutputs.
    destruct (negb (isEmpty (File opts)));
      [destruct (w_openFile w (File opts));
         [cbn [snd]; rewrite Hn; constructor|]|];
      apply runStream_signed; rewrite Hn; constructor. }
  unfold Run, runSecret.
  destruct (Preview opts).
  { cbv zeta. cbn [snd].
    destruct (negb (isEmpty (Secret opts))); constructor. }
  destruct (isEmpty (APIKey opts)); cbn [negb]; cbv zeta.
  - apply Hout. destruct (Raw opts); reflexivity.
  - destruct (CreateSession _ _ _ _ _) as [[sess|] [cause|]];
      try (cbn [snd]; destruct (Raw opts); constructor).
    destruct (sr_Data sess) as [data|];
      [|cbn [snd]; destruct (Raw opts); constructor].
    apply Hout. destruct (Raw opts); reflexivity.
Qed.

Example Run_requests_signed_example :
  let w :=
    mkWorld exampleEnv noCancel false "00" (Response 201 "ok")
      (fun _ => None) sinksExampleSource 1000 in
  let opts :=
    mkCliOptions "http://localhost:3000/hook" "mine" "key" EmptyString
      false false false false "https://api.certwatch.app" in
  runSecret w opts = "s3cr3t" /\
  map (fun req => Header_Get "X-CertWatch-Signature" (req_headers req))
      (handed (net (snd (Run w opts "dev"))))
  = ["sha256=" ++ SignPayload "{e1}" "s3cr3t";
     "sha256=" ++ SignPayload "{e2}" "s3cr3t"].
Proof. vm_compute. split; reflexivity. Qed.

(** ** The orchestrator: the connection message *)

Lemma nConnected_app (a b : list Output) :
  nConnected (a ++ b) = (nConnected a + nConnected b)%nat.
Proof. unfold nConnected. rewrite filter_app, length_app. reflexivity. Qed.

Lemma onPayload_connected (env : Env) (opts : CliOptions) (outFile : bool)
    (secret : string) (payload : WebhookPayload) (st : RunState) :
  nConnected (out (onPayload env opts outFile secret payload st))
  = nConnected (out st) /\
  connectedOnce (onPayload env opts outFile secret payload st)
  = connectedOnce st.
Proof.
  unfold onPayload. cbv zeta.
  destruct (Raw opts), outFile, (json_Marshal env payload),
    (isEmpty (URL opts)), (Verbose opts); cbn [negb andb emit_unless];
    try match goal with |- context [DeliverPayload ?e ?p ?u ?s ?i ?n] =>
      destruct (DeliverPayload e p u s i n) as [result net'] end;
    cbn [emit out connectedOnce]; rewrite ?nConnected_app;
    cbn [nConnected filter List.length]; split; try reflexivity; lia.
Qed.

Lemma runCallbacks_connected (env : Env) (opts : CliOptions)
    (outFile : bool) (secret k d : string) (c : nat) (st : RunState) :
  connectedInv (isEmpty (APIKey opts) && negb (Raw opts)) c st ->
  connectedInv (isEmpty (APIKey opts) && negb (Raw opts)) c
    (dispatchEvent env k d (runCallbacks env opts outFile secret) st).
Proof.
  intros H. unfold dispatchEvent, runCallbacks. cbv zeta.
  assert (Hemit : forall q o, o <> OutConnected ->
    nConnected (out (emit_unless q o st)) = nConnected (out st) /\
    connectedOnce (emit_unless q o st) = connectedOnce st).
  { intros q o Ho. destruct q; [split; reflexivity|].
    cbn [emit_unless emit out connectedOnce]. rewrite nConnected_app.
    destruct o; try contradiction; cbn; split; try reflexivity; lia. }
  assert (Honce : nConnected (out st)
                  = (if connectedOnce st then 1 else 0)%nat ->
    nConnected (out (connectedOnce_Do st)) = 1%nat /\
    connectedOnce (connectedOnce_Do st) = true).
  { intros Hn. unfold connectedOnce_Do.
    destruct (connectedOnce st) eqn:Hc; [split; assumption|].
    cbn [emit out connectedOnce]. rewrite nConnected_app, Hn.
    split; reflexivity. }
  destruct (isEmpty (APIKey opts) && negb (Raw opts)); unfold connectedInv in *.
  - cbn [OnMeta OnPayload OnComplete OnError].
    destruct (String.eqb k "meta").
    { destruct (json_UnmarshalMeta env d); [|exact H].
      destruct (Honce H) as [Hn Hf]. unfold onMeta.
      cbn [out connectedOnce]. rewrite Hn, Hf. reflexivity. }
    destruct (String.eqb k "complete").
    { unfold onComplete.
      destruct (Hemit (Raw opts) (OutInfo ("Stream complete: " ++ d))
                  ltac:(discriminate)) as [-> ->]. exact H. }
    destruct (String.eqb k "error").
    { unfold onError.
      destruct (Hemit (Raw opts) (OutError ("Stream error: " ++ d))
                  ltac:(discriminate)) as [-> ->]. exact H. }
    destruct (json_UnmarshalPayload env d) as [payload|]; [|exact H].
    destruct (Honce H) as [Hn Hf].
    destruct (onPayload_connected env opts outFile secret payload
                (connectedOnce_Do st)) as [-> ->].
    rewrite Hn, Hf. reflexivity.
  - cbn [OnMeta OnPayload OnComplete OnError].
    destruct (String.eqb k "meta").
    { destruct (json_UnmarshalMeta env d); exact H. }
    destruct (String.eqb k "complete").
    { unfold onComplete.
      destruct (Hemit (Raw opts) (OutInfo ("Stream complete: " ++ d))
                  ltac:(discriminate)) as [-> _]. exact H. }
    destruct (String.eqb k "error").
    { unfold onError.
      destruct (Hemit (Raw opts) (OutError ("Stream error: " ++ d))
                  ltac:(discriminate)) as [-> _]. exact H. }
    destruct (json_UnmarshalPayload env d) as [payload|]; [|exact H].
    destruct (onPayload_connected env opts outFile secret payload st)
      as [-> _].
    exact H.
Qed.

Lemma finishRun_connected (w : World) (opts : CliOptions) (err : error)
    (st : RunState) (tick : nat) :
  nConnected (out (snd (finishRun w opts err st tick)))
  = nConnected (out st).
Proof.
  unfold finishRun, printReports. cbv zeta.
  destruct (negb (isEmpty (File opts)) && negb (Raw opts));
    destruct (negb (Raw opts) && negb (isEmpty (URL opts)));
    destruct err as [cause|];
    try destruct (ctx_Done (w_ctx w) tick && _);
    try destruct (negb (ctx_Done (w_ctx w) (S tick)));
    try destruct (Raw opts);
    cbn [fst snd emit emit_unless out]; rewrite ?nConnected_app;
    cbn [nConnected filter List.length]; lia.
Qed.

Lemma runStream_connected (w : World) (opts : CliOptions) (outFile : bool)
    (secret streamURL : string) (c : nat) (st : RunState) :
  (c <= 1)%nat ->
  connectedInv (isEmpty (APIKey opts) && negb (Raw opts)) c st ->
  (nConnected (out (snd (runStream w opts outFile secret streamURL st)))
   <= 1)%nat.
Proof.
  intros Hc H. unfold runStream. cbv zeta.
  destruct (ConnectStream_sim (w_env w) (w_ctx w) (w_stream w) streamURL
    secret recordPayloads (runCallbacks (w_env w) opts outFile secret)
    (fun _ s => connectedInv (isEmpty (APIKey opts) && negb (Raw opts)) c s)
    O [] st) as (_ & _ & Hf).
  - intros k d a b. apply runCallbacks_connected.
  - exact H.
  - destruct (ConnectStream _ _ _ _ _ _ _ _) as [[err st'] tick].
    cbn [fst snd] in Hf. rewrite finishRun_connected.
    unfold connectedInv in Hf.
    destruct (isEmpty (APIKey opts) && negb (Raw opts));
      [destruct (connectedOnce st')|]; lia.
Qed.

(** X16. Whatever the stream carries, [Run] prints the connection message
    at most once: the callbacks that print it are guarded by
    [connectedOnce], and the other paths print it before the stream only. *)
Theorem Run_connected_at_most_once (w : World) (opts : CliOptions)
    (version : string) :
  (nConnected (out (snd (Run w opts version))) <= 1)%nat.
Proof.
  assert (Hout : forall secret streamURL c st, (c <= 1)%nat ->
    (nConnected (out st) <= 1)%nat ->
    connectedInv (isEmpty (APIKey opts) && negb (Raw opts)) c st ->
    (nConnected (out (snd (runOutputs w opts secret streamURL st)))
     <= 1)%nat).
  { intros secret streamURL c st Hc Hn H. unfold runOutputs.
    destruct (negb (isEmpty (File opts)));
      [destruct (w_openFile w (File opts)); [exact Hn|]|];
      apply (runStream_connected w opts _ secret streamURL c st Hc H). }
  unfold Run.
  destruct (Preview opts).
  { cbv zeta. cbn [snd].
    destruct (negb (isEmpty (Secret opts))); cbn; lia. }
  destruct (isEmpty (APIKey opts)) eqn:Hkey; cbn [negb]; cbv zeta.
  - destruct (Raw opts) eqn:Hraw.
    + apply (Hout _ _ 0%nat); [lia | cbn; lia |].
      reflexivity.
    + apply (Hout _ _ 0%nat); [lia | cbn; lia |].
      reflexivity.
  - destruct (CreateSession _ _ _ _ _) as [[sess|] [cause|]];
      try (cbn [snd]; destruct (Raw opts); cbn; lia).
    destruct (sr_Data sess) as [data|];
      [|cbn [snd]; destruct (Raw opts); cbn; lia].
    destruct (Raw opts) eqn:Hraw.
    + apply (Hout _ _ 0%nat); [lia | cbn; lia |].
      reflexivity.
    + apply (Hout _ _ 1%nat); [lia | cbn; lia |].
      reflexivity.
Qed.

Example Run_connected_example :
  let body :=
    "event: meta" ++ LF ++ "data: " ++ metaJSON ++ LF ++ LF
    ++ "data: {e1}" ++ LF ++ "event: meta" ++ LF ++ "data: " ++ metaJSON
    ++ LF ++ LF ++ "data: {e2}" ++ LF in
  let st :=
    snd (Run (exampleWorld (Response 200 body) None)
           (exampleOpts EmptyString "out.jsonl") "dev") in
  nConnected (out st) = 1%nat /\ streamDuration st = 60 /\ index st = 2.
Proof. vm_compute. repeat split. Qed.

(** ** The summary, in general *)

Lemma summary_fold (rs : list DeliveryResult) (s0 t0 : Z) :
  fst (fold_left
         (fun acc r =>
            let '(succeeded, totalLatency) := acc in
            ((if Success r then succeeded + 1 else succeeded),
             wrap64 (totalLatency + LatencyMs r)))
         rs (s0, t0))
  = s0 + Z.of_nat (List.length (filter Success rs)).
Proof.
  revert s0 t0. induction rs as [|r rs IH]; intros s0 t0.
  - cbn. lia.
  - cbn [fold_left filter]. rewrite IH.
    destruct (Success r); cbn [List.length]; lia.
Qed.

Lemma filter_partition_length {A : Type} (f : A -> bool) (l : list A) :
  (List.length (filter f l) + List.length (filter (fun x => negb (f x)) l)
   = List.length l)%nat.
Proof.
  induction l as [|x l IH]; [reflexivity|]. cbn [filter].
  destruct (f x); cbn [negb List.length]; lia.
Qed.

Lemma summaryVars_counts (rs : list DeliveryResult) (elapsedMs : Z) :
  total (summaryVars rs elapsedMs) = Z.of_nat (List.length rs) /\
  succeeded (summaryVars rs elapsedMs)
  = Z.of_nat (List.length (filter Success rs)) /\
  failed (summaryVars rs elapsedMs)
  = Z.of_nat (List.length (filter (fun r => negb (Success r)) rs)).
Proof.
  unfold summaryVars.
  pose proof (summary_fold rs 0 0) as Hs.
  destruct (fold_left _ rs (0, 0)) as [s t]. cbn [fst] in Hs.
  cbn [total succeeded failed]. subst s.
  pose proof (filter_partition_length Success rs).
  repeat split; lia.
Qed.

(** X17. The summary counts what [Run] judges: the delivered count is the
    number of outcomes with [Success], the failed count the number of the
    others, and they add up to the total. The line "Failed" is printed
    exactly when [checkForFailures] reports a failure, and the line "Avg"
    exactly when there is at least one outcome, so the summary has seven
    lines and one more for each of the two. *)
Theorem summary_counts (useColor : bool) (rs : list DeliveryResult)
    (elapsedMs : Z) :
  let v := summaryVars rs elapsedMs in
  succeeded v = Z.of_nat (List.length (filter Success rs)) /\
  failed v = Z.of_nat (List.length (filter (fun r => negb (Success r)) rs))
  /\
  succeeded v + failed v = total v /\
  (0 < failed v <-> checkForFailures rs = Some ErrDeliveriesFailed) /\
  List.length (PrintSummary useColor rs elapsedMs)
  = (7 + (if (0 <? failed v)%Z then 1 else 0)
     + (if (0 <? total v)%Z then 1 else 0))%nat.
Proof.
  cbv zeta.
  destruct (summaryVars_counts rs elapsedMs) as (Ht & Hs & Hf).
  pose proof (filter_partition_length Success rs) as Hp.
  split; [exact Hs|]. split; [exact Hf|]. split; [lia|]. split.
  - rewrite Hf. clear. induction rs as [|r rs IH].
    + cbn. split; [lia | discriminate].
    + cbn [checkForFailures filter]. destruct (Success r); cbn [negb].
      * exact IH.
      * cbn [List.length]. split; [reflexivity | lia].
  - unfold PrintSummary. cbv zeta.
    destruct (0 <? failed (summaryVars rs elapsedMs));
      destruct (0 <? total (summaryVars rs elapsedMs));
      rewrite !length_app; reflexivity.
Qed.

Example summary_of_nothing :
  PrintSummary false [] 1500
  = [ EmptyString; "  " ++ separator; "  Summary"; "  " ++ separator;
      "  Delivered: 0/0 (0.0%)"; "  Elapsed:   1.5s"; EmptyString ].
Proof. vm_compute. reflexivity. Qed.

Lemma summary_total_latency (rs : list DeliveryResult) (s0 t0 hi : Z) :
  Forall (fun r => 0 <= LatencyMs r <= hi) rs ->
  0 <= t0 -> t0 + Z.of_nat (List.length rs) * hi < 2 ^ 63 ->
  snd (fold_left
         (fun acc r =>
            let '(succeeded, totalLatency) := acc in
            ((if Success r then succeeded + 1 else succeeded),
             wrap64 (totalLatency + LatencyMs r)))
         rs (s0, t0))
  = t0 + sumLatency rs.
Proof.
  intros H. revert s0 t0. induction H as [|r rs Hr _ IH]; intros s0 t0 H0 Hb.
  - cbn. lia.
  - cbn [fold_left sumLatency fold_right].
    cbn [List.length] in Hb.
    rewrite wrap64_small by nia. rewrite IH by nia.
    unfold sumLatency. lia.
Qed.

Lemma sumLatency_bounds (rs : list DeliveryResult) (lo hi : Z) :
  Forall (fun r => lo <= LatencyMs r <= hi) rs ->
  Z.of_nat (List.length rs) * lo <= sumLatency rs
  <= Z.of_nat (List.length rs) * hi.
Proof.
  induction 1 as [|r rs Hr _ IH]; [cbn; lia|].
  cbn [sumLatency fold_right List.length]. fold (sumLatency rs). nia.
Qed.

(** X18. The average the summary prints is the truncated mean of the
    latencies and lies between the smallest and the largest of them, as
    long as their sum fits a 64-bit integer. *)
Theorem summary_average_bounds (rs : list DeliveryResult) (elapsedMs : Z)
    (lo hi : Z) :
  rs <> [] -> 0 <= lo ->
  Forall (fun r => lo <= LatencyMs r <= hi) rs ->
  Z.of_nat (List.length rs) * hi < 2 ^ 63 ->
  let v := summaryVars rs elapsedMs in
  totalLatency v = sumLatency rs /\
  avgMs v = sumLatency rs / Z.of_nat (List.length rs) /\
  lo <= avgMs v <= hi.
Proof.
  intros Hne Hlo Hall Hb. cbv zeta. unfold summaryVars.
  assert (Hall0 : Forall (fun r => 0 <= LatencyMs r <= hi) rs).
  { eapply Forall_impl; [|exact Hall]. cbn. intros r Hr. lia. }
  pose proof (summary_total_latency rs 0 0 hi Hall0 ltac:(lia) ltac:(lia))
    as Ht.
  pose proof (sumLatency_bounds rs lo hi Hall) as Hsum.
  destruct (fold_left _ rs (0, 0)) as [s t]. cbn [snd] in Ht.
  cbn [totalLatency avgMs]. subst t.
  assert (Hn : 0 < Z.of_nat (List.length rs)).
  { destruct rs; [contradiction | cbn [List.length]; lia]. }
  replace (0 <? Z.of_nat (List.length rs)) with true
    by (symmetry; apply Z.ltb_lt; exact Hn).
  rewrite Z.add_0_l.
  rewrite Z.quot_div_nonneg by nia.
  split; [reflexivity|]. split; [reflexivity|]. split.
  - apply Z.div_le_lower_bound; lia.
  - apply Z.div_le_upper_bound; lia.
Qed.

Lemma summary_average_bounds_witness :
  let rs :=
    [ mkDeliveryResult 1 "a" 200 "OK" 10 true EmptyString;
      mkDeliveryResult 2 "b" 200 "OK" 11 true EmptyString ] in
  10 <= avgMs (summaryVars rs 0) <= 11.
Proof.
  cbv zeta.
  refine (proj2 (proj2 (summary_average_bounds
    [ mkDeliveryResult 1 "a" 200 "OK" 10 true EmptyString;
      mkDeliveryResult 2 "b" 200 "OK" 11 true EmptyString ] 0 10 11
    _ _ _ _))).
  - discriminate.
  - lia.
  - repeat constructor; cbn; lia.
  - cbn. lia.
Defined.

(** ** Truncation *)

Lemma substring_length (s : string) (k : nat) :
  (k <= String.length s)%nat -> String.length (substring 0 k s) = k.
Proof.
  revert k. induction s as [|c s IH]; intros k Hk.
  - cbn in Hk. replace k with O by lia. reflexivity.
  - destruct k as [|k]; [reflexivity|]. cbn [substring String.length].
    rewrite IH; [reflexivity | cbn in Hk; lia].
Qed.

Lemma append_length (a b : string) :
  String.length (a ++ b) = (String.length a + String.length b)%nat.
Proof. induction a as [|c a IH]; [reflexivity|]. cbn. rewrite IH. reflexivity. Qed.

(** X19. [truncate] never returns more than [maxLen] bytes: for a limit
    that is not negative its result has [min (len s) maxLen] bytes; it is
    the string itself when that fits and otherwise, for a limit above 3,
    the first [maxLen - 3] bytes followed by three dots. For a negative
    limit it panics on every string. *)
Theorem truncate_length (s : string) (maxLen : Z) :
  (0 <= maxLen ->
   exists t, truncate s maxLen = Some t /\
             len t = Z.min (len s) maxLen /\
             (len s <= maxLen -> t = s) /\
             (3 < maxLen < len s ->
              t = substring 0 (Z.to_nat (maxLen - 3)) s ++ "...")) /\
  (maxLen < 0 -> truncate s maxLen = None).
Proof.
  unfold truncate, slice_to, len. split.
  - intros H0. destruct (Z.of_nat (String.length s) <=? maxLen) eqn:Hfit.
    + apply Z.leb_le in Hfit. exists s. repeat split; lia.
    + apply Z.leb_gt in Hfit. destruct (maxLen <=? 3) eqn:H3.
      * apply Z.leb_le in H3.
        replace ((maxLen <? 0) || (Z.of_nat (String.length s) <? maxLen))
          with false
          by (symmetry; apply orb_false_iff; split;
              [apply Z.ltb_ge | apply Z.ltb_ge]; lia).
        eexists. split; [reflexivity|].
        rewrite substring_length by lia. repeat split; lia.
      * apply Z.leb_gt in H3.
        replace ((maxLen - 3 <? 0)
                 || (Z.of_nat (String.length s) <? maxLen - 3)) with false
          by (symmetry; apply orb_false_iff; split;
              [apply Z.ltb_ge | apply Z.ltb_ge]; lia).
        eexists. split; [reflexivity|].
        rewrite append_length, substring_length by lia.
        cbn [String.length]. repeat split; lia.
  - intros Hneg.
    replace (Z.of_nat (String.length s) <=? maxLen) with false
      by (symmetry; apply Z.leb_gt; lia).
    replace (maxLen <=? 3) with true by (symmetry; apply Z.leb_le; lia).
    replace (maxLen <? 0) with true by (symmetry; apply Z.ltb_lt; lia).
    reflexivity.
Qed.

Lemma truncate_length_witness :
  exists t, truncate "a-very-long-common-name.example.com" 28 = Some t /\
            len t = Z.min (len "a-very-long-common-name.example.com") 28.
Proof.
  destruct (proj1 (truncate_length "a-very-long-common-name.example.com" 28)
              ltac:(lia)) as (t & Ht & Hl & _).
  exists t. split; [exact Ht | exact Hl].
Defined.

Example truncate_examples :
  truncate "a-very-long-common-name.example.com" 28
  = Some "a-very-long-common-name.e..." /\
  truncate "example.com" 28 = Some "example.com" /\
  truncate "example.com" 3 = Some "exa" /\
  truncate "example.com" 0 = Some EmptyString /\
  truncate EmptyString (-1) = None.
Proof. vm_compute. repeat split. Qed.

(** ** Random identifiers of the preview *)

Lemma forall_below (P : Z -> Prop) (m : nat) :
  (forall k, (k < m)%nat -> P (Z.of_nat k)) ->
  forall n, 0 <= n < Z.of_nat m -> P n.
Proof.
  intros H n Hn. replace n with (Z.of_nat (Z.to_nat n)) by lia.
  apply H. lia.
Qed.

Lemma hex_digit_lower (n : Z) :
  0 <= n < 16 -> isLowerHex (hex_digit n) = true.
Proof.
  revert n. apply (forall_below _ 16). intros k Hk.
  do 16 (destruct k as [|k]; [reflexivity|]). lia.
Qed.

Lemma upper_hex_digit_upper (n : Z) :
  0 <= n < 16 -> isUpperHex (upper_hex_digit n) = true.
Proof.
  revert n. apply (forall_below _ 16). intros k Hk.
  do 16 (destruct k as [|k]; [reflexivity|]). lia.
Qed.

Lemma matchesPattern_app (p1 p2 s1 s2 : string) :
  matchesPattern p1 s1 = true -> matchesPattern p2 s2 = true ->
  matchesPattern (p1 ++ p2) (s1 ++ s2) = true.
Proof.
  revert s1. induction p1 as [|a p1 IH]; intros s1 H1 H2.
  - destruct s1; [exact H2 | discriminate].
  - destruct s1 as [|c s1]; [discriminate|].
    cbn [matchesPattern append] in *.
    apply andb_true_iff in H1. destruct H1 as [Hc H1].
    rewrite Hc. cbn [andb]. apply IH; assumption.
Qed.

Lemma matchesPattern_length (p s : string) :
  matchesPattern p s = true -> String.length s = String.length p.
Proof.
  revert s. induction p as [|a p IH]; intros [|c s] H;
    try discriminate; [reflexivity|].
  cbn [matchesPattern] in H. apply andb_true_iff in H.
  cbn [String.length]. f_equal. apply IH. apply H.
Qed.

Lemma hex_EncodeToString_pattern (b : list Z) :
  matchesPattern (repeat_string "xx" (List.length b)) (hex_EncodeToString b)
  = true.
Proof.
  induction b as [|v b IH]; [reflexivity|].
  cbn [List.length repeat_string hex_EncodeToString append matchesPattern].
  unfold matchesChar. cbn [Ascii.eqb Bool.eqb].
  rewrite !hex_digit_lower by (apply Z.mod_pos_bound; lia).
  exact IH.
Qed.

Lemma repeat_zeros_pattern (n : nat) :
  matchesPattern (repeat_string "xx" n) (repeat_string "00" n) = true.
Proof. induction n as [|n IH]; [reflexivity|]. cbn. exact IH. Qed.

Lemma version_nibble (b : Z) :
  hex_digit (Z.shiftr (Z.lor (Z.land b 15) 64) 4 mod 16) = "4"%char.
Proof.
  assert (H : 0 <= Z.land b 15 < 16).
  { change 15 with (Z.ones 4). rewrite Z.land_ones by lia.
    apply Z.mod_pos_bound. lia. }
  revert H. generalize (Z.land b 15). apply (forall_below _ 16).
  intros k Hk. do 16 (destruct k as [|k]; [reflexivity|]). lia.
Qed.

Lemma variant_nibble (b : Z) :
  existsb (Ascii.eqb (hex_digit (Z.shiftr (Z.lor (Z.land b 63) 128) 4 mod 16)))
    (list_ascii_of_string "89ab") = true.
Proof.
  assert (H : 0 <= Z.land b 63 < 64).
  { change 63 with (Z.ones 6). rewrite Z.land_ones by lia.
    apply Z.mod_pos_bound. lia. }
  revert H. generalize (Z.land b 63). apply (forall_below _ 64).
  intros k Hk. do 64 (destruct k as [|k]; [reflexivity|]). lia.
Qed.

Lemma generateUUIDv4_isUUIDv4 (rnd : RandSource) :
  isUUIDv4 (generateUUIDv4 rnd) = true.
Proof.
  destruct rnd as [f|]; [|reflexivity].
  unfold generateUUIDv4, rand_Read.
  cbn [seq map set_at get_at nth slice Nat.sub firstn skipn].
  unfold fmt_0x.
  cbn [hex_EncodeToString String.length Nat.sub zeros append].
  unfold isUUIDv4. cbn [matchesPattern].
  unfold matchesChar. cbn [Ascii.eqb Bool.eqb].
  rewrite version_nibble, variant_nibble.
  rewrite !hex_digit_lower by (apply Z.mod_pos_bound; lia).
  reflexivity.
Qed.

(** X20. [generateUUIDv4] always returns a string of the shape
    8-4-4-4-12 in lower-case hex digits whose version digit is 4 and whose
    variant digit is one of 8, 9, a, b, whatever bytes the random source
    hands out; when the source fails it returns the fixed identifier of
    the same shape. *)
Theorem generateUUIDv4_shape (rnd : RandSource) :
  isUUIDv4 (generateUUIDv4 rnd) = true /\
  len (generateUUIDv4 rnd) = 36 /\
  isUUIDv4 zeroUUID = true /\
  generateUUIDv4 None = zeroUUID.
Proof.
  pose proof (generateUUIDv4_isUUIDv4 rnd) as Hshape.
  split; [exact Hshape|]. split; [|split; reflexivity].
  unfold len. rewrite (matchesPattern_length _ _ Hshape). reflexivity.
Qed.

Example generateUUIDv4_example :
  generateUUIDv4 (Some (fun i => Z.of_nat (17 * i + 3)))
  = "03142536-4758-497a-8b9c-adbecfe0f102".
Proof. vm_compute. reflexivity. Qed.

Lemma repeat_string_length (s : string) (n : nat) :
  String.length (repeat_string s n) = (n * String.length s)%nat.
Proof.
  induction n as [|n IH]; [reflexivity|].
  cbn [repeat_string]. rewrite append_length, IH. lia.
Qed.

Lemma rand_Read_bytes (f : nat -> Z) (n : nat) :
  rand_Read (Some f) n = Some (map (fun i => f i mod 256) (seq 0 n)).
Proof. destruct n; reflexivity. Qed.

Lemma rand_Read_length (rnd : RandSource) (n : nat) (b : list Z) :
  rand_Read rnd n = Some b -> List.length b = n.
Proof.
  destruct rnd as [f|].
  - rewrite rand_Read_bytes. intros H. injection H as <-.
    rewrite length_map, length_seq. reflexivity.
  - destruct n; [|discriminate]. intros H. injection H as <-. reflexivity.
Qed.

Lemma randomHex_nonneg (rnd : RandSource) (n : Z) :
  0 <= n ->
  exists s, randomHex rnd n = Some s /\
            matchesPattern (repeat_string "xx" (Z.to_nat n)) s = true.
Proof.
  intros Hn. unfold randomHex.
  replace (n <? 0) with false by (symmetry; apply Z.ltb_ge; lia).
  destruct (rand_Read rnd (Z.to_nat n)) as [b|] eqn:Hread.
  - eexists. split; [reflexivity|].
    pose proof (hex_EncodeToString_pattern b) as H.
    rewrite (rand_Read_length _ _ _ Hread) in H. exact H.
  - unfold strings_Repeat.
    replace (n <? 0) with false by (symmetry; apply Z.ltb_ge; lia).
    eexists. split; [reflexivity | apply repeat_zeros_pattern].
Qed.

(** X21. For every sequence of bytes the random source returns,
    [randomHex n] is the hex encoding of the first [n] of them: exactly
    [2 n] lower-case hex digits. [randomHex 0] is the empty string
    whatever the source, and a negative [n] panics. *)
Theorem randomHex_shape (f : nat -> Z) (n : Z) :
  (0 <= n ->
   randomHex (Some f) n
   = Some (hex_EncodeToString
             (map (fun i => f i mod 256) (seq 0 (Z.to_nat n)))) /\
   exists s, randomHex (Some f) n = Some s /\
             matchesPattern (repeat_string "xx" (Z.to_nat n)) s = true /\
             len s = 2 * n) /\
  (forall rnd, randomHex rnd 0 = Some EmptyString) /\
  (forall rnd, n < 0 -> randomHex rnd n = None).
Proof.
  split; [|split].
  - intros Hn. split.
    + unfold randomHex.
      replace (n <? 0) with false by (symmetry; apply Z.ltb_ge; lia).
      rewrite rand_Read_bytes. reflexivity.
    + destruct (randomHex_nonneg (Some f) n Hn) as (s & Hs & Hp).
      exists s. split; [exact Hs|]. split; [exact Hp|].
      unfold len.
      rewrite (matchesPattern_length _ _ Hp), repeat_string_length.
      cbn [String.length]. lia.
  - intros rnd. destruct rnd; reflexivity.
  - intros rnd Hn. unfold randomHex.
    replace (n <? 0) with true by (symmetry; apply Z.ltb_lt; lia).
    reflexivity.
Qed.

Lemma randomHex_shape_witness :
  randomHex (Some (fun i => Z.of_nat (80 * i + 7))) 4 = Some "0757a7f7" /\
  exists s, randomHex (Some (fun i => Z.of_nat (80 * i + 7))) 4 = Some s /\
            len s = 8.
Proof.
  destruct (proj1 (randomHex_shape (fun i => Z.of_nat (80 * i + 7)) 4)
              ltac:(lia)) as (He & s & Hs & _ & Hl).
  split; [exact He|]. exists s. split; [exact Hs | exact Hl].
Defined.

Lemma fmt_02X_pattern (v : Z) : matchesPattern "XX" (fmt_02X v) = true.
Proof.
  unfold fmt_02X. cbn [matchesPattern]. unfold matchesChar.
  cbn [Ascii.eqb Bool.eqb].
  rewrite !upper_hex_digit_upper by (apply Z.mod_pos_bound; lia).
  reflexivity.
Qed.

Lemma strings_Join_pattern (parts : list string) :
  Forall (fun p => matchesPattern "XX" p = true) parts ->
  matchesPattern (serialPattern (List.length parts)) (strings_Join parts ":")
  = true.
Proof.
  unfold serialPattern.
  induction 1 as [|p parts Hp Hall IH]; [reflexivity|].
  destruct parts as [|q parts]; [exact Hp|].
  change (matchesPattern ("XX" ++ ":" ++ strings_Join (repeat "XX" (List.length (q :: parts))) ":")
            (p ++ ":" ++ strings_Join (q :: parts) ":") = true).
  apply matchesPattern_app; [exact Hp|].
  apply (matchesPattern_app ":" _ ":" _); [reflexivity | exact IH].
Qed.

Lemma serialPattern_zeros (n : nat) :
  matchesPattern (serialPattern (S n)) (repeat_string "00:" n ++ "00") = true.
Proof.
  unfold serialPattern. induction n as [|n IH]; [reflexivity|].
  change (matchesPattern ("XX" ++ ":" ++ strings_Join (repeat "XX" (S n)) ":")
            ("00" ++ ":" ++ (repeat_string "00:" n ++ "00")) = true).
  apply matchesPattern_app; [reflexivity|].
  apply (matchesPattern_app ":" _ ":" _); [reflexivity | exact IH].
Qed.

Lemma serialPattern_length (n : nat) :
  String.length (serialPattern (S n)) = (3 * n + 2)%nat.
Proof.
  unfold serialPattern. induction n as [|n IH]; [reflexivity|].
  change (String.length ("XX" ++ ":" ++ strings_Join (repeat "XX" (S n)) ":")
          = (3 * S n + 2)%nat).
  rewrite !append_length, IH. cbn [String.length]. lia.
Qed.

Lemma randomSerialNumber_pos (rnd : RandSource) (n : Z) :
  1 <= n ->
  exists s, randomSerialNumber rnd n = Some s /\
            matchesPattern (serialPattern (Z.to_nat n)) s = true.
Proof.
  intros Hn. unfold randomSerialNumber.
  replace (n <? 0) with false by (symmetry; apply Z.ltb_ge; lia).
  destruct (rand_Read rnd (Z.to_nat n)) as [b|] eqn:Hread.
  - eexists. split; [reflexivity|].
    pose proof (strings_Join_pattern (map fmt_02X b)) as H.
    rewrite length_map, (rand_Read_length _ _ _ Hread) in H. apply H.
    apply Forall_forall. intros p Hin. apply in_map_iff in Hin.
    destruct Hin as (v & <- & _). apply fmt_02X_pattern.
  - unfold strings_Repeat.
    replace (n - 1 <? 0) with false by (symmetry; apply Z.ltb_ge; lia).
    eexists. split; [reflexivity|].
    replace (Z.to_nat n) with (S (Z.to_nat (n - 1))) by lia.
    apply serialPattern_zeros.
Qed.

(** X22. For every sequence of bytes the random source returns and
    [n >= 1], [randomSerialNumber n] is [n] pairs of upper-case hex digits
    with colons between them, [3 n - 1] bytes in all.
    [randomSerialNumber 0] is the empty string whatever the source (a read
    of no byte cannot fail, so the fallback, which would ask for a
    negative repetition, is not reached), and a negative [n] panics. *)
Theorem randomSerialNumber_shape (f : nat -> Z) (n : Z) :
  (1 <= n ->
   exists s, randomSerialNumber (Some f) n = Some s /\
             matchesPattern (serialPattern (Z.to_nat n)) s = true /\
             len s = 3 * n - 1) /\
  (forall rnd, randomSerialNumber rnd 0 = Some EmptyString) /\
  (forall rnd, n < 0 -> randomSerialNumber rnd n = None).
Proof.
  split; [|split].
  - intros Hn.
    destruct (randomSerialNumber_pos (Some f) n Hn) as (s & Hs & Hp).
    exists s. split; [exact Hs|]. split; [exact Hp|].
    unfold len. rewrite (matchesPattern_length _ _ Hp).
    replace (Z.to_nat n) with (S (Z.to_nat (n - 1))) by lia.
    rewrite serialPattern_length. lia.
  - intros rnd. destruct rnd; reflexivity.
  - intros rnd Hn. unfold randomSerialNumber.
    replace (n <? 0) with true by (symmetry; apply Z.ltb_lt; lia).
    reflexivity.
Qed.

Lemma randomSerialNumber_shape_witness :
  exists s,
    randomSerialNumber (Some (fun i => Z.of_nat (40 * i + 10))) 4 = Some s /\
    matchesPattern "XX:XX:XX:XX" s = true /\ len s = 11.
Proof.
  exact (proj1 (randomSerialNumber_shape
                  (fun i => Z.of_nat (40 * i + 10)) 4) ltac:(lia)).
Defined.

Example randomSerialNumber_example :
  randomSerialNumber (Some (fun i => Z.of_nat (40 * i + 10))) 4
  = Some "0A:32:5A:82" /\
  randomSerialNumber (Some (fun i => Z.of_nat i)) 1 = Some "00" /\
  randomSerialNumber None 0 = Some EmptyString.
Proof. vm_compute. repeat split. Qed.

(** X23. [GenerateSamplePayload] always returns a payload, whatever the
    random sources do: its event id is "evt_" and a version-4 identifier,
    its fingerprint "sha256:" and 64 lower-case hex digits, its serial
    number 16 colon-separated pairs of upper-case hex digits, and its
    timestamp, not-before and seen-at are the same instant, 90 days
    before not-after. *)
Theorem GenerateSamplePayload_shape (clk : Clock) (rnd : nat -> RandSource) :
  exists p u fp,
    GenerateSamplePayload clk rnd = Some p /\
    EventID p = "evt_" ++ u /\ isUUIDv4 u = true /\
    Fingerprint (Data p) = "sha256:" ++ fp /\
    matchesPattern (repeat_string "xx" 32) fp = true /\
    matchesPattern (serialPattern 16) (SerialNumber (Data p)) = true /\
    Event p = "ct.certificate.new" /\
    Timestamp p = clock_rfc3339 clk (clock_now clk) /\
    NotBefore (Data p) = Timestamp p /\
    SeenAt (Data p) = Timestamp p /\
    NotAfter (Data p) = clock_rfc3339 clk (clock_now clk + 7776000).
Proof.
  unfold GenerateSamplePayload. cbv zeta.
  destruct (randomHex_nonneg (rnd 1%nat) 32 ltac:(lia)) as (fp & Hfp & Hpat).
  destruct (randomSerialNumber_pos (rnd 2%nat) 16 ltac:(lia))
    as (sn & Hsn & Hspat).
  rewrite Hfp, Hsn.
  eexists. exists (generateUUIDv4 (rnd 0%nat)), fp.
  split; [reflexivity|]. cbn [EventID Fingerprint Data SerialNumber Event
                               Timestamp NotBefore SeenAt NotAfter].
  split; [reflexivity|].
  split; [apply generateUUIDv4_isUUIDv4|].
  split; [reflexivity|].
  split; [exact Hpat|].
  split; [exact Hspat|].
  repeat split.
Qed.

(** ** The Node receiver *)

Lemma unhex_hex_digit (n : Z) :
  0 <= n < 16 -> Node.unhex (hex_digit n) = Some n.
Proof.
  revert n. apply (forall_below _ 16). intros k Hk.
  do 16 (destruct k as [|k]; [reflexivity|]). lia.
Qed.

Lemma lor_nibbles (h : Z) :
  0 <= h < 16 -> forall l, 0 <= l < 16 -> Z.lor (Z.shiftl h 4) l = 16 * h + l.
Proof.
  revert h.
  refine (forall_below
            (fun h => forall l, 0 <= l < 16 ->
                                Z.lor (Z.shiftl h 4) l = 16 * h + l) 16 _).
  intros kh Hh.
  refine (forall_below
            (fun l => Z.lor (Z.shiftl (Z.of_nat kh) 4) l
                      = 16 * Z.of_nat kh + l) 16 _).
  intros kl Hl.
  do 16 (destruct kh as [|kh];
         [do 16 (destruct kl as [|kl]; [reflexivity|]); lia|]).
  lia.
Qed.

Lemma byte_of_nibbles (b : Z) :
  0 <= b < 256 ->
  Z.lor (Z.shiftl (Z.shiftr b 4 mod 16) 4) (b mod 16) = b.
Proof.
  intros H. rewrite Z.shiftr_div_pow2 by lia. change (2 ^ 4) with 16.
  assert (H1 : 0 <= b / 16 < 16).
  { split; [apply Z.div_pos; lia | apply Z.div_lt_upper_bound; lia]. }
  rewrite (Z.mod_small (b / 16)) by exact H1.
  pose proof (Z.mod_pos_bound b 16 ltac:(lia)) as H2.
  rewrite lor_nibbles by assumption.
  pose proof (Z.div_mod b 16 ltac:(lia)). lia.
Qed.

Lemma Buffer_from_hex_encoded (l : list Z) (t : string) :
  Forall isByte l ->
  Node.Buffer_from_hex (hex_EncodeToString l ++ t)
  = (l ++ Node.Buffer_from_hex t)%list.
Proof.
  induction 1 as [|b l Hb _ IH]; [reflexivity|].
  cbn [hex_EncodeToString append Node.Buffer_from_hex].
  rewrite !unhex_hex_digit by (apply Z.mod_pos_bound; lia).
  rewrite byte_of_nibbles by exact Hb. rewrite IH. reflexivity.
Qed.

Lemma append_empty_r (s : string) : s ++ EmptyString = s.
Proof. induction s as [|c s IH]; [reflexivity|]. cbn. rewrite IH. reflexivity. Qed.

Lemma append_inj_l (a x y : string) : a ++ x = a ++ y -> x = y.
Proof.
  induction a as [|c a IH]; intros H; [exact H|].
  cbn [append] in H. injection H as H. exact (IH H).
Qed.

Lemma be32_isByte (x : Z) : Forall isByte (be32 x).
Proof.
  unfold be32, isByte. repeat constructor; apply Z.mod_pos_bound; lia.
Qed.

Lemma hmac_sha256_isByte (key msg : list Z) :
  Forall isByte (hmac_sha256 key msg).
Proof.
  unfold hmac_sha256. cbv zeta.
  generalize (map (fun b => Z.lxor b 92) (hmac_key key) ++
              sha256_Sum (map (fun b => Z.lxor b 54) (hmac_key key) ++ msg))%list.
  intros m. unfold sha256_Sum. cbv zeta.
  rewrite !Forall_app. repeat split; apply be32_isByte.
Qed.

Lemma bytes_eqb_eq (a b : list Z) : Node.bytes_eqb a b = true <-> a = b.
Proof.
  revert b. induction a as [|x a IH]; intros [|y b]; cbn;
    try (split; [discriminate | discriminate]); [tauto|].
  rewrite andb_true_iff, Z.eqb_eq, IH. split.
  - intros [-> ->]. reflexivity.
  - intros H. injection H as -> ->. split; reflexivity.
Qed.

Lemma timingSafeEqual_true (a b : list Z) :
  Node.timingSafeEqual a b = Some true <-> a = b.
Proof.
  unfold Node.timingSafeEqual. split.
  - destruct (Nat.eqb _ _); [|discriminate]. intros H.
    apply bytes_eqb_eq. congruence.
  - intros ->. rewrite Nat.eqb_refl. f_equal. apply bytes_eqb_eq. reflexivity.
Qed.

Lemma Node_verifySignature_spec (body secret h : string) :
  Node.verifySignature body (Some h) secret = true <->
  exists p, h = "sha256=" ++ p /\
            Node.Buffer_from_hex p
            = hmac_sha256 (bytes_of_string secret) (bytes_of_string body).
Proof.
  unfold Node.verifySignature. cbv zeta.
  pose proof (Buffer_from_hex_encoded
                (hmac_sha256 (bytes_of_string secret) (bytes_of_string body))
                EmptyString (hmac_sha256_isByte _ _)) as Hexp.
  rewrite append_empty_r, app_nil_r in Hexp. rewrite Hexp.
  generalize (hmac_sha256 (bytes_of_string secret) (bytes_of_string body)).
  intros mac. split.
  - destruct (isEmpty h); [discriminate|]. cbn [orb].
    destruct (HasPrefix h "sha256=") eqn:Hp; cbn [negb]; [|discriminate].
    destruct (HasPrefix_split _ _ Hp) as [p ->].
    rewrite substring_after_sha256. intros H. exists p. split; [reflexivity|].
    destruct (Node.timingSafeEqual mac (Node.Buffer_from_hex p)) as [b|] eqn:Ht;
      [|discriminate].
    subst b. symmetry. apply timingSafeEqual_true. exact Ht.
  - intros (p & -> & Hp).
    replace (isEmpty ("sha256=" ++ p)) with false by reflexivity.
    rewrite HasPrefix_app. cbn [orb negb].
    rewrite substring_after_sha256, Hp.
    rewrite (proj2 (timingSafeEqual_true mac mac) eq_refl). reflexivity.
Qed.

Lemma verifySignature_only (body header secret : string) :
  verifySignature body header secret = true ->
  header = "sha256=" ++ SignPayload body secret.
Proof.
  unfold verifySignature, hmac_Equal.
  change (hex_EncodeToString
            (hmac_sha256 (bytes_of_string secret) (bytes_of_string body)))
    with (SignPayload body secret).
  generalize (SignPayload body secret); intros sig.
  destruct (HasPrefix header "sha256=") eqn:Hp; cbn [negb]; [|discriminate].
  destruct (HasPrefix_split _ _ Hp) as [r ->]. cbv zeta.
  rewrite substring_after_sha256. intros H. apply String.eqb_eq in H.
  subst r. reflexivity.
Qed.

(** X24. The Node receiver accepts a signature header exactly when it
    reads [sha256=] followed by a text whose leading pairs of hex digits
    decode to the 32 bytes of the HMAC-SHA256 of the body; an absent or
    empty header is refused. *)
Theorem Node_verifySignature_iff (body secret : string)
    (header : option string) :
  Node.verifySignature body header secret = true <->
  exists p, header = Some ("sha256=" ++ p) /\
            Node.Buffer_from_hex p
            = hmac_sha256 (bytes_of_string secret) (bytes_of_string body).
Proof.
  destruct header as [h|].
  - rewrite Node_verifySignature_spec. split.
    + intros (p & -> & Hp). exists p. split; [reflexivity | exact Hp].
    + intros (p & H & Hp). injection H as ->. exists p.
      split; [reflexivity | exact Hp].
  - split; [discriminate | intros (p & H & _); discriminate].
Qed.

(** X25. The two example receivers do not accept the same headers. Every
    header the Go receiver accepts, and so the header the sender builds,
    is accepted by the Node receiver; the Node receiver also accepts that
    header followed by any text that does not start with two hex digits,
    which the Go receiver refuses unless the text is empty. *)
Theorem Node_receiver_more_lenient (body secret : string) :
  (forall h, verifySignature body h secret = true ->
             Node.verifySignature body (Some h) secret = true) /\
  (forall t, Node.Buffer_from_hex t = [] ->
     Node.verifySignature body
       (Some ("sha256=" ++ SignPayload body secret ++ t)) secret = true /\
     (t <> EmptyString ->
      verifySignature body ("sha256=" ++ SignPayload body secret ++ t) secret
      = false)).
Proof.
  assert (Hlen : forall t,
             Node.Buffer_from_hex t = [] ->
             Node.verifySignature body
               (Some ("sha256=" ++ SignPayload body secret ++ t)) secret
             = true).
  { intros t Ht. apply Node_verifySignature_spec.
    exists (SignPayload body secret ++ t). split; [reflexivity|].
    unfold SignPayload.
    rewrite Buffer_from_hex_encoded by apply hmac_sha256_isByte.
    rewrite Ht. apply app_nil_r. }
  split.
  - intros h Hgo. apply verifySignature_only in Hgo. subst h.
    specialize (Hlen EmptyString eq_refl).
    rewrite append_empty_r in Hlen. exact Hlen.
  - intros t Ht. split; [apply Hlen; exact Ht|].
    intros Hne.
    destruct (verifySignature body
                ("sha256=" ++ SignPayload body secret ++ t) secret) eqn:Hgo;
      [|reflexivity].
    exfalso. apply verifySignature_only in Hgo.
    apply append_inj_l in Hgo. apply Hne.
    apply (append_inj_l (SignPayload body secret)).
    rewrite append_empty_r. exact Hgo.
Qed.

Lemma Node_receiver_more_lenient_witness :
  Node.verifySignature "{}"
    (Some ("sha256=" ++ SignPayload "{}" "abc123" ++ "; v=1")) "abc123"
  = true /\
  verifySignature "{}" ("sha256=" ++ SignPayload "{}" "abc123" ++ "; v=1")
    "abc123" = false.
Proof.
  destruct (proj2 (Node_receiver_more_lenient "{}" "abc123") "; v=1" eq_refl)
    as [Hn Hg].
  split; [exact Hn | apply Hg; discriminate].
Defined.

Example Node_verifySignature_examples :
  Node.verifySignature "{}"
    (Some ("sha256=" ++ SignPayload "{}" "abc123")) "abc123" = true /\
  Node.verifySignature "{}"
    (Some ("sha256=" ++ SignPayload "{}" "abc123")) "other" = false /\
  Node.verifySignature "{}" (Some "sha256=") "abc123" = false /\
  Node.verifySignature "{}" (Some EmptyString) "abc123" = false /\
  Node.verifySignature "{}" None "abc123" = false /\
  Node.Buffer_from_hex "1ag123" = [26] /\
  Node.Buffer_from_hex "1A7" = [26].
Proof. vm_compute. repeat split. Qed.

(** ** Errors and exit status of a run *)

Lemma checkForFailures_two (rs : list DeliveryResult) :
  checkForFailures rs = None \/ checkForFailures rs = Some ErrDeliveriesFailed.
Proof.
  induction rs as [|r rs IH]; cbn; [left; reflexivity|].
  destruct (negb (Success r)); [right; reflexivity | exact IH].
Qed.

Lemma runStream_error_kinds (w : World) (opts : CliOptions) (outFile : bool)
    (secret streamURL : string) (st : RunState) :
  fst (runStream w opts outFile secret streamURL st) = None \/
  fst (runStream w opts outFile secret streamURL st) = Some ErrDeliveriesFailed
  \/ exists cause,
       fst (runStream w opts outFile secret streamURL st)
       = Some (ErrStream cause).
Proof.
  unfold runStream.
  destruct (ConnectStream _ _ _ _ _ _ _ _) as [[err st'] tick].
  cbv zeta. unfold finishRun. cbv zeta.
  pose proof (checkForFailures_two (results st')) as Hc.
  destruct err as [cause|]; [|cbn [fst]; tauto].
  destruct (ctx_Done (w_ctx w) tick && _); [cbn [fst]; tauto|].
  destruct (negb (ctx_Done (w_ctx w) (S tick))); cbn [fst]; [|tauto].
  right. right. exists cause. reflexivity.
Qed.

Lemma Run_error_kinds (w : World) (opts : CliOptions) (version : string) :
  fst (Run w opts version) <> Some ErrNilPointer.
Proof.
  unfold Run.
  destruct (Preview opts); [cbn [fst]; discriminate|].
  destruct (negb (isEmpty (APIKey opts))).
  2:{ cbv zeta. apply Run_outputs_no_panic. }
  cbv zeta.
  destruct (CreateSession_cases (w_env w) (w_session w) (APIEndpoint opts)
              (APIKey opts) (Secret opts))
    as [(sess & -> & Hacc) | (msg & -> & Hno)].
  - destruct Hacc as (_ & c & b & _ & _ & _ & _ & Hd).
    destruct (sr_Data sess) as [data|]; [|contradiction].
    apply Run_outputs_no_panic.
  - cbn [fst]. discriminate.
Qed.

Lemma emit_unless_net (q : bool) (o : Output) (st : RunState) :
  net (emit_unless q o st) = net st /\
  results (emit_unless q o st) = results st.
Proof. destruct q; split; reflexivity. Qed.

Lemma runOutputs_setup_failure (w : World) (opts : CliOptions)
    (secret streamURL : string) (st : RunState) (e : RunError) :
  fst (runOutputs w opts secret streamURL st) = Some e ->
  (exists cause, e = ErrCreateSession cause) \/
  (exists file cause, e = ErrOpenFile file cause) ->
  snd (runOutputs w opts secret streamURL st) = st /\
  e = ErrOpenFile (File opts) match w_openFile w (File opts) with
                              | Some cause => cause
                              | None => EmptyString
                              end /\
  isEmpty (File opts) = false /\ w_openFile w (File opts) <> None.
Proof.
  unfold runOutputs. intros He Hkind.
  assert (Hs : forall outFile,
             fst (runStream w opts outFile secret streamURL st) = Some e ->
             False).
  { intros outFile H.
    destruct (runStream_error_kinds w opts outFile secret streamURL st)
      as [H0 | [H0 | [c H0]]]; rewrite H0 in H; injection H as <- ||
        discriminate H;
      destruct Hkind as [[c' Hk] | (f & c' & Hk)]; discriminate Hk. }
  destruct (isEmpty (File opts)); cbn [negb] in *.
  - exfalso. exact (Hs false He).
  - destruct (w_openFile w (File opts)) as [cause|].
    + cbn [fst snd] in *. injection He as <-.
      repeat split; [discriminate].
    + exfalso. exact (Hs true He).
Qed.

(** X26. When [Run] fails because the session could not be created or
    the output file could not be opened, nothing was delivered: no request
    reached the target, no outcome was recorded and no payload line was
    written. *)
Theorem Run_setup_failure_delivers_nothing (w : World) (opts : CliOptions)
    (version : string) (e : RunError) :
  fst (Run w opts version) = Some e ->
  (exists cause, e = ErrCreateSession cause) \/
  (exists file cause, e = ErrOpenFile file cause) ->
  net (snd (Run w opts version)) = [] /\
  results (snd (Run w opts version)) = [] /\
  Forall (fun o => isPayloadLine o = false) (out (snd (Run w opts version))).
Proof.
  unfold Run. intros He Hkind.
  destruct (Preview opts); [discriminate He|].
  destruct (negb (isEmpty (APIKey opts))).
  - cbv zeta in *.
    destruct (CreateSession (w_env w) (w_session w) (APIEndpoint opts)
                (APIKey opts) (Secret opts)) as [[sess|] [cause|]].
    + cbn [snd]. destruct (Raw opts); cbn; repeat split; repeat constructor.
    + destruct (sr_Data sess) as [data|].
      * destruct (runOutputs_setup_failure _ _ _ _ _ _ He Hkind)
          as (-> & _).
        destruct (Raw opts); cbn; repeat split; repeat constructor.
      * injection He as <-.
        destruct Hkind as [[c Hk] | (f & c & Hk)]; discriminate Hk.
    + cbn [snd]. destruct (Raw opts); cbn; repeat split; repeat constructor.
    + injection He as <-.
      destruct Hkind as [[c Hk] | (f & c & Hk)]; discriminate Hk.
  - cbv zeta in *.
    destruct (runOutputs_setup_failure _ _ _ _ _ _ He Hkind) as (-> & _).
    destruct (Raw opts); cbn; repeat split; repeat constructor.
Qed.

Lemma Run_setup_failure_delivers_nothing_witness :
  net (snd (Run noFileWorld (exampleOpts "http://localhost:3000/webhook"
                               "out.jsonl") "1.0")) = [].
Proof.
  refine (proj1 (Run_setup_failure_delivers_nothing noFileWorld
    (exampleOpts "http://localhost:3000/webhook" "out.jsonl") "1.0"
    (ErrOpenFile "out.jsonl" "permission denied") _ _)).
  - vm_compute. reflexivity.
  - right. exists "out.jsonl", "permission denied". reflexivity.
Defined.

(** X27. The exit status of [main] is 0, 1 or 2, and it is 2 exactly when
    the command line does not parse (no panic in [Run] ever gives it);
    [-h] exits with 0. For a command line that parses, the status is 0 for
    [-version] and for [-preview], whatever the other flags and the world;
    it is 1, without a run, when a stream mode lacks an output target or a
    credential; otherwise it is 0 exactly when [Run] returns a nil
    error. *)
Theorem main_exit_status (w : World) (parse : FlagParse)
    (version : string) :
  let code := main w parse version in
  (code = 0 \/ code = 1 \/ code = 2) /\
  (code = 2 <-> parse = FlagError) /\
  (parse = FlagHelp -> code = 0) /\
  (forall showVersion flags,
     parse = FlagsParsed showVersion flags ->
     (showVersion = true -> code = 0) /\
     (showVersion = false -> Preview flags = true -> code = 0) /\
     (showVersion = false -> Preview flags = false ->
      isEmpty (URL flags) && isEmpty (File flags) && negb (Raw flags) = true
      \/ isEmpty (APIKey flags) && isEmpty (Secret flags) = true ->
      code = 1) /\
     (showVersion = false -> Preview flags = false ->
      isEmpty (URL flags) && isEmpty (File flags) && negb (Raw flags)
      = false ->
      isEmpty (APIKey flags) && isEmpty (Secret flags) = false ->
      (code = 0 <-> fst (Run w flags version) = None))).
Proof.
  cbv zeta.
  assert (Hexit : forall opts,
             (exitStatus (fst (Run w opts version)) = 0 \/
              exitStatus (fst (Run w opts version)) = 1) /\
             (exitStatus (fst (Run w opts version)) = 0 <->
              fst (Run w opts version) = None)).
  { intros opts. pose proof (Run_error_kinds w opts version) as Hp.
    destruct (fst (Run w opts version)) as [[c|f c|c| |]|]; cbn;
      try contradiction;
      (split; [auto | split; [discriminate || reflexivity
                             | discriminate || reflexivity]]). }
  assert (Hparsed : forall showVersion flags,
             main w (FlagsParsed showVersion flags) version = 0 \/
             main w (FlagsParsed showVersion flags) version = 1).
  { intros showVersion flags. cbn [main].
    destruct showVersion; [left; reflexivity|].
    destruct (Preview flags); [apply Hexit|].
    destruct (isEmpty (URL flags) && isEmpty (File flags) && negb (Raw flags));
      [right; reflexivity|].
    destruct (isEmpty (APIKey flags) && isEmpty (Secret flags));
      [right; reflexivity | apply Hexit]. }
  split; [|split; [|split]].
  - destruct parse as [| |showVersion flags].
    + right. right. reflexivity.
    + left. reflexivity.
    + destruct (Hparsed showVersion flags) as [H | H]; rewrite H; auto.
  - destruct parse as [| |showVersion flags].
    + split; reflexivity.
    + split; discriminate.
    + split; [|discriminate].
      destruct (Hparsed showVersion flags) as [H | H]; rewrite H;
        discriminate.
  - intros ->. reflexivity.
  - intros showVersion flags ->. cbn [main].
    split; [|split; [|split]].
    + intros ->. reflexivity.
    + intros -> ->. reflexivity.
    + intros -> -> [H | H].
      * rewrite H. reflexivity.
      * rewrite H.
        destruct (isEmpty (URL flags) && isEmpty (File flags)
                  && negb (Raw flags)); reflexivity.
    + intros -> -> -> ->. apply Hexit.
Qed.

Lemma main_exit_status_witness :
  main (exampleWorld (Response 200 EmptyString) None)
    (FlagsParsed false (previewFlags "s3cr3t")) "1.0" = 0 /\
  main (exampleWorld (Response 200 EmptyString) None) FlagError "1.0" = 2.
Proof.
  split.
  - refine (proj1 (proj2 (proj2 (proj2 (proj2 (main_exit_status
      (exampleWorld (Response 200 EmptyString) None)
      (FlagsParsed false (previewFlags "s3cr3t")) "1.0"))) false
      (previewFlags "s3cr3t") eq_refl)) eq_refl eq_refl).
  - exact (proj2 (proj1 (proj2 (main_exit_status
      (exampleWorld (Response 200 EmptyString) None) FlagError "1.0")))
      eq_refl).
Defined.
